(** * Surface layout of the SWR gallium driver (swr_screen.cpp)

    A shallow embedding of [mesa_to_swr_format], [swr_displaytarget_layout],
    [swr_texture_layout], [swr_can_create_resource] and [swr_resource_create],
    with C's unsigned arithmetic written out on [Z]. *)

From Stdlib Require Import ZArith List Bool Lia.
Import ListNotations.
Local Open Scope Z_scope.

(** ** Machine integers

    [unsigned] and [uint32_t] are 32 bits wide, [size_t] is 64 bits wide (the
    rasterizer is built for x86-64 only).  Values are kept in [Z]; every
    operation the source performs on them reduces its result. *)

Module Mach.

Definition wrap32 (z : Z) : Z := z mod 2 ^ 32.
Definition wrap64 (z : Z) : Z := z mod 2 ^ 64.

Definition add32 (a b : Z) : Z := wrap32 (a + b).
Definition mul32 (a b : Z) : Z := wrap32 (a * b).
Definition mul64 (a b : Z) : Z := wrap64 (a * b).

(** Unsigned division; the divisor is a format block size, never 0 in the
    format table, and C leaves division by 0 undefined. *)
Definition div32 (a b : Z) : Z := a / b.

End Mach.
Import Mach.

(** ** Enumerations *)

(** [enum pipe_texture_target], the targets [swr_is_format_supported] lists. *)
Inductive pipe_texture_target : Set :=
  | PIPE_BUFFER | PIPE_TEXTURE_1D | PIPE_TEXTURE_2D | PIPE_TEXTURE_3D
  | PIPE_TEXTURE_CUBE | PIPE_TEXTURE_RECT | PIPE_TEXTURE_1D_ARRAY
  | PIPE_TEXTURE_2D_ARRAY | PIPE_TEXTURE_CUBE_ARRAY.

(** [enum pipe_format].  The constructors are the keys of the [mesa2swr]
    table, then the keys of its commented-out entries, then the stencil-only
    formats of the format table and two formats whose block is 12 and 24 bytes
    wide; [PIPE_FORMAT_OTHER] stands for every remaining tag. *)
Inductive pipe_format : Set :=
  | PIPE_FORMAT_Z16_UNORM | PIPE_FORMAT_Z32_FLOAT
  | PIPE_FORMAT_Z24_UNORM_S8_UINT | PIPE_FORMAT_Z24X8_UNORM
  | PIPE_FORMAT_Z32_FLOAT_S8X24_UINT | PIPE_FORMAT_A8_UNORM
  | PIPE_FORMAT_A16_UNORM | PIPE_FORMAT_A16_FLOAT | PIPE_FORMAT_A32_FLOAT
  | PIPE_FORMAT_B5G6R5_UNORM | PIPE_FORMAT_B5G6R5_SRGB
  | PIPE_FORMAT_B5G5R5A1_UNORM | PIPE_FORMAT_B5G5R5X1_UNORM
  | PIPE_FORMAT_B4G4R4A4_UNORM | PIPE_FORMAT_B8G8R8A8_UNORM
  | PIPE_FORMAT_B8G8R8A8_SRGB | PIPE_FORMAT_B8G8R8X8_UNORM
  | PIPE_FORMAT_B8G8R8X8_SRGB | PIPE_FORMAT_R10G10B10A2_UNORM
  | PIPE_FORMAT_R10G10B10A2_SNORM | PIPE_FORMAT_R10G10B10A2_USCALED
  | PIPE_FORMAT_R10G10B10A2_SSCALED | PIPE_FORMAT_R10G10B10A2_UINT
  | PIPE_FORMAT_R10G10B10X2_USCALED | PIPE_FORMAT_B10G10R10A2_UNORM
  | PIPE_FORMAT_B10G10R10A2_SNORM | PIPE_FORMAT_B10G10R10A2_USCALED
  | PIPE_FORMAT_B10G10R10A2_SSCALED | PIPE_FORMAT_B10G10R10A2_UINT
  | PIPE_FORMAT_B10G10R10X2_UNORM | PIPE_FORMAT_R11G11B10_FLOAT
  | PIPE_FORMAT_R32_FLOAT | PIPE_FORMAT_R32G32_FLOAT
  | PIPE_FORMAT_R32G32B32_FLOAT | PIPE_FORMAT_R32G32B32A32_FLOAT
  | PIPE_FORMAT_R32G32B32X32_FLOAT | PIPE_FORMAT_R32_USCALED
  | PIPE_FORMAT_R32G32_USCALED | PIPE_FORMAT_R32G32B32_USCALED
  | PIPE_FORMAT_R32G32B32A32_USCALED | PIPE_FORMAT_R32_SSCALED
  | PIPE_FORMAT_R32G32_SSCALED | PIPE_FORMAT_R32G32B32_SSCALED
  | PIPE_FORMAT_R32G32B32A32_SSCALED | PIPE_FORMAT_R32_UINT
  | PIPE_FORMAT_R32G32_UINT | PIPE_FORMAT_R32G32B32_UINT
  | PIPE_FORMAT_R32G32B32A32_UINT | PIPE_FORMAT_R32_SINT
  | PIPE_FORMAT_R32G32_SINT | PIPE_FORMAT_R32G32B32_SINT
  | PIPE_FORMAT_R32G32B32A32_SINT | PIPE_FORMAT_R16_UNORM
  | PIPE_FORMAT_R16G16_UNORM | PIPE_FORMAT_R16G16B16_UNORM
  | PIPE_FORMAT_R16G16B16A16_UNORM | PIPE_FORMAT_R16G16B16X16_UNORM
  | PIPE_FORMAT_R16_USCALED | PIPE_FORMAT_R16G16_USCALED
  | PIPE_FORMAT_R16G16B16_USCALED | PIPE_FORMAT_R16G16B16A16_USCALED
  | PIPE_FORMAT_R16_SNORM | PIPE_FORMAT_R16G16_SNORM
  | PIPE_FORMAT_R16G16B16_SNORM | PIPE_FORMAT_R16G16B16A16_SNORM
  | PIPE_FORMAT_R16_SSCALED | PIPE_FORMAT_R16G16_SSCALED
  | PIPE_FORMAT_R16G16B16_SSCALED | PIPE_FORMAT_R16G16B16A16_SSCALED
  | PIPE_FORMAT_R16_UINT | PIPE_FORMAT_R16G16_UINT
  | PIPE_FORMAT_R16G16B16_UINT | PIPE_FORMAT_R16G16B16A16_UINT
  | PIPE_FORMAT_R16_SINT | PIPE_FORMAT_R16G16_SINT
  | PIPE_FORMAT_R16G16B16_SINT | PIPE_FORMAT_R16G16B16A16_SINT
  | PIPE_FORMAT_R16_FLOAT | PIPE_FORMAT_R16G16_FLOAT
  | PIPE_FORMAT_R16G16B16_FLOAT | PIPE_FORMAT_R16G16B16A16_FLOAT
  | PIPE_FORMAT_R16G16B16X16_FLOAT | PIPE_FORMAT_R8_UNORM
  | PIPE_FORMAT_R8G8_UNORM | PIPE_FORMAT_R8G8B8_UNORM
  | PIPE_FORMAT_R8G8B8_SRGB | PIPE_FORMAT_R8G8B8A8_UNORM
  | PIPE_FORMAT_R8G8B8A8_SRGB | PIPE_FORMAT_R8G8B8X8_UNORM
  | PIPE_FORMAT_R8G8B8X8_SRGB | PIPE_FORMAT_R8_USCALED
  | PIPE_FORMAT_R8G8_USCALED | PIPE_FORMAT_R8G8B8_USCALED
  | PIPE_FORMAT_R8G8B8A8_USCALED | PIPE_FORMAT_R8_SNORM
  | PIPE_FORMAT_R8G8_SNORM | PIPE_FORMAT_R8G8B8_SNORM
  | PIPE_FORMAT_R8G8B8A8_SNORM | PIPE_FORMAT_R8_SSCALED
  | PIPE_FORMAT_R8G8_SSCALED | PIPE_FORMAT_R8G8B8_SSCALED
  | PIPE_FORMAT_R8G8B8A8_SSCALED | PIPE_FORMAT_R8_UINT
  | PIPE_FORMAT_R8G8_UINT | PIPE_FORMAT_R8G8B8_UINT
  | PIPE_FORMAT_R8G8B8A8_UINT | PIPE_FORMAT_R8_SINT | PIPE_FORMAT_R8G8_SINT
  | PIPE_FORMAT_R8G8B8_SINT | PIPE_FORMAT_R8G8B8A8_SINT
  (* keys of the entries the table comments out *)
  | PIPE_FORMAT_L8_UNORM | PIPE_FORMAT_I8_UNORM | PIPE_FORMAT_L8A8_UNORM
  | PIPE_FORMAT_L16_UNORM | PIPE_FORMAT_UYVY | PIPE_FORMAT_L8_SRGB
  | PIPE_FORMAT_L8A8_SRGB | PIPE_FORMAT_DXT1_RGBA | PIPE_FORMAT_DXT3_RGBA
  | PIPE_FORMAT_DXT5_RGBA | PIPE_FORMAT_DXT1_SRGBA | PIPE_FORMAT_DXT3_SRGBA
  | PIPE_FORMAT_DXT5_SRGBA | PIPE_FORMAT_RGTC1_UNORM
  | PIPE_FORMAT_RGTC1_SNORM | PIPE_FORMAT_RGTC2_UNORM
  | PIPE_FORMAT_RGTC2_SNORM | PIPE_FORMAT_L16A16_UNORM
  | PIPE_FORMAT_I16_UNORM | PIPE_FORMAT_L16_FLOAT
  | PIPE_FORMAT_L16A16_FLOAT | PIPE_FORMAT_I16_FLOAT
  | PIPE_FORMAT_L32_FLOAT | PIPE_FORMAT_L32A32_FLOAT
  | PIPE_FORMAT_I32_FLOAT | PIPE_FORMAT_I8_UINT | PIPE_FORMAT_L8_UINT
  | PIPE_FORMAT_L8A8_UINT | PIPE_FORMAT_I8_SINT | PIPE_FORMAT_L8_SINT
  | PIPE_FORMAT_L8A8_SINT
  (* not named in the table *)
  | PIPE_FORMAT_S8_UINT | PIPE_FORMAT_X24S8_UINT | PIPE_FORMAT_R32G32B32_FIXED
  | PIPE_FORMAT_OTHER (tag : N).

(** [SWR_FORMAT]: the values the table maps to, the two block-compressed
    formats of the fix-up switch, and [SWR_FORMAT_INVALID] for the value
    [(SWR_FORMAT)-1]. *)
Inductive SWR_FORMAT : Set :=
  | R16_UNORM | R32_FLOAT | R24_UNORM_X8_TYPELESS
  | R32_FLOAT_X8X24_TYPELESS | A8_UNORM | A16_UNORM | A16_FLOAT | A32_FLOAT
  | B5G6R5_UNORM | B5G6R5_UNORM_SRGB | B5G5R5A1_UNORM | B5G5R5X1_UNORM
  | B4G4R4A4_UNORM | B8G8R8A8_UNORM | B8G8R8A8_UNORM_SRGB | B8G8R8X8_UNORM
  | B8G8R8X8_UNORM_SRGB | R10G10B10A2_UNORM | R10G10B10A2_SNORM
  | R10G10B10A2_USCALED | R10G10B10A2_SSCALED | R10G10B10A2_UINT
  | R10G10B10X2_USCALED | B10G10R10A2_UNORM | B10G10R10A2_SNORM
  | B10G10R10A2_USCALED | B10G10R10A2_SSCALED | B10G10R10A2_UINT
  | B10G10R10X2_UNORM | R11G11B10_FLOAT | R32G32_FLOAT | R32G32B32_FLOAT
  | R32G32B32A32_FLOAT | R32G32B32X32_FLOAT | R32_USCALED | R32G32_USCALED
  | R32G32B32_USCALED | R32G32B32A32_USCALED | R32_SSCALED | R32G32_SSCALED
  | R32G32B32_SSCALED | R32G32B32A32_SSCALED | R32_UINT | R32G32_UINT
  | R32G32B32_UINT | R32G32B32A32_UINT | R32_SINT | R32G32_SINT
  | R32G32B32_SINT | R32G32B32A32_SINT | R16G16_UNORM | R16G16B16_UNORM
  | R16G16B16A16_UNORM | R16G16B16X16_UNORM | R16_USCALED | R16G16_USCALED
  | R16G16B16_USCALED | R16G16B16A16_USCALED | R16_SNORM | R16G16_SNORM
  | R16G16B16_SNORM | R16G16B16A16_SNORM | R16_SSCALED | R16G16_SSCALED
  | R16G16B16_SSCALED | R16G16B16A16_SSCALED | R16_UINT | R16G16_UINT
  | R16G16B16_UINT | R16G16B16A16_UINT | R16_SINT | R16G16_SINT
  | R16G16B16_SINT | R16G16B16A16_SINT | R16_FLOAT | R16G16_FLOAT
  | R16G16B16_FLOAT | R16G16B16A16_FLOAT | R16G16B16X16_FLOAT | R8_UNORM
  | R8G8_UNORM | R8G8B8_UNORM | R8G8B8_UNORM_SRGB | R8G8B8A8_UNORM
  | R8G8B8A8_UNORM_SRGB | R8G8B8X8_UNORM | R8G8B8X8_UNORM_SRGB | R8_USCALED
  | R8G8_USCALED | R8G8B8_USCALED | R8G8B8A8_USCALED | R8_SNORM
  | R8G8_SNORM | R8G8B8_SNORM | R8G8B8A8_SNORM | R8_SSCALED | R8G8_SSCALED
  | R8G8B8_SSCALED | R8G8B8A8_SSCALED | R8_UINT | R8G8_UINT | R8G8B8_UINT
  | R8G8B8A8_UINT | R8_SINT | R8G8_SINT | R8G8B8_SINT | R8G8B8A8_SINT
  | BC4_UNORM | BC5_UNORM
  | SWR_FORMAT_INVALID.

Definition swr_format_is_invalid (f : SWR_FORMAT) : bool :=
  match f with SWR_FORMAT_INVALID => true | _ => false end.

(** [mesa_to_swr_format]: the [mesa2swr] map, entry by entry; a key that is
    not found gives [(SWR_FORMAT)-1]. *)
Definition mesa_to_swr_format (format : pipe_format) : SWR_FORMAT :=
  match format with
  | PIPE_FORMAT_Z16_UNORM => R16_UNORM
  | PIPE_FORMAT_Z32_FLOAT => R32_FLOAT
  | PIPE_FORMAT_Z24_UNORM_S8_UINT => R24_UNORM_X8_TYPELESS
  | PIPE_FORMAT_Z24X8_UNORM => R24_UNORM_X8_TYPELESS
  | PIPE_FORMAT_Z32_FLOAT_S8X24_UINT => R32_FLOAT_X8X24_TYPELESS
  | PIPE_FORMAT_A8_UNORM => A8_UNORM
  | PIPE_FORMAT_A16_UNORM => A16_UNORM
  | PIPE_FORMAT_A16_FLOAT => A16_FLOAT
  | PIPE_FORMAT_A32_FLOAT => A32_FLOAT
  | PIPE_FORMAT_B5G6R5_UNORM => B5G6R5_UNORM
  | PIPE_FORMAT_B5G6R5_SRGB => B5G6R5_UNORM_SRGB
  | PIPE_FORMAT_B5G5R5A1_UNORM => B5G5R5A1_UNORM
  | PIPE_FORMAT_B5G5R5X1_UNORM => B5G5R5X1_UNORM
  | PIPE_FORMAT_B4G4R4A4_UNORM => B4G4R4A4_UNORM
  | PIPE_FORMAT_B8G8R8A8_UNORM => B8G8R8A8_UNORM
  | PIPE_FORMAT_B8G8R8A8_SRGB => B8G8R8A8_UNORM_SRGB
  | PIPE_FORMAT_B8G8R8X8_UNORM => B8G8R8X8_UNORM
  | PIPE_FORMAT_B8G8R8X8_SRGB => B8G8R8X8_UNORM_SRGB
  | PIPE_FORMAT_R10G10B10A2_UNORM => R10G10B10A2_UNORM
  | PIPE_FORMAT_R10G10B10A2_SNORM => R10G10B10A2_SNORM
  | PIPE_FORMAT_R10G10B10A2_USCALED => R10G10B10A2_USCALED
  | PIPE_FORMAT_R10G10B10A2_SSCALED => R10G10B10A2_SSCALED
  | PIPE_FORMAT_R10G10B10A2_UINT => R10G10B10A2_UINT
  | PIPE_FORMAT_R10G10B10X2_USCALED => R10G10B10X2_USCALED
  | PIPE_FORMAT_B10G10R10A2_UNORM => B10G10R10A2_UNORM
  | PIPE_FORMAT_B10G10R10A2_SNORM => B10G10R10A2_SNORM
  | PIPE_FORMAT_B10G10R10A2_USCALED => B10G10R10A2_USCALED
  | PIPE_FORMAT_B10G10R10A2_SSCALED => B10G10R10A2_SSCALED
  | PIPE_FORMAT_B10G10R10A2_UINT => B10G10R10A2_UINT
  | PIPE_FORMAT_B10G10R10X2_UNORM => B10G10R10X2_UNORM
  | PIPE_FORMAT_R11G11B10_FLOAT => R11G11B10_FLOAT
  | PIPE_FORMAT_R32_FLOAT => R32_FLOAT
  | PIPE_FORMAT_R32G32_FLOAT => R32G32_FLOAT
  | PIPE_FORMAT_R32G32B32_FLOAT => R32G32B32_FLOAT
  | PIPE_FORMAT_R32G32B32A32_FLOAT => R32G32B32A32_FLOAT
  | PIPE_FORMAT_R32G32B32X32_FLOAT => R32G32B32X32_FLOAT
  | PIPE_FORMAT_R32_USCALED => R32_USCALED
  | PIPE_FORMAT_R32G32_USCALED => R32G32_USCALED
  | PIPE_FORMAT_R32G32B32_USCALED => R32G32B32_USCALED
  | PIPE_FORMAT_R32G32B32A32_USCALED => R32G32B32A32_USCALED
  | PIPE_FORMAT_R32_SSCALED => R32_SSCALED
  | PIPE_FORMAT_R32G32_SSCALED => R32G32_SSCALED
  | PIPE_FORMAT_R32G32B32_SSCALED => R32G32B32_SSCALED
  | PIPE_FORMAT_R32G32B32A32_SSCALED => R32G32B32A32_SSCALED
  | PIPE_FORMAT_R32_UINT => R32_UINT
  | PIPE_FORMAT_R32G32_UINT => R32G32_UINT
  | PIPE_FORMAT_R32G32B32_UINT => R32G32B32_UINT
  | PIPE_FORMAT_R32G32B32A32_UINT => R32G32B32A32_UINT
  | PIPE_FORMAT_R32_SINT => R32_SINT
  | PIPE_FORMAT_R32G32_SINT => R32G32_SINT
  | PIPE_FORMAT_R32G32B32_SINT => R32G32B32_SINT
  | PIPE_FORMAT_R32G32B32A32_SINT => R32G32B32A32_SINT
  | PIPE_FORMAT_R16_UNORM => R16_UNORM
  | PIPE_FORMAT_R16G16_UNORM => R16G16_UNORM
  | PIPE_FORMAT_R16G16B16_UNORM => R16G16B16_UNORM
  | PIPE_FORMAT_R16G16B16A16_UNORM => R16G16B16A16_UNORM
  | PIPE_FORMAT_R16G16B16X16_UNORM => R16G16B16X16_UNORM
  | PIPE_FORMAT_R16_USCALED => R16_USCALED
  | PIPE_FORMAT_R16G16_USCALED => R16G16_USCALED
  | PIPE_FORMAT_R16G16B16_USCALED => R16G16B16_USCALED
  | PIPE_FORMAT_R16G16B16A16_USCALED => R16G16B16A16_USCALED
  | PIPE_FORMAT_R16_SNORM => R16_SNORM
  | PIPE_FORMAT_R16G16_SNORM => R16G16_SNORM
  | PIPE_FORMAT_R16G16B16_SNORM => R16G16B16_SNORM
  | PIPE_FORMAT_R16G16B16A16_SNORM => R16G16B16A16_SNORM
  | PIPE_FORMAT_R16_SSCALED => R16_SSCALED
  | PIPE_FORMAT_R16G16_SSCALED => R16G16_SSCALED
  | PIPE_FORMAT_R16G16B16_SSCALED => R16G16B16_SSCALED
  | PIPE_FORMAT_R16G16B16A16_SSCALED => R16G16B16A16_SSCALED
  | PIPE_FORMAT_R16_UINT => R16_UINT
  | PIPE_FORMAT_R16G16_UINT => R16G16_UINT
  | PIPE_FORMAT_R16G16B16_UINT => R16G16B16_UINT
  | PIPE_FORMAT_R16G16B16A16_UINT => R16G16B16A16_UINT
  | PIPE_FORMAT_R16_SINT => R16_SINT
  | PIPE_FORMAT_R16G16_SINT => R16G16_SINT
  | PIPE_FORMAT_R16G16B16_SINT => R16G16B16_SINT
  | PIPE_FORMAT_R16G16B16A16_SINT => R16G16B16A16_SINT
  | PIPE_FORMAT_R16_FLOAT => R16_FLOAT
  | PIPE_FORMAT_R16G16_FLOAT => R16G16_FLOAT
  | PIPE_FORMAT_R16G16B16_FLOAT => R16G16B16_FLOAT
  | PIPE_FORMAT_R16G16B16A16_FLOAT => R16G16B16A16_FLOAT
  | PIPE_FORMAT_R16G16B16X16_FLOAT => R16G16B16X16_FLOAT
  | PIPE_FORMAT_R8_UNORM => R8_UNORM
  | PIPE_FORMAT_R8G8_UNORM => R8G8_UNORM
  | PIPE_FORMAT_R8G8B8_UNORM => R8G8B8_UNORM
  | PIPE_FORMAT_R8G8B8_SRGB => R8G8B8_UNORM_SRGB
  | PIPE_FORMAT_R8G8B8A8_UNORM => R8G8B8A8_UNORM
  | PIPE_FORMAT_R8G8B8A8_SRGB => R8G8B8A8_UNORM_SRGB
  | PIPE_FORMAT_R8G8B8X8_UNORM => R8G8B8X8_UNORM
  | PIPE_FORMAT_R8G8B8X8_SRGB => R8G8B8X8_UNORM_SRGB
  | PIPE_FORMAT_R8_USCALED => R8_USCALED
  | PIPE_FORMAT_R8G8_USCALED => R8G8_USCALED
  | PIPE_FORMAT_R8G8B8_USCALED => R8G8B8_USCALED
  | PIPE_FORMAT_R8G8B8A8_USCALED => R8G8B8A8_USCALED
  | PIPE_FORMAT_R8_SNORM => R8_SNORM
  | PIPE_FORMAT_R8G8_SNORM => R8G8_SNORM
  | PIPE_FORMAT_R8G8B8_SNORM => R8G8B8_SNORM
  | PIPE_FORMAT_R8G8B8A8_SNORM => R8G8B8A8_SNORM
  | PIPE_FORMAT_R8_SSCALED => R8_SSCALED
  | PIPE_FORMAT_R8G8_SSCALED => R8G8_SSCALED
  | PIPE_FORMAT_R8G8B8_SSCALED => R8G8B8_SSCALED
  | PIPE_FORMAT_R8G8B8A8_SSCALED => R8G8B8A8_SSCALED
  | PIPE_FORMAT_R8_UINT => R8_UINT
  | PIPE_FORMAT_R8G8_UINT => R8G8_UINT
  | PIPE_FORMAT_R8G8B8_UINT => R8G8B8_UINT
  | PIPE_FORMAT_R8G8B8A8_UINT => R8G8B8A8_UINT
  | PIPE_FORMAT_R8_SINT => R8_SINT
  | PIPE_FORMAT_R8G8_SINT => R8G8_SINT
  | PIPE_FORMAT_R8G8B8_SINT => R8G8B8_SINT
  | PIPE_FORMAT_R8G8B8A8_SINT => R8G8B8A8_SINT
  | _ => SWR_FORMAT_INVALID
  end.

(** [SWR_SURFACE_TYPE] and [SWR_TILE_MODE] of the rasterizer core; the first
    constructor of each is the enumerator of value 0. *)
Inductive SWR_SURFACE_TYPE : Set :=
  | SURFACE_1D | SURFACE_2D | SURFACE_3D | SURFACE_CUBE | SURFACE_BUFFER
  | SURFACE_STRUCTURED_BUFFER | SURFACE_NULL.

Inductive SWR_TILE_MODE : Set :=
  | SWR_TILE_NONE | SWR_TILE_SWRZ | SWR_TILE_MODE_XMAJOR
  | SWR_TILE_MODE_YMAJOR | SWR_TILE_MODE_WMAJOR.

(** ** Resources *)

(** [struct pipe_resource]: the fields the layout reads.  [last_level] is an
    8-bit bit-field and a loop bound, kept as a [nat]. *)
Record pipe_resource : Set := mk_pipe_resource {
  target : pipe_texture_target;
  format : pipe_format;
  width0 : Z;
  height0 : Z;
  depth0 : Z;
  array_size : Z;
  last_level : nat;
  nr_samples : Z;
  bind : Z
}.

(** [struct SWR_SURFACE_STATE]: the fields the layout writes.  A pointer is an
    address in [Z], [NULL] is 0. *)
Record SWR_SURFACE_STATE : Set := mk_surface {
  pBaseAddress : Z;
  surf_type : SWR_SURFACE_TYPE;
  surf_format : SWR_FORMAT;
  width : Z;
  height : Z;
  depth : Z;
  numSamples : Z;
  tileMode : SWR_TILE_MODE;
  halign : Z;
  valign : Z;
  pitch : Z;
  qpitch : Z
}.

Definition NULL : Z := 0.

(** A C array indexed by mip level. *)
Definition level_array : Set := nat -> Z.

Definition array_set (a : level_array) (i : nat) (v : Z) : level_array :=
  fun j => if Nat.eqb j i then v else a j.

(** [struct swr_resource]. *)
Record swr_resource : Set := mk_swr_resource {
  base : pipe_resource;
  has_depth : bool;
  has_stencil : bool;
  swr : SWR_SURFACE_STATE;
  secondary : SWR_SURFACE_STATE;
  display_target : option Z;
  mip_offsets : level_array;
  secondary_mip_offsets : level_array
}.

Definition with_base_address (p : Z) (s : SWR_SURFACE_STATE) : SWR_SURFACE_STATE :=
  mk_surface p (surf_type s) (surf_format s) (width s) (height s) (depth s)
             (numSamples s) (tileMode s) (halign s) (valign s) (pitch s)
             (qpitch s).

(** What [memset(&res, 0, sizeof(res))] and [CALLOC_STRUCT] leave in a surface
    state: every field 0, the enumerations at their enumerator of value 0. *)
Definition zero_surface : SWR_SURFACE_STATE :=
  mk_surface NULL SURFACE_1D R32G32B32A32_FLOAT 0 0 0 0 SWR_TILE_NONE 0 0 0 0.

(** The same template with another format. *)
Definition with_format (f : pipe_format) (pt : pipe_resource) : pipe_resource :=
  mk_pipe_resource (target pt) f (width0 pt) (height0 pt) (depth0 pt)
                   (array_size pt) (last_level pt) (nr_samples pt) (bind pt).

(** A zeroed [swr_resource] after [res->base = *templat]. *)
Definition fresh_resource (templat : pipe_resource) : swr_resource :=
  mk_swr_resource templat false false zero_surface zero_surface None
                  (fun _ => 0) (fun _ => 0).

(** ** Results

    [unreachable(...)] and a failed [assert] do not return: the call has no
    result. *)
Inductive outcome (A : Type) : Type :=
  | Returns (a : A)
  | Undefined.
Arguments Returns {A} a.
Arguments Undefined {A}.

(** ** The allocator

    The driver's view of the heap: the calls it made, newest first, the end of
    the used address range, and a script that says which of the coming
    allocations fail. *)
Inductive alloc_event : Set :=
  | EvAlignedMalloc (size alignment ptr : Z)
  | EvAlignedFree (ptr : Z)
  | EvCALLOC (ptr : Z)
  | EvFREE (ptr : Z).

Record allocator : Set := mk_allocator {
  events : list alloc_event;
  brk : Z;
  script : list bool
}.

Definition fresh_address (alignment : Z) (h : allocator) : Z :=
  alignment * (Z.max 0 (brk h) / alignment + 1).

(** Modelled from the spec: [AlignedMalloc] is the rasterizer core's allocator,
    declared outside this file.  It "allocates totalByteSize bytes at a
    64-byte-aligned address" and can fail ("backing allocation failed"); a
    failed call returns [NULL].  The next entry of the script decides: [false]
    makes this call fail, anything else lets it succeed. *)
Definition AlignedMalloc (size alignment : Z) (h : allocator) : Z * allocator :=
  match script h with
  | false :: rest =>
      (NULL, mk_allocator (EvAlignedMalloc size alignment NULL :: events h)
                          (brk h) rest)
  | _ =>
      let p := fresh_address alignment h in
      (p, mk_allocator (EvAlignedMalloc size alignment p :: events h)
                       (p + Z.max 0 size) (tl (script h)))
  end.

(** Modelled from the spec: [CALLOC_STRUCT] and [FREE] are u_memory.h's,
    outside this file; the struct is one more allocation that can fail. *)
Definition CALLOC_STRUCT (h : allocator) : Z * allocator :=
  match script h with
  | false :: rest => (NULL, mk_allocator (EvCALLOC NULL :: events h) (brk h) rest)
  | _ =>
      let p := fresh_address 8 h in
      (p, mk_allocator (EvCALLOC p :: events h) (p + 8) (tl (script h)))
  end.

Definition FREE (p : Z) (h : allocator) : allocator :=
  mk_allocator (EvFREE p :: events h) (brk h) (script h).

(** ** Loops over mip levels *)

(** [count] iterations of [s = body level s; level++]. *)
Fixpoint for_levels_from {S : Type} (count level : nat)
    (body : nat -> S -> S) (s : S) : S :=
  match count with
  | O => s
  | Datatypes.S n => for_levels_from n (Datatypes.S level) body (body level s)
  end.

(** [for (int level = first; level <= last; level++) s = body level s]. *)
Definition for_levels {S : Type} (first last : nat)
    (body : nat -> S -> S) (s : S) : S :=
  for_levels_from (Datatypes.S last - first) first body s.

(** ** What the file takes from the rest of the tree

    None of these is defined in this file: the bind flags of p_defines.h, the macrotile
    knobs, [align] and [u_minify] of u_math.h, the format-table accessors of
    u_format.h, [swr_convert_target_type] and [swr_resource_is_texture] of
    swr_resource.h, [ComputeSurfaceOffset] of the rasterizer core, and the
    window system's [displaytarget_create] (which gives a display target and
    its stride, or [NULL]) and [displaytarget_map]. *)
Class Externals : Type := {
  PIPE_BIND_DEPTH_STENCIL : Z;
  PIPE_BIND_RENDER_TARGET : Z;
  PIPE_BIND_DISPLAY_TARGET : Z;
  PIPE_BIND_SCANOUT : Z;
  PIPE_BIND_SHARED : Z;
  KNOB_MACROTILE_X_DIM : Z;
  KNOB_MACROTILE_Y_DIM : Z;
  align : Z -> Z -> Z;
  u_minify : Z -> Z -> Z;
  util_format_has_depth : pipe_format -> bool;
  util_format_has_stencil : pipe_format -> bool;
  util_format_is_compressed : pipe_format -> bool;
  util_format_get_blockwidth : pipe_format -> Z;
  util_format_get_blockheight : pipe_format -> Z;
  util_format_get_blocksize : pipe_format -> Z;
  util_format_get_nblocksx : pipe_format -> Z -> Z;
  util_format_get_nblocksy : pipe_format -> Z -> Z;
  util_format_get_stride : pipe_format -> Z -> Z;
  swr_convert_target_type : pipe_texture_target -> SWR_SURFACE_TYPE;
  swr_resource_is_texture : pipe_resource -> bool;
  ComputeSurfaceOffset :
    Z -> Z -> Z -> Z -> Z -> Z -> SWR_SURFACE_STATE -> Z;
  displaytarget_create :
    Z -> pipe_format -> Z -> Z -> Z -> option (Z * Z);
  displaytarget_map : Z -> Z
}.

(** ** The layout *)

Definition SWR_MAX_TEXTURE_SIZE : Z := 4 * 1024 * 1024 * 1024.

Definition is_1d_target (t : pipe_texture_target) : bool :=
  match t with
  | PIPE_TEXTURE_1D | PIPE_TEXTURE_1D_ARRAY => true
  | _ => false
  end.

Section Layout.

Context {ext : Externals}.

(** The local [fmt] of [swr_texture_layout]: the resource's format, or
    [PIPE_FORMAT_R8_UINT] for a format with stencil and without depth. *)
Definition layout_format (pt : pipe_resource) : pipe_format :=
  if util_format_has_stencil (format pt)
     && negb (util_format_has_depth (format pt))
  then PIPE_FORMAT_R8_UINT
  else format pt.

(** [res->swr.halign] and [res->swr.valign], chosen by the bind flags. *)
Definition bind_align (pt : pipe_resource) : Z * Z :=
  if Z.land (bind pt)
            (Z.lor PIPE_BIND_RENDER_TARGET PIPE_BIND_DEPTH_STENCIL) =? 0
  then (1, 1)
  else (KNOB_MACROTILE_X_DIM, KNOB_MACROTILE_Y_DIM).

(** The local [halign], and the local [valign] of the 2D branch. *)
Definition local_halign (pt : pipe_resource) : Z :=
  mul32 (fst (bind_align pt)) (util_format_get_blockwidth (layout_format pt)).

Definition local_valign (pt : pipe_resource) : Z :=
  mul32 (snd (bind_align pt)) (util_format_get_blockheight (layout_format pt)).

(** The local [width] of the 1D branch after its loop. *)
Definition width_1d (pt : pipe_resource) (halign : Z) : Z :=
  for_levels 1 (last_level pt)
    (fun level width =>
       add32 width (align (u_minify (width0 pt) (Z.of_nat level)) halign))
    (align (width0 pt) halign).

(** The local [width] of the 2D branch when the pitch is taken. *)
Definition width_2d (pt : pipe_resource) (halign : Z) : Z :=
  let width := align (width0 pt) halign in
  if (1 <? last_level pt)%nat then
    Z.max width
          (add32 (align (u_minify (width0 pt) 1) halign)
                 (align (u_minify (width0 pt) 2) halign))
  else width.

(** The local [height] of the 2D branch when the qpitch is taken. *)
Definition height_2d (pt : pipe_resource) (valign : Z) : Z :=
  let height := align (height0 pt) valign in
  if (last_level pt =? 1)%nat then
    add32 height (align (u_minify (height0 pt) 1) valign)
  else if (1 <? last_level pt)%nat then
    let level1 := align (u_minify (height0 pt) 1) valign in
    let level2 :=
      for_levels 2 (last_level pt)
        (fun level level2 =>
           add32 level2
                 (align (u_minify (height0 pt) (Z.of_nat level)) valign))
        0 in
    add32 height (Z.max level1 level2)
  else height.

(** [res->swr.pitch] and [res->swr.qpitch]. *)
Definition layout_pitch (pt : pipe_resource) : Z :=
  let fmt := layout_format pt in
  if is_1d_target (target pt) then util_format_get_blocksize fmt
  else util_format_get_stride fmt (width_2d pt (local_halign pt)).

Definition layout_qpitch (pt : pipe_resource) : Z :=
  let fmt := layout_format pt in
  if is_1d_target (target pt) then
    util_format_get_nblocksx fmt (width_1d pt (local_halign pt))
  else util_format_get_nblocksy fmt (height_2d pt (local_valign pt)).

(** [res->swr.depth]. *)
Definition layout_depth (pt : pipe_resource) : Z :=
  match target pt with
  | PIPE_TEXTURE_3D => depth0 pt
  | _ => array_size pt
  end.

(** The fix-up switch on [util_format_get_blocksize(fmt)]. *)
Definition fixup_swr_format (fmt : pipe_format) (f : SWR_FORMAT)
  : outcome SWR_FORMAT :=
  if swr_format_is_invalid f then
    match util_format_get_blocksize fmt with
    | 1 => Returns R8_UINT
    | 2 => Returns R16_UINT
    | 4 => Returns R32_UINT
    | 8 => Returns (if util_format_is_compressed fmt
                    then BC4_UNORM else R32G32_UINT)
    | 16 => Returns (if util_format_is_compressed fmt
                     then BC5_UNORM else R32G32B32A32_UINT)
    | _ => Undefined
    end
  else Returns f.

(** [size_t total_size = (size_t)depth * qpitch * pitch]. *)
Definition total_size (s : SWR_SURFACE_STATE) : Z :=
  mul64 (mul64 (depth s) (qpitch s)) (pitch s).

(** The loop that fills [mip_offsets] (or [secondary_mip_offsets]) from a
    surface state. *)
Definition fill_mip_offsets (last : nat) (s : SWR_SURFACE_STATE)
    (a : level_array) : level_array :=
  for_levels 0 last
    (fun level a =>
       array_set a level
                 (ComputeSurfaceOffset 0 0 0 0 0 (Z.of_nat level) s))
    a.

(** [res->secondary] as the depth+stencil branch leaves it before its
    allocation: a copy of [res->swr] with the format and pitch replaced. *)
Definition stencil_surface (fmt : pipe_format) (s : SWR_SURFACE_STATE)
  : SWR_SURFACE_STATE :=
  mk_surface (pBaseAddress s) (surf_type s) R8_UINT (width s) (height s)
             (depth s) (numSamples s) (tileMode s) (halign s) (valign s)
             (div32 (pitch s) (util_format_get_blocksize fmt)) (qpitch s).

Definition swr_texture_layout (res : swr_resource) (allocate : bool)
    (h : allocator) : outcome (bool * swr_resource * allocator) :=
  let pt := base res in
  let has_d := util_format_has_depth (format pt) in
  let has_s := util_format_has_stencil (format pt) in
  let fmt := layout_format pt in
  (* the fix-up is matched first: when it does not return, the fields
     written before it are lost with the call *)
  match fixup_swr_format fmt (mesa_to_swr_format fmt) with
  | Undefined => Undefined
  | Returns sfmt =>
      let s :=
        mk_surface (pBaseAddress (swr res))
                   (swr_convert_target_type (target pt)) sfmt
                   (width0 pt) (height0 pt) (layout_depth pt)
                   (Z.max 1 (nr_samples pt)) SWR_TILE_NONE
                   (fst (bind_align pt)) (snd (bind_align pt))
                   (layout_pitch pt) (layout_qpitch pt) in
      let offs := fill_mip_offsets (last_level pt) s (mip_offsets res) in
      let res1 :=
        mk_swr_resource pt has_d has_s s (secondary res)
                        (display_target res) offs
                        (secondary_mip_offsets res) in
      if SWR_MAX_TEXTURE_SIZE <? total_size s then Returns (false, res1, h)
      else if allocate then
        let '(p, h1) := AlignedMalloc (total_size s) 64 h in
        let s1 := with_base_address p s in
        if has_d && has_s then
          let sec := stencil_surface fmt s1 in
          let soffs :=
            fill_mip_offsets (last_level pt) sec (secondary_mip_offsets res) in
          let '(q, h2) :=
            AlignedMalloc (mul32 (mul32 (depth sec) (qpitch sec)) (pitch sec))
                          64 h1 in
          Returns (true,
                   mk_swr_resource pt has_d has_s s1 (with_base_address q sec)
                                   (display_target res) offs soffs,
                   h2)
        else
          Returns (true,
                   mk_swr_resource pt has_d has_s s1 (secondary res)
                                   (display_target res) offs
                                   (secondary_mip_offsets res),
                   h1)
      else Returns (true, res1, h)
  end.

(** [swr_can_create_resource]: the layout of a zeroed resource, without
    allocation. *)
Definition swr_can_create_resource (templat : pipe_resource)
    (h : allocator) : outcome bool :=
  match swr_texture_layout (fresh_resource templat) false h with
  | Returns (ok, _, _) => Returns ok
  | Undefined => Undefined
  end.

(** [swr_displaytarget_layout].  The clearing [memset] writes into the mapped
    buffer, whose contents are not part of this model. *)
Definition swr_displaytarget_layout (res : swr_resource)
  : bool * swr_resource :=
  let w := align (width (swr res)) (halign (swr res)) in
  let ht := align (height (swr res)) (valign (swr res)) in
  match displaytarget_create (bind (base res)) (format (base res)) w ht 64 with
  | None => (false, res)
  | Some (dt, stride) =>
      let map := displaytarget_map dt in
      (true,
       mk_swr_resource (base res) (has_depth res) (has_stencil res)
                       (with_base_address map (swr res)) (secondary res)
                       (Some dt) (mip_offsets res)
                       (secondary_mip_offsets res))
  end.

Definition is_displayable (pt : pipe_resource) : bool :=
  negb (Z.land (bind pt)
               (Z.lor (Z.lor PIPE_BIND_DISPLAY_TARGET PIPE_BIND_SCANOUT)
                      PIPE_BIND_SHARED) =? 0).

(** The four [assert]s of the buffer branch of [swr_resource_create]. *)
Definition buffer_asserts (templat : pipe_resource) : bool :=
  (util_format_get_blocksize (format templat) =? 1)
  && (height0 templat =? 1) && (depth0 templat =? 1)
  && (last_level templat =? 0)%nat.

(** [swr_resource_create]: [None] is the [NULL] result, [Some res] the
    created resource.  The reference count and the screen pointer it also
    sets are not part of [pipe_resource] here. *)
Definition swr_resource_create (templat : pipe_resource) (h : allocator)
  : outcome (option swr_resource * allocator) :=
  let '(p, h0) := CALLOC_STRUCT h in
  if p =? NULL then Returns (None, h0)
  else
    let res := fresh_resource templat in
    if swr_resource_is_texture (base res) then
      if is_displayable (base res) then
        match swr_texture_layout res false h0 with
        | Undefined => Undefined
        | Returns (_, res1, h1) =>
            match swr_displaytarget_layout res1 with
            | (false, _) => Returns (None, FREE p h1)
            | (true, res2) => Returns (Some res2, h1)
            end
        end
      else
        match swr_texture_layout res true h0 with
        | Undefined => Undefined
        | Returns (false, _, h1) => Returns (None, FREE p h1)
        | Returns (true, res1, h1) => Returns (Some res1, h1)
        end
    else if buffer_asserts templat then
      match swr_texture_layout res true h0 with
      | Undefined => Undefined
      | Returns (false, _, h1) => Returns (None, FREE p h1)
      | Returns (true, res1, h1) => Returns (Some res1, h1)
      end
    else Undefined.

End Layout.

(** ** The layout in the words of its description

    The definitions of this section follow the prose that describes the
    layout, level by level; the theorems compare them with the code above. *)
Section Described.

Context {ext : Externals}.

(** The aligned extent of level [L]: [align(minify(extent, L), alignment)]. *)
Definition aligned_level (extent alignment : Z) (L : nat) : Z :=
  align (u_minify extent (Z.of_nat L)) alignment.

(** The sum of [f L] for [L] from [first] to [last]. *)
Definition sum_levels (f : nat -> Z) (first last : nat) : Z :=
  fold_right Z.add 0 (map f (seq first (S last - first))).

Definition mipLevelCount (pt : pipe_resource) : nat := S (last_level pt).

(** "start with align(height0, valign); if mipLevelCount == 2, add
    align(minify(height0,1), valign); if mipLevelCount > 2, add the maximum of
    level 1 and the sum of levels 2..N", the additions being unsigned. *)
Definition described_height (pt : pipe_resource) (valign : Z) : Z :=
  let h0 := align (height0 pt) valign in
  if (mipLevelCount pt =? 1)%nat then h0
  else if (mipLevelCount pt =? 2)%nat then
    add32 h0 (aligned_level (height0 pt) valign 1)
  else
    add32 h0
          (Z.max (aligned_level (height0 pt) valign 1)
                 (wrap32 (sum_levels (aligned_level (height0 pt) valign) 2
                                     (last_level pt)))).

(** "pitchWidth = align(width0, halign); but if there are more than 2 levels
    and levels 1 and 2 side by side are wider, widen it to that sum". *)
Definition described_pitch_width (pt : pipe_resource) (halign : Z) : Z :=
  let w0 := align (width0 pt) halign in
  let side := add32 (aligned_level (width0 pt) halign 1)
                    (aligned_level (width0 pt) halign 2) in
  if (2 <? mipLevelCount pt)%nat && (w0 <? side) then side else w0.

(** "start with level-0 width aligned up; for each subsequent level L
    (1..mipLevelCount-1) add its aligned width to a running total". *)
Definition described_width_1d (pt : pipe_resource) (halign : Z) : Z :=
  fold_left (fun total L => add32 total (aligned_level (width0 pt) halign L))
            (seq 1 (mipLevelCount pt - 1))
            (align (width0 pt) halign).

(** "1 -> R8, 2 -> R16, 4 -> R32, 8 -> BC4 or R32G32 depending on whether the
    source is block-compressed, 16 -> BC5 or R32G32B32A32". *)
Definition described_generic_format (bytes : Z) (compressed : bool)
  : option SWR_FORMAT :=
  if bytes =? 1 then Some R8_UINT
  else if bytes =? 2 then Some R16_UINT
  else if bytes =? 4 then Some R32_UINT
  else if bytes =? 8 then Some (if compressed then BC4_UNORM else R32G32_UINT)
  else if bytes =? 16 then
    Some (if compressed then BC5_UNORM else R32G32B32A32_UINT)
  else None.

(** The formats the layout is defined on: those with an entry in the table,
    and those whose block is 1, 2, 4, 8 or 16 bytes wide. *)
Definition has_swr_format (pt : pipe_resource) : bool :=
  let fmt := layout_format pt in
  let bytes := util_format_get_blocksize fmt in
  negb (swr_format_is_invalid (mesa_to_swr_format fmt))
  || (bytes =? 1) || (bytes =? 2) || (bytes =? 4) || (bytes =? 8)
  || (bytes =? 16).

(** A format that "combines depth and stencil". *)
Definition is_depth_stencil (pt : pipe_resource) : bool :=
  util_format_has_depth (format pt) && util_format_has_stencil (format pt).

(** The argument list [swr_displaytarget_layout] passes to the window system
    for a resource laid out from [pt]. *)
Definition display_request (pt : pipe_resource) : option (Z * Z) :=
  displaytarget_create (bind pt) (format pt)
                       (align (width0 pt) (fst (bind_align pt)))
                       (align (height0 pt) (snd (bind_align pt))) 64.

End Described.

(** ** A concrete instance

    The statements below hold for every [Externals]; the worked scenarios
    need one to run on. *)
Module Reference.

(** Modelled from the spec: [align] is u_math.h's and is missing here; a value
    is "aligned up to" the alignment (align(257,32) = 288, align(130,32) =
    160), in unsigned arithmetic. *)
Definition align_up (value alignment : Z) : Z :=
  wrap32 (alignment * ((value + alignment - 1) / alignment)).

(** Modelled from the spec: [u_minify] is u_math.h's and is missing here;
    minify(w, L) is "halve, floor, minimum 1". *)
Definition minify (value levels : Z) : Z :=
  Z.max 1 (Z.shiftr value levels).

(** Modelled from the spec: the format table of u_format.h is missing here; a
    format carries "block width/height (compressed-format granularity) and
    bytes-per-block".  The bytes per block follow the channel widths in the
    format's name, a block-compressed format has 4x4 blocks of 8 or 16 bytes,
    and every tag without a name is given 4 bytes. *)
Definition table_blocksize (f : pipe_format) : Z :=
  match f with
  | PIPE_FORMAT_A8_UNORM | PIPE_FORMAT_R8_UNORM | PIPE_FORMAT_R8_USCALED
  | PIPE_FORMAT_R8_SNORM | PIPE_FORMAT_R8_SSCALED | PIPE_FORMAT_R8_UINT
  | PIPE_FORMAT_R8_SINT | PIPE_FORMAT_L8_UNORM | PIPE_FORMAT_I8_UNORM
  | PIPE_FORMAT_L8_SRGB | PIPE_FORMAT_I8_UINT | PIPE_FORMAT_L8_UINT
  | PIPE_FORMAT_I8_SINT | PIPE_FORMAT_L8_SINT | PIPE_FORMAT_S8_UINT => 1
  | PIPE_FORMAT_Z16_UNORM | PIPE_FORMAT_A16_UNORM | PIPE_FORMAT_A16_FLOAT
  | PIPE_FORMAT_B5G6R5_UNORM | PIPE_FORMAT_B5G6R5_SRGB
  | PIPE_FORMAT_B5G5R5A1_UNORM | PIPE_FORMAT_B5G5R5X1_UNORM
  | PIPE_FORMAT_B4G4R4A4_UNORM | PIPE_FORMAT_R16_UNORM
  | PIPE_FORMAT_R16_USCALED | PIPE_FORMAT_R16_SNORM
  | PIPE_FORMAT_R16_SSCALED | PIPE_FORMAT_R16_UINT | PIPE_FORMAT_R16_SINT
  | PIPE_FORMAT_R16_FLOAT | PIPE_FORMAT_R8G8_UNORM
  | PIPE_FORMAT_R8G8_USCALED | PIPE_FORMAT_R8G8_SNORM
  | PIPE_FORMAT_R8G8_SSCALED | PIPE_FORMAT_R8G8_UINT
  | PIPE_FORMAT_R8G8_SINT | PIPE_FORMAT_L8A8_UNORM | PIPE_FORMAT_L16_UNORM
  | PIPE_FORMAT_L8A8_SRGB | PIPE_FORMAT_I16_UNORM | PIPE_FORMAT_L16_FLOAT
  | PIPE_FORMAT_I16_FLOAT | PIPE_FORMAT_L8A8_UINT | PIPE_FORMAT_L8A8_SINT => 2
  | PIPE_FORMAT_R8G8B8_UNORM | PIPE_FORMAT_R8G8B8_SRGB
  | PIPE_FORMAT_R8G8B8_USCALED | PIPE_FORMAT_R8G8B8_SNORM
  | PIPE_FORMAT_R8G8B8_SSCALED | PIPE_FORMAT_R8G8B8_UINT
  | PIPE_FORMAT_R8G8B8_SINT => 3
  | PIPE_FORMAT_R16G16B16_UNORM | PIPE_FORMAT_R16G16B16_USCALED
  | PIPE_FORMAT_R16G16B16_SNORM | PIPE_FORMAT_R16G16B16_SSCALED
  | PIPE_FORMAT_R16G16B16_UINT | PIPE_FORMAT_R16G16B16_SINT
  | PIPE_FORMAT_R16G16B16_FLOAT => 6
  | PIPE_FORMAT_Z32_FLOAT_S8X24_UINT | PIPE_FORMAT_R32G32_FLOAT
  | PIPE_FORMAT_R32G32_USCALED | PIPE_FORMAT_R32G32_SSCALED
  | PIPE_FORMAT_R32G32_UINT | PIPE_FORMAT_R32G32_SINT
  | PIPE_FORMAT_R16G16B16A16_UNORM | PIPE_FORMAT_R16G16B16X16_UNORM
  | PIPE_FORMAT_R16G16B16A16_USCALED | PIPE_FORMAT_R16G16B16A16_SNORM
  | PIPE_FORMAT_R16G16B16A16_SSCALED | PIPE_FORMAT_R16G16B16A16_UINT
  | PIPE_FORMAT_R16G16B16A16_SINT | PIPE_FORMAT_R16G16B16A16_FLOAT
  | PIPE_FORMAT_R16G16B16X16_FLOAT | PIPE_FORMAT_L32A32_FLOAT
  | PIPE_FORMAT_DXT1_RGBA | PIPE_FORMAT_DXT1_SRGBA
  | PIPE_FORMAT_RGTC1_UNORM | PIPE_FORMAT_RGTC1_SNORM => 8
  | PIPE_FORMAT_R32G32B32_FLOAT | PIPE_FORMAT_R32G32B32_USCALED
  | PIPE_FORMAT_R32G32B32_SSCALED | PIPE_FORMAT_R32G32B32_UINT
  | PIPE_FORMAT_R32G32B32_SINT | PIPE_FORMAT_R32G32B32_FIXED => 12
  | PIPE_FORMAT_R32G32B32A32_FLOAT | PIPE_FORMAT_R32G32B32X32_FLOAT
  | PIPE_FORMAT_R32G32B32A32_USCALED | PIPE_FORMAT_R32G32B32A32_SSCALED
  | PIPE_FORMAT_R32G32B32A32_UINT | PIPE_FORMAT_R32G32B32A32_SINT
  | PIPE_FORMAT_DXT3_RGBA | PIPE_FORMAT_DXT5_RGBA | PIPE_FORMAT_DXT3_SRGBA
  | PIPE_FORMAT_DXT5_SRGBA | PIPE_FORMAT_RGTC2_UNORM
  | PIPE_FORMAT_RGTC2_SNORM => 16
  | _ => 4
  end.

Definition table_is_compressed (f : pipe_format) : bool :=
  match f with
  | PIPE_FORMAT_DXT1_RGBA | PIPE_FORMAT_DXT3_RGBA | PIPE_FORMAT_DXT5_RGBA
  | PIPE_FORMAT_DXT1_SRGBA | PIPE_FORMAT_DXT3_SRGBA | PIPE_FORMAT_DXT5_SRGBA
  | PIPE_FORMAT_RGTC1_UNORM | PIPE_FORMAT_RGTC1_SNORM
  | PIPE_FORMAT_RGTC2_UNORM | PIPE_FORMAT_RGTC2_SNORM => true
  | _ => false
  end.

Definition table_blockwidth (f : pipe_format) : Z :=
  match f with
  | PIPE_FORMAT_UYVY => 2
  | _ => if table_is_compressed f then 4 else 1
  end.

Definition table_blockheight (f : pipe_format) : Z :=
  if table_is_compressed f then 4 else 1.

Definition table_has_depth (f : pipe_format) : bool :=
  match f with
  | PIPE_FORMAT_Z16_UNORM | PIPE_FORMAT_Z32_FLOAT
  | PIPE_FORMAT_Z24_UNORM_S8_UINT | PIPE_FORMAT_Z24X8_UNORM
  | PIPE_FORMAT_Z32_FLOAT_S8X24_UINT => true
  | _ => false
  end.

Definition table_has_stencil (f : pipe_format) : bool :=
  match f with
  | PIPE_FORMAT_Z24_UNORM_S8_UINT | PIPE_FORMAT_Z32_FLOAT_S8X24_UINT
  | PIPE_FORMAT_S8_UINT | PIPE_FORMAT_X24S8_UINT => true
  | _ => false
  end.

(** Modelled from the spec: the block-count and stride helpers of u_format.h
    are missing here; a length is "converted to blocks" by rounding up to
    whole blocks, and to a byte stride by multiplying the block count by the
    bytes per block. *)
Definition nblocksx (f : pipe_format) (x : Z) : Z :=
  div32 (add32 x (table_blockwidth f - 1)) (table_blockwidth f).

Definition nblocksy (f : pipe_format) (y : Z) : Z :=
  div32 (add32 y (table_blockheight f - 1)) (table_blockheight f).

Definition stride (f : pipe_format) (w : Z) : Z :=
  mul32 (nblocksx f w) (table_blocksize f).

Definition convert_target_type (t : pipe_texture_target) : SWR_SURFACE_TYPE :=
  match t with
  | PIPE_BUFFER => SURFACE_BUFFER
  | PIPE_TEXTURE_1D | PIPE_TEXTURE_1D_ARRAY => SURFACE_1D
  | PIPE_TEXTURE_2D | PIPE_TEXTURE_2D_ARRAY | PIPE_TEXTURE_RECT => SURFACE_2D
  | PIPE_TEXTURE_3D => SURFACE_3D
  | PIPE_TEXTURE_CUBE | PIPE_TEXTURE_CUBE_ARRAY => SURFACE_CUBE
  end.

Definition is_texture (pt : pipe_resource) : bool :=
  match target pt with PIPE_BUFFER => false | _ => true end.

(** The instance: the bind flags at their bits in p_defines.h, a macrotile of
    32x32 ("halign=32, valign=32, typical render-target alignment"), the
    helpers above, and an offset routine and a window system supplied by the
    user of the instance. *)
Definition externals
    (offset : Z -> Z -> Z -> Z -> Z -> Z -> SWR_SURFACE_STATE -> Z)
    (dt_create : Z -> pipe_format -> Z -> Z -> Z -> option (Z * Z))
    (dt_map : Z -> Z) : Externals :=
  {| PIPE_BIND_DEPTH_STENCIL := 1;
     PIPE_BIND_RENDER_TARGET := 2;
     PIPE_BIND_DISPLAY_TARGET := 128;
     PIPE_BIND_SCANOUT := 524288;
     PIPE_BIND_SHARED := 1048576;
     KNOB_MACROTILE_X_DIM := 32;
     KNOB_MACROTILE_Y_DIM := 32;
     align := align_up;
     u_minify := minify;
     util_format_has_depth := table_has_depth;
     util_format_has_stencil := table_has_stencil;
     util_format_is_compressed := table_is_compressed;
     util_format_get_blockwidth := table_blockwidth;
     util_format_get_blockheight := table_blockheight;
     util_format_get_blocksize := table_blocksize;
     util_format_get_nblocksx := nblocksx;
     util_format_get_nblocksy := nblocksy;
     util_format_get_stride := stride;
     swr_convert_target_type := convert_target_type;
     swr_resource_is_texture := is_texture;
     ComputeSurfaceOffset := offset;
     displaytarget_create := dt_create;
     displaytarget_map := dt_map |}.

(** A window system that has no display target to give, and one that always
    gives target 1, with a stride of four bytes per pixel of the width. *)
Definition no_display : Z -> pipe_format -> Z -> Z -> Z -> option (Z * Z) :=
  fun _ _ _ _ _ => None.

Definition any_display : Z -> pipe_format -> Z -> Z -> Z -> option (Z * Z) :=
  fun _ _ w _ _ => Some (1, 4 * w).

(** The offset routine of the closed examples: nothing they state depends on
    the offsets, and every level is put at 0. *)
Definition flat_offset
  : Z -> Z -> Z -> Z -> Z -> Z -> SWR_SURFACE_STATE -> Z :=
  fun _ _ _ _ _ _ _ => 0.

Definition offscreen : Externals := externals flat_offset no_display (fun _ => 0).
Definition onscreen : Externals :=
  externals flat_offset any_display (fun _ => 4096).

Definition empty_heap : allocator := mk_allocator [] 0 [].

End Reference.

(** ** Descriptors of the worked scenarios *)
Module Scenario.

Definition SAMPLER_VIEW : Z := 8.

(** 65536 x 65536 texels of one byte, one layer: exactly 4 GiB. *)
Definition exactly_4GiB : pipe_resource :=
  mk_pipe_resource PIPE_TEXTURE_2D_ARRAY PIPE_FORMAT_R8_UNORM
                   65536 65536 1 1 0 0 SAMPLER_VIEW.

(** 1 x 6700417 texels of one byte, 641 layers: 4 GiB and one byte. *)
Definition one_byte_over : pipe_resource :=
  mk_pipe_resource PIPE_TEXTURE_2D_ARRAY PIPE_FORMAT_R8_UNORM
                   1 6700417 1 641 0 0 SAMPLER_VIEW.

(** width0 = 16, height0 = 16, five levels, halign = valign = 1. *)
Definition small_mipmapped : pipe_resource :=
  mk_pipe_resource PIPE_TEXTURE_2D PIPE_FORMAT_R8G8B8A8_UNORM
                   16 16 1 1 4 0 SAMPLER_VIEW.

(** width0 = 257, height0 = 130, one level, a render target. *)
Definition render_target : pipe_resource :=
  mk_pipe_resource PIPE_TEXTURE_2D PIPE_FORMAT_B8G8R8A8_UNORM
                   257 130 1 1 0 0 2.

Definition render_target_r8 : pipe_resource :=
  mk_pipe_resource PIPE_TEXTURE_2D PIPE_FORMAT_R8_UNORM 257 130 1 1 0 0 2.

(** A 1D texture of 16 texels with five levels. *)
Definition strip : pipe_resource :=
  mk_pipe_resource PIPE_TEXTURE_1D PIPE_FORMAT_R8G8B8A8_UNORM
                   16 1 1 1 4 0 SAMPLER_VIEW.

(** A 3D texture, 8 x 8 x 4, three levels. *)
Definition volume : pipe_resource :=
  mk_pipe_resource PIPE_TEXTURE_3D PIPE_FORMAT_R8G8B8A8_UNORM
                   8 8 4 1 2 0 SAMPLER_VIEW.

(** A 64 x 64 depth+stencil surface with three levels. *)
Definition depth_stencil : pipe_resource :=
  mk_pipe_resource PIPE_TEXTURE_2D PIPE_FORMAT_Z24_UNORM_S8_UINT
                   64 64 1 1 2 0 1.

(** A 64 x 64 texture of the stencil-only format with 4-byte texels. *)
Definition stencil_view : pipe_resource :=
  mk_pipe_resource PIPE_TEXTURE_2D PIPE_FORMAT_X24S8_UINT
                   64 64 1 1 0 0 SAMPLER_VIEW.

(** A 64 x 64 texture of a block-compressed format the table leaves out. *)
Definition compressed : pipe_resource :=
  mk_pipe_resource PIPE_TEXTURE_2D PIPE_FORMAT_DXT1_RGBA
                   64 64 1 1 0 0 SAMPLER_VIEW.

(** A display target of 65536 x 65536 four-byte texels: 16 GiB. *)
Definition huge_display : pipe_resource :=
  mk_pipe_resource PIPE_TEXTURE_2D PIPE_FORMAT_B8G8R8A8_UNORM
                   65536 65536 1 1 0 0 128.

(** The stencil-only format with 4-byte texels as a 64 x 64 texture with three
    levels, and as a 1D texture of 64 texels. *)
Definition stencil_view_mipmapped : pipe_resource :=
  mk_pipe_resource PIPE_TEXTURE_2D PIPE_FORMAT_X24S8_UINT
                   64 64 1 1 2 0 SAMPLER_VIEW.

Definition stencil_strip : pipe_resource :=
  mk_pipe_resource PIPE_TEXTURE_1D PIPE_FORMAT_X24S8_UINT
                   64 1 1 1 0 0 SAMPLER_VIEW.

(** A depth+stencil surface one row high and 2^30 texels wide: its byte
    stride, 2^32, does not fit 32 bits. *)
Definition wide_depth_stencil : pipe_resource :=
  mk_pipe_resource PIPE_TEXTURE_2D PIPE_FORMAT_Z24_UNORM_S8_UINT
                   1073741824 1 1 1 0 0 SAMPLER_VIEW.

(** A heap whose first allocation fails, and one whose second fails. *)
Definition first_fails : allocator := mk_allocator [] 0 [false].
Definition second_fails : allocator := mk_allocator [] 0 [true; false].

End Scenario.

(** * The rest of the screen: format support, limits, destruction *)

(** ** Texture limits *)

Definition SWR_MAX_TEXTURE_2D_LEVELS : nat := 14.
Definition SWR_MAX_TEXTURE_3D_LEVELS : nat := 12.
Definition SWR_MAX_TEXTURE_CUBE_LEVELS : nat := 14.
Definition SWR_MAX_TEXTURE_ARRAY_LAYERS : Z := 512.

(** ** Format support *)

(** The fields of [struct util_format_description] that
    [swr_is_format_supported] reads. *)
Inductive util_format_colorspace : Set :=
  | UTIL_FORMAT_COLORSPACE_RGB | UTIL_FORMAT_COLORSPACE_SRGB
  | UTIL_FORMAT_COLORSPACE_YUV | UTIL_FORMAT_COLORSPACE_ZS.

Inductive util_format_layout : Set :=
  | UTIL_FORMAT_LAYOUT_PLAIN | UTIL_FORMAT_LAYOUT_SUBSAMPLED
  | UTIL_FORMAT_LAYOUT_S3TC | UTIL_FORMAT_LAYOUT_RGTC
  | UTIL_FORMAT_LAYOUT_ETC | UTIL_FORMAT_LAYOUT_BPTC
  | UTIL_FORMAT_LAYOUT_ASTC | UTIL_FORMAT_LAYOUT_OTHER.

Record util_format_description_t : Set := mk_description {
  desc_block_width : Z;
  desc_block_height : Z;
  desc_layout : util_format_layout;
  desc_colorspace : util_format_colorspace
}.

Definition is_colorspace_zs (c : util_format_colorspace) : bool :=
  match c with UTIL_FORMAT_COLORSPACE_ZS => true | _ => false end.

(** What [swr_is_format_supported] takes from outside this file: the format
    description (NULL for a tag without one), the window system's
    [is_displaytarget_format_supported], the global
    [util_format_s3tc_enabled], and the tag of [PIPE_FORMAT_ETC1_RGB8], which
    is one of the tags [PIPE_FORMAT_OTHER] stands for. *)
Class FormatQueries : Type := {
  util_format_description : pipe_format -> option util_format_description_t;
  is_displaytarget_format_supported : Z -> pipe_format -> bool;
  util_format_s3tc_enabled : bool;
  ETC1_RGB8_tag : N
}.

(** [format != PIPE_FORMAT_ETC1_RGB8]. *)
Definition is_not_ETC1_RGB8 {fq : FormatQueries} (format : pipe_format) : bool :=
  match format with
  | PIPE_FORMAT_OTHER tag => negb (N.eqb tag ETC1_RGB8_tag)
  | _ => true
  end.

(** [bind & flags] as a condition. *)
Definition bind_has (bind flags : Z) : bool := negb (Z.land bind flags =? 0).

(** [swr_is_format_supported].  Its [assert] lists every constructor of
    [pipe_texture_target] and cannot fail. *)
Definition swr_is_format_supported {ext : Externals} {fq : FormatQueries}
    (format : pipe_format) (target : pipe_texture_target)
    (sample_count bind : Z) : bool :=
  match util_format_description format with
  | None => false
  | Some format_desc =>
      if 1 <? sample_count then false
      else if bind_has bind (Z.lor (Z.lor PIPE_BIND_DISPLAY_TARGET
                                          PIPE_BIND_SCANOUT)
                                   PIPE_BIND_SHARED)
              && negb (is_displaytarget_format_supported bind format)
      then false
      else if bind_has bind PIPE_BIND_RENDER_TARGET
              && (is_colorspace_zs (desc_colorspace format_desc)
                  || swr_format_is_invalid (mesa_to_swr_format format)
                  || negb (desc_block_width format_desc =? 1)
                  || negb (desc_block_height format_desc =? 1))
      then false
      else if bind_has bind PIPE_BIND_DEPTH_STENCIL
              && (negb (is_colorspace_zs (desc_colorspace format_desc))
                  || swr_format_is_invalid (mesa_to_swr_format format))
      then false
      else
        match desc_layout format_desc with
        | UTIL_FORMAT_LAYOUT_BPTC | UTIL_FORMAT_LAYOUT_ASTC => false
        | UTIL_FORMAT_LAYOUT_ETC => negb (is_not_ETC1_RGB8 format)
        | UTIL_FORMAT_LAYOUT_S3TC => util_format_s3tc_enabled
        | _ => true
        end
  end.

(** ** Destruction *)

(** Modelled from the spec: [AlignedFree] is the rasterizer core's, outside
    this file; it releases a block [AlignedMalloc] gave ("freed exactly once
    at resource destruction"). *)
Definition AlignedFree (p : Z) (h : allocator) : allocator :=
  mk_allocator (EvAlignedFree p :: events h) (brk h) (script h).

(** The calls [swr_resource_destroy] makes, in program order. *)
Inductive screen_call : Set :=
  | CallFenceSubmit
  | CallFenceFinish
  | CallResourceUnused
  | CallDisplaytargetDestroy (dt : Z)
  | CallAlignedFree (ptr : Z)
  | CallFREE (ptr : Z).

(** [swr_resource_destroy].  [pipe] says whether [screen->pipe] is set,
    [fence_pending] is what [swr_is_fence_pending(screen->flush_fence)]
    answers, [spr_ptr] is the address of the struct and [status] its status
    word, which [swr_resource] does not carry.  The result is the list of
    calls, oldest first, and the heap after them. *)
Definition swr_resource_destroy (pipe fence_pending : bool) (spr_ptr status : Z)
    (spr : swr_resource) (h : allocator) : list screen_call * allocator :=
  let fence :=
    if pipe && negb (status =? 0) then
      (if fence_pending then [] else [CallFenceSubmit])
      ++ [CallFenceFinish; CallResourceUnused]
    else [] in
  let '(primary, h1) :=
    match display_target spr with
    | Some dt => ([CallDisplaytargetDestroy dt], h)
    | None => ([CallAlignedFree (pBaseAddress (swr spr))],
               AlignedFree (pBaseAddress (swr spr)) h)
    end in
  let h2 := AlignedFree (pBaseAddress (secondary spr)) h1 in
  let h3 := FREE spr_ptr h2 in
  (fence ++ primary
   ++ [CallAlignedFree (pBaseAddress (secondary spr)); CallFREE spr_ptr],
   h3).

(** ** Blocks in use

    The blocks a log of allocator calls leaves allocated, newest first.  A
    failed allocation adds nothing and freeing [NULL] removes nothing. *)
Fixpoint remove_first (p : Z) (l : list Z) : list Z :=
  match l with
  | [] => []
  | x :: r => if x =? p then r else x :: remove_first p r
  end.

Definition track (e : alloc_event) (live : list Z) : list Z :=
  match e with
  | EvAlignedMalloc _ _ p | EvCALLOC p =>
      if p =? NULL then live else p :: live
  | EvAlignedFree p | EvFREE p =>
      if p =? NULL then live else remove_first p live
  end.

(** [events] are newest first, so the oldest call is tracked first. *)
Definition outstanding (evs : list alloc_event) : list Z :=
  fold_right track [] evs.

(** The allocation requests of a log: size and alignment, newest first. *)
Definition requests (evs : list alloc_event) : list (Z * Z) :=
  flat_map (fun e => match e with
                     | EvAlignedMalloc size alignment _ => [(size, alignment)]
                     | _ => []
                     end) evs.

(** ** Helpers that round as their names say

    What the bounds below ask of the helpers this file takes from the rest of
    the tree, for the one format [fmt] a resource is laid out in: [align]
    rounds up by less than the alignment, [u_minify] gives between 1 and the
    extent, the block counts of [fmt] do not exceed the length, a stride of
    [fmt] is at most the length times its block size, the block of [fmt] is
    between 1 and 64 bytes and at most 16 texels wide and high, and a
    macrotile is between 1 and 32 texels.  Nothing is asked of any other
    format. *)
Record helpers_bounded (ext : Externals) (fmt : pipe_format) : Prop :=
  mk_helpers_bounded {
  align_bounds :
    forall v a, 0 <= v -> 0 < a -> 0 <= align v a <= v + a - 1;
  minify_bounds :
    forall v L, 0 <= v -> 0 <= L -> 1 <= u_minify v L <= Z.max 1 v;
  nblocksx_bounds :
    forall x, 0 <= x -> 0 <= util_format_get_nblocksx fmt x <= x;
  nblocksy_bounds :
    forall y, 0 <= y -> 0 <= util_format_get_nblocksy fmt y <= y;
  stride_bounds :
    forall w, 0 <= w ->
      0 <= util_format_get_stride fmt w <= w * util_format_get_blocksize fmt;
  blocksize_bounds : 1 <= util_format_get_blocksize fmt <= 64;
  blockwidth_bounds : 1 <= util_format_get_blockwidth fmt <= 16;
  blockheight_bounds : 1 <= util_format_get_blockheight fmt <= 16;
  macrotile_x_bounds : 1 <= KNOB_MACROTILE_X_DIM <= 32;
  macrotile_y_bounds : 1 <= KNOB_MACROTILE_Y_DIM <= 32
}.

(** A template within the limits the screen advertises: at most
    [SWR_MAX_TEXTURE_2D_LEVELS] levels and an extent of at most
    2^(levels - 1) texels, a depth of at most 2^([SWR_MAX_TEXTURE_3D_LEVELS]
    - 1) and at most [SWR_MAX_TEXTURE_ARRAY_LAYERS] layers (six faces each
    for a cube array). *)
Definition within_limits (pt : pipe_resource) : Prop :=
  (last_level pt < SWR_MAX_TEXTURE_2D_LEVELS)%nat
  /\ 0 <= width0 pt <= 2 ^ Z.of_nat (SWR_MAX_TEXTURE_2D_LEVELS - 1)
  /\ 0 <= height0 pt <= 2 ^ Z.of_nat (SWR_MAX_TEXTURE_2D_LEVELS - 1)
  /\ 0 <= depth0 pt <= 2 ^ Z.of_nat (SWR_MAX_TEXTURE_3D_LEVELS - 1)
  /\ 0 <= array_size pt <= 6 * SWR_MAX_TEXTURE_ARRAY_LAYERS.

(** ** A concrete format description table *)
Module ReferenceQueries.

Import Reference.

(** Modelled from the spec: the format descriptions of u_format.h are missing
    here.  The block is the one of the reference table; the block-compressed
    formats are S3TC (DXT) or RGTC, UYVY is subsampled YUV, the depth and
    stencil formats are in the ZS colorspace, the SRGB formats in SRGB; a tag
    without a name has the ETC description when it is the ETC1 tag and none
    otherwise. *)
Definition table_layout (f : pipe_format) : util_format_layout :=
  match f with
  | PIPE_FORMAT_DXT1_RGBA | PIPE_FORMAT_DXT3_RGBA | PIPE_FORMAT_DXT5_RGBA
  | PIPE_FORMAT_DXT1_SRGBA | PIPE_FORMAT_DXT3_SRGBA | PIPE_FORMAT_DXT5_SRGBA =>
      UTIL_FORMAT_LAYOUT_S3TC
  | PIPE_FORMAT_RGTC1_UNORM | PIPE_FORMAT_RGTC1_SNORM
  | PIPE_FORMAT_RGTC2_UNORM | PIPE_FORMAT_RGTC2_SNORM =>
      UTIL_FORMAT_LAYOUT_RGTC
  | PIPE_FORMAT_UYVY => UTIL_FORMAT_LAYOUT_SUBSAMPLED
  | _ => UTIL_FORMAT_LAYOUT_PLAIN
  end.

Definition table_colorspace (f : pipe_format) : util_format_colorspace :=
  match f with
  | PIPE_FORMAT_Z16_UNORM | PIPE_FORMAT_Z32_FLOAT
  | PIPE_FORMAT_Z24_UNORM_S8_UINT | PIPE_FORMAT_Z24X8_UNORM
  | PIPE_FORMAT_Z32_FLOAT_S8X24_UINT | PIPE_FORMAT_S8_UINT
  | PIPE_FORMAT_X24S8_UINT => UTIL_FORMAT_COLORSPACE_ZS
  | PIPE_FORMAT_B5G6R5_SRGB | PIPE_FORMAT_B8G8R8A8_SRGB
  | PIPE_FORMAT_B8G8R8X8_SRGB | PIPE_FORMAT_R8G8B8_SRGB
  | PIPE_FORMAT_R8G8B8A8_SRGB | PIPE_FORMAT_R8G8B8X8_SRGB
  | PIPE_FORMAT_L8_SRGB | PIPE_FORMAT_L8A8_SRGB | PIPE_FORMAT_DXT1_SRGBA
  | PIPE_FORMAT_DXT3_SRGBA | PIPE_FORMAT_DXT5_SRGBA =>
      UTIL_FORMAT_COLORSPACE_SRGB
  | PIPE_FORMAT_UYVY => UTIL_FORMAT_COLORSPACE_YUV
  | _ => UTIL_FORMAT_COLORSPACE_RGB
  end.

Definition description (etc1 : N) (f : pipe_format)
  : option util_format_description_t :=
  match f with
  | PIPE_FORMAT_OTHER tag =>
      if N.eqb tag etc1
      then Some (mk_description 4 4 UTIL_FORMAT_LAYOUT_ETC
                                UTIL_FORMAT_COLORSPACE_RGB)
      else None
  | _ => Some (mk_description (table_blockwidth f) (table_blockheight f)
                              (table_layout f) (table_colorspace f))
  end.

(** A window system that shows every format, S3TC enabled. *)
Definition format_queries (etc1 : N) : FormatQueries :=
  {| util_format_description := description etc1;
     is_displaytarget_format_supported := fun _ _ => true;
     util_format_s3tc_enabled := true;
     ETC1_RGB8_tag := etc1 |}.

End ReferenceQueries.

(** [premise H]: prove the first premise of [H] by linear arithmetic. *)
Ltac premise H :=
  match type of H with
  | ?A -> _ => let HA := fresh in assert (HA : A) by lia; specialize (H HA);
               clear HA
  end.

(** * Properties *)

Import Reference Scenario.

(** ** Machine arithmetic *)

Lemma wrap32_add_l (a b : Z) : add32 (wrap32 a) b = wrap32 (a + b).
Proof. unfold add32, wrap32. apply Z.add_mod_idemp_l. lia. Qed.

Lemma add32_wrapped (a b : Z) : add32 a b = wrap32 (a + b).
Proof. reflexivity. Qed.

Lemma mul64_assoc_wrap (a b c : Z) : mul64 (mul64 a b) c = wrap64 (a * b * c).
Proof. unfold mul64, wrap64. apply Z.mul_mod_idemp_l. lia. Qed.

Lemma wrap64_small (z : Z) : 0 <= z < 2 ^ 64 -> wrap64 z = z.
Proof. intros Hz. unfold wrap64. apply Z.mod_small. exact Hz. Qed.

(** ** Loops *)

Lemma for_levels_from_fold {S : Type} (body : nat -> S -> S) :
  forall count level s,
    for_levels_from count level body s
    = fold_left (fun s l => body l s) (seq level count) s.
Proof.
  induction count as [|n IH]; intros level s; simpl.
  - reflexivity.
  - apply IH.
Qed.

Lemma fold_add32_wrapped (f : nat -> Z) :
  forall l a,
    fold_left (fun acc L => add32 acc (f L)) l (wrap32 a)
    = wrap32 (a + fold_right Z.add 0 (map f l)).
Proof.
  induction l as [|x l IH]; intros a; simpl.
  - f_equal. lia.
  - rewrite wrap32_add_l, IH. f_equal. lia.
Qed.

Lemma fold_add32_from_zero (f : nat -> Z) (l : list nat) :
  fold_left (fun acc L => add32 acc (f L)) l 0
  = wrap32 (fold_right Z.add 0 (map f l)).
Proof.
  change 0 with (wrap32 0) at 1. rewrite fold_add32_wrapped. reflexivity.
Qed.

Lemma fold_add32_nonempty (f : nat -> Z) (x : nat) (l : list nat) (a : Z) :
  fold_left (fun acc L => add32 acc (f L)) (x :: l) a
  = wrap32 (a + fold_right Z.add 0 (map f (x :: l))).
Proof.
  simpl. rewrite add32_wrapped, fold_add32_wrapped. f_equal. lia.
Qed.

(** Every level up to [last] holds the offset the routine gives for it. *)
Lemma fill_from_untouched {ext : Externals} (s : SWR_SURFACE_STATE) :
  forall count first a j,
    (j < first)%nat ->
    for_levels_from count first
      (fun level a =>
         array_set a level (ComputeSurfaceOffset 0 0 0 0 0 (Z.of_nat level) s))
      a j
    = a j.
Proof.
  induction count as [|n IH]; intros first a j Hj; simpl.
  - reflexivity.
  - rewrite IH by lia. unfold array_set.
    destruct (Nat.eqb_spec j first); [lia | reflexivity].
Qed.

Lemma fill_from_written {ext : Externals} (s : SWR_SURFACE_STATE) :
  forall count first a j,
    (first <= j < first + count)%nat ->
    for_levels_from count first
      (fun level a =>
         array_set a level (ComputeSurfaceOffset 0 0 0 0 0 (Z.of_nat level) s))
      a j
    = ComputeSurfaceOffset 0 0 0 0 0 (Z.of_nat j) s.
Proof.
  induction count as [|n IH]; intros first a j Hj; simpl.
  - lia.
  - destruct (Nat.eq_dec j first) as [->|Hne].
    + rewrite fill_from_untouched by lia. unfold array_set.
      rewrite Nat.eqb_refl. reflexivity.
    + apply IH. lia.
Qed.

Lemma fill_mip_offsets_level {ext : Externals} (last : nat)
    (s : SWR_SURFACE_STATE) (a : level_array) (level : nat) :
  (level <= last)%nat ->
  fill_mip_offsets last s a level
  = ComputeSurfaceOffset 0 0 0 0 0 (Z.of_nat level) s.
Proof.
  intros Hl. unfold fill_mip_offsets, for_levels.
  apply fill_from_written. lia.
Qed.

(** ** The fix-up switch *)

Lemma fixup_returns {ext : Externals} (pt : pipe_resource) :
  has_swr_format pt = true ->
  exists f,
    fixup_swr_format (layout_format pt) (mesa_to_swr_format (layout_format pt))
    = Returns f.
Proof.
  unfold has_swr_format, fixup_swr_format. intros Hf.
  destruct (swr_format_is_invalid (mesa_to_swr_format (layout_format pt))).
  - simpl in Hf.
    repeat (apply orb_true_iff in Hf; destruct Hf as [Hf|Hf]);
      try discriminate; apply Z.eqb_eq in Hf; rewrite Hf; eexists; reflexivity.
  - eexists; reflexivity.
Qed.

(** ** What a call of the layout returns *)

Lemma swr_texture_layout_returns {ext : Externals}
    (res : swr_resource) (allocate : bool) (h : allocator) :
  has_swr_format (base res) = true ->
  exists b res' h',
    swr_texture_layout res allocate h = Returns (b, res', h')
    /\ base res' = base res
    /\ pitch (swr res') = layout_pitch (base res)
    /\ qpitch (swr res') = layout_qpitch (base res)
    /\ depth (swr res') = layout_depth (base res)
    /\ halign (swr res') = fst (bind_align (base res))
    /\ valign (swr res') = snd (bind_align (base res))
    /\ fixup_swr_format (layout_format (base res))
                        (mesa_to_swr_format (layout_format (base res)))
       = Returns (surf_format (swr res'))
    /\ b = negb (SWR_MAX_TEXTURE_SIZE <? total_size (swr res'))
    /\ (b = false -> h' = h).
Proof.
  intros Hf. destruct (fixup_returns _ Hf) as [f Hfix].
  unfold swr_texture_layout. rewrite Hfix.
  match goal with
  | |- context [SWR_MAX_TEXTURE_SIZE <? total_size ?s] =>
      destruct (SWR_MAX_TEXTURE_SIZE <? total_size s) eqn:Hbig
  end.
  - do 3 eexists. split; [reflexivity|]. cbn [base swr pitch qpitch depth halign valign surf_format].
    rewrite Hbig. repeat split; reflexivity.
  - destruct allocate.
    + destruct (AlignedMalloc _ 64 h) as [p h1].
      destruct (util_format_has_depth _ && util_format_has_stencil _).
      * destruct (AlignedMalloc _ 64 h1) as [q h2].
        do 3 eexists. split; [reflexivity|].
        unfold total_size in *.
        cbn [base swr pitch qpitch depth halign valign surf_format with_base_address] in *.
        rewrite Hbig. repeat split; try reflexivity; discriminate.
      * do 3 eexists. split; [reflexivity|].
        unfold total_size in *.
        cbn [base swr pitch qpitch depth halign valign surf_format with_base_address] in *.
        rewrite Hbig. repeat split; try reflexivity; discriminate.
    + do 3 eexists. split; [reflexivity|].
      cbn [base swr pitch qpitch depth halign valign surf_format].
      rewrite Hbig. repeat split; try reflexivity; discriminate.
Qed.

(** ** The size limit *)

Lemma total_size_product (s : SWR_SURFACE_STATE) :
  total_size s = wrap64 (depth s * qpitch s * pitch s).
Proof. unfold total_size. apply mul64_assoc_wrap. Qed.

Lemma total_size_exact (s : SWR_SURFACE_STATE) :
  0 <= depth s * qpitch s * pitch s < 2 ^ 64 ->
  total_size s = depth s * qpitch s * pitch s.
Proof. intros Hs. rewrite total_size_product. apply wrap64_small, Hs. Qed.

(** The three factors of a scenario's total size, whatever the offset routine
    and the window system are. *)
Lemma scenario_factors offset create map (pt : pipe_resource)
    (d q p : Z) (res : swr_resource) (allocate : bool) (h : allocator) :
  base res = pt ->
  has_swr_format (ext := externals offset create map) pt = true ->
  layout_depth pt = d ->
  layout_qpitch (ext := externals offset create map) pt = q ->
  layout_pitch (ext := externals offset create map) pt = p ->
  exists b res' h',
    swr_texture_layout (ext := externals offset create map) res allocate h
    = Returns (b, res', h')
    /\ depth (swr res') = d /\ qpitch (swr res') = q /\ pitch (swr res') = p
    /\ b = negb (SWR_MAX_TEXTURE_SIZE <? wrap64 (d * q * p))
    /\ (b = false -> h' = h).
Proof.
  intros Hb Hf Hd Hq Hp. subst pt.
  destruct (swr_texture_layout_returns (ext := externals offset create map)
              res allocate h Hf)
    as (b & res' & h' & Hrun & _ & Hpitch & Hqpitch & Hdepth & _ & _ & _
        & Hret & Hheap).
  exists b, res', h'. rewrite total_size_product in Hret.
  rewrite Hpitch, Hqpitch, Hdepth, Hd, Hq, Hp in Hret.
  repeat split; try congruence. exact Hheap.
Qed.

(** C1: the layout returns false exactly when the total size it computes,
    the 64-bit product depth * qpitch * pitch, is above the 4 GiB limit, and
    then the allocator has not been called.  A descriptor whose total is
    exactly 4 GiB is accepted; one whose total is 4 GiB and one byte is
    refused. *)
Theorem C1_fails_exactly_over_4GiB :
  (forall (ext : Externals) (res : swr_resource) (allocate : bool)
          (h : allocator),
      has_swr_format (base res) = true ->
      exists b res' h',
        swr_texture_layout res allocate h = Returns (b, res', h')
        /\ total_size (swr res')
           = wrap64 (depth (swr res') * qpitch (swr res') * pitch (swr res'))
        /\ (b = false <-> SWR_MAX_TEXTURE_SIZE < total_size (swr res'))
        /\ (b = false -> h' = h))
  /\ (forall offset create map allocate h,
        exists res' h',
          swr_texture_layout (ext := externals offset create map)
                             (fresh_resource exactly_4GiB) allocate h
          = Returns (true, res', h')
          /\ depth (swr res') * qpitch (swr res') * pitch (swr res')
             = SWR_MAX_TEXTURE_SIZE)
  /\ (forall offset create map allocate h,
        exists res',
          swr_texture_layout (ext := externals offset create map)
                             (fresh_resource one_byte_over) allocate h
          = Returns (false, res', h)
          /\ depth (swr res') * qpitch (swr res') * pitch (swr res')
             = SWR_MAX_TEXTURE_SIZE + 1).
Proof.
  split; [|split].
  - intros ext res allocate h Hf.
    destruct (swr_texture_layout_returns res allocate h Hf)
      as (b & res' & h' & Hrun & _ & _ & _ & _ & _ & _ & _ & Hret & Hheap).
    exists b, res', h'. split; [exact Hrun|].
    split; [apply total_size_product|]. split; [|exact Hheap].
    rewrite Hret. destruct (Z.ltb_spec SWR_MAX_TEXTURE_SIZE (total_size (swr res')));
      simpl; split; intros; try lia; try discriminate; reflexivity.
  - intros offset create map allocate h.
    destruct (scenario_factors offset create map exactly_4GiB 1 65536 65536
                (fresh_resource exactly_4GiB) allocate h)
      as (b & res' & h' & Hrun & Hd & Hq & Hp & Hret & _);
      try reflexivity.
    exists res', h'. rewrite Hd, Hq, Hp. split; [|reflexivity].
    rewrite Hrun, Hret. reflexivity.
  - intros offset create map allocate h.
    destruct (scenario_factors offset create map one_byte_over 641 6700417 1
                (fresh_resource one_byte_over) allocate h)
      as (b & res' & h' & Hrun & Hd & Hq & Hp & Hret & Hheap);
      try reflexivity.
    exists res'. rewrite Hd, Hq, Hp. split; [|reflexivity].
    assert (Hb : b = false) by (rewrite Hret; reflexivity).
    rewrite Hrun, Hb, (Hheap Hb). reflexivity.
Qed.

Lemma C1_witness :
  has_swr_format (ext := offscreen) (base (fresh_resource exactly_4GiB)) = true
  /\ exists b res' h',
       swr_texture_layout (ext := offscreen) (fresh_resource exactly_4GiB)
                          true empty_heap
       = Returns (b, res', h')
       /\ total_size (swr res')
          = wrap64 (depth (swr res') * qpitch (swr res') * pitch (swr res'))
       /\ (b = false <-> SWR_MAX_TEXTURE_SIZE < total_size (swr res'))
       /\ (b = false -> h' = empty_heap).
Proof.
  split; [reflexivity|].
  apply (proj1 C1_fails_exactly_over_4GiB offscreen
               (fresh_resource exactly_4GiB) true empty_heap).
  reflexivity.
Defined.

(** ** Pitch and qpitch *)

Lemma height_2d_described {ext : Externals} (pt : pipe_resource) (valign : Z) :
  height_2d pt valign = described_height pt valign.
Proof.
  unfold height_2d, described_height, mipLevelCount.
  destruct (last_level pt) as [|[|n]]; try reflexivity.
  cbn [Nat.eqb Nat.ltb Nat.leb]. f_equal. f_equal.
  unfold for_levels, sum_levels. rewrite for_levels_from_fold.
  apply (fold_add32_from_zero (aligned_level (height0 pt) valign)).
Qed.

Lemma width_2d_described {ext : Externals} (pt : pipe_resource) (halign : Z) :
  width_2d pt halign = described_pitch_width pt halign.
Proof.
  unfold width_2d, described_pitch_width, mipLevelCount, aligned_level.
  change (Z.of_nat 1) with 1. change (Z.of_nat 2) with 2.
  destruct (last_level pt) as [|[|n]]; try reflexivity.
  cbn [Nat.ltb Nat.leb andb].
  destruct (Z.ltb_spec (align (width0 pt) halign)
              (add32 (align (u_minify (width0 pt) 1) halign)
                     (align (u_minify (width0 pt) 2) halign))); lia.
Qed.

Lemma width_1d_described {ext : Externals} (pt : pipe_resource) (halign : Z) :
  width_1d pt halign = described_width_1d pt halign.
Proof.
  unfold width_1d, described_width_1d, mipLevelCount, for_levels.
  rewrite for_levels_from_fold. reflexivity.
Qed.

(** The accumulated 1D width in closed form: with more than one level it is
    the unsigned sum of the aligned widths of all levels. *)
Lemma described_width_1d_sum {ext : Externals} (pt : pipe_resource)
    (halign : Z) :
  (1 <= last_level pt)%nat ->
  described_width_1d pt halign
  = wrap32 (align (width0 pt) halign
            + sum_levels (aligned_level (width0 pt) halign) 1 (last_level pt)).
Proof.
  intros Hl. unfold described_width_1d, sum_levels, mipLevelCount.
  destruct (last_level pt) as [|n]; [lia|].
  replace (S (S n) - 1)%nat with (S n) by lia.
  cbn [seq]. apply fold_add32_nonempty.
Qed.

(** C2: for a descriptor that is not 1D, qpitch is the block count of the
    local height, and that height is align(height0, valign) for one level,
    plus the aligned height of level 1 for two levels, plus the larger of
    level 1 and the unsigned sum of levels 2 to the last for more; valign is
    the surface's vertical alignment times the format's block height. *)
Theorem C2_qpitch_from_staircase_height :
  forall (ext : Externals) (res : swr_resource) (allocate : bool)
         (h : allocator),
    is_1d_target (target (base res)) = false ->
    has_swr_format (base res) = true ->
    exists b res' h',
      swr_texture_layout res allocate h = Returns (b, res', h')
      /\ let pt := base res in
         let fmt := layout_format pt in
         let valign :=
           mul32 (valign (swr res')) (util_format_get_blockheight fmt) in
         let level := fun L => align (u_minify (height0 pt) (Z.of_nat L)) valign in
         qpitch (swr res') = util_format_get_nblocksy fmt (height_2d pt valign)
         /\ height_2d pt valign = described_height pt valign
         /\ (mipLevelCount pt = 1%nat ->
             height_2d pt valign = align (height0 pt) valign)
         /\ (mipLevelCount pt = 2%nat ->
             height_2d pt valign
             = add32 (align (height0 pt) valign) (level 1%nat))
         /\ ((mipLevelCount pt > 2)%nat ->
             height_2d pt valign
             = add32 (align (height0 pt) valign)
                     (Z.max (level 1%nat)
                            (wrap32 (sum_levels level 2 (last_level pt))))).
Proof.
  intros ext res allocate h H1d Hf.
  destruct (swr_texture_layout_returns res allocate h Hf)
    as (b & res' & h' & Hrun & _ & _ & Hq & _ & _ & Hva & _).
  exists b, res', h'. split; [exact Hrun|]. cbv zeta.
  rewrite Hq, Hva. unfold layout_qpitch. rewrite H1d.
  fold (local_valign (base res)).
  split; [reflexivity|]. split; [apply height_2d_described|].
  rewrite height_2d_described. unfold described_height, mipLevelCount.
  repeat split; intros Hn.
  - replace (last_level (base res)) with 0%nat by lia. reflexivity.
  - replace (last_level (base res)) with 1%nat by lia. reflexivity.
  - destruct (last_level (base res)) as [|[|n]]; [lia|lia|reflexivity].
Qed.

Lemma C2_witness :
  is_1d_target (target (base (fresh_resource small_mipmapped))) = false
  /\ has_swr_format (ext := offscreen) (base (fresh_resource small_mipmapped))
     = true
  /\ exists b res' h',
      swr_texture_layout (ext := offscreen) (fresh_resource small_mipmapped)
                         true empty_heap
      = Returns (b, res', h')
      /\ qpitch (swr res') = 24.
Proof.
  split; [reflexivity|]. split; [reflexivity|].
  destruct (C2_qpitch_from_staircase_height offscreen
              (fresh_resource small_mipmapped) true empty_heap
              eq_refl eq_refl)
    as (b & res' & h' & Hrun & Hq & _).
  exists b, res', h'. split; [exact Hrun|].
  rewrite Hq. injection Hrun as _ <- _. reflexivity.
Defined.

(** C3, as the code has it: for a descriptor that is not 1D, pitch is the byte
    stride of the pitch width by the layout format, which is the descriptor's
    format, or R8_UINT when that format has stencil and no depth; the pitch
    width is align(width0, halign), widened to the aligned widths of levels 1
    and 2 side by side only when there are more than two levels and that sum
    is larger; halign is the surface's horizontal alignment times the layout
    format's block width.  For width0 = 16, five levels and halign = 1 the
    pitch width stays 16. *)
Theorem C3_pitch_from_level0_or_levels_1_2 :
  (forall (ext : Externals) (res : swr_resource) (allocate : bool)
          (h : allocator),
      is_1d_target (target (base res)) = false ->
      has_swr_format (base res) = true ->
      exists b res' h',
        swr_texture_layout res allocate h = Returns (b, res', h')
        /\ let pt := base res in
           let fmt :=
             if util_format_has_stencil (format pt)
                && negb (util_format_has_depth (format pt))
             then PIPE_FORMAT_R8_UINT
             else format pt in
           let halign :=
             mul32 (halign (swr res')) (util_format_get_blockwidth fmt) in
           let side := add32 (align (u_minify (width0 pt) 1) halign)
                             (align (u_minify (width0 pt) 2) halign) in
           pitch (swr res') = util_format_get_stride fmt (width_2d pt halign)
           /\ width_2d pt halign = described_pitch_width pt halign
           /\ ((mipLevelCount pt <= 2)%nat ->
               width_2d pt halign = align (width0 pt) halign)
           /\ ((mipLevelCount pt > 2)%nat ->
               align (width0 pt) halign < side ->
               width_2d pt halign = side)
           /\ ((mipLevelCount pt > 2)%nat ->
               side <= align (width0 pt) halign ->
               width_2d pt halign = align (width0 pt) halign))
  /\ (forall offset create map (pt : pipe_resource),
        width0 pt = 16 -> mipLevelCount pt = 5%nat ->
        width_2d (ext := externals offset create map) pt 1 = 16)
  /\ (forall offset create map allocate h,
        exists b res' h',
          swr_texture_layout (ext := externals offset create map)
                             (fresh_resource small_mipmapped) allocate h
          = Returns (b, res', h')
          /\ halign (swr res') = 1
          /\ pitch (swr res') = 16 * 4).
Proof.
  split; [|split].
  - intros ext res allocate h H1d Hf.
    destruct (swr_texture_layout_returns res allocate h Hf)
      as (b & res' & h' & Hrun & _ & Hp & _ & _ & Hha & _).
    exists b, res', h'. split; [exact Hrun|]. cbv zeta.
    change (if util_format_has_stencil (format (base res))
                 && negb (util_format_has_depth (format (base res)))
              then PIPE_FORMAT_R8_UINT
              else format (base res))
      with (layout_format (base res)).
    rewrite Hp, Hha. unfold layout_pitch. rewrite H1d.
    fold (local_halign (base res)).
    split; [reflexivity|]. split; [apply width_2d_described|].
    unfold width_2d, mipLevelCount.
    repeat split; intros Hn.
    + destruct (last_level (base res)) as [|[|n]]; [reflexivity|reflexivity|lia].
    + intros Hlt. destruct (last_level (base res)) as [|[|n]]; [lia|lia|].
      cbn [Nat.ltb Nat.leb]. lia.
    + intros Hle. destruct (last_level (base res)) as [|[|n]]; [lia|lia|].
      cbn [Nat.ltb Nat.leb]. lia.
  - intros offset create map pt Hw Hn. unfold mipLevelCount in Hn.
    unfold width_2d. rewrite Hw.
    replace (last_level pt) with 4%nat by lia. reflexivity.
  - intros offset create map allocate h.
    destruct (swr_texture_layout_returns (ext := externals offset create map)
                (fresh_resource small_mipmapped) allocate h eq_refl)
      as (b & res' & h' & Hrun & _ & Hp & _ & _ & Hha & _).
    exists b, res', h'. rewrite Hp, Hha. repeat split; [exact Hrun|reflexivity..].
Qed.

Lemma C3_witness :
  is_1d_target (target (base (fresh_resource small_mipmapped))) = false
  /\ has_swr_format (ext := offscreen) (base (fresh_resource small_mipmapped))
     = true
  /\ exists b res' h',
      swr_texture_layout (ext := offscreen) (fresh_resource small_mipmapped)
                         true empty_heap
      = Returns (b, res', h')
      /\ pitch (swr res') = 64.
Proof.
  split; [reflexivity|]. split; [reflexivity|].
  destruct (proj1 C3_pitch_from_level0_or_levels_1_2 offscreen
              (fresh_resource small_mipmapped) true empty_heap
              eq_refl eq_refl)
    as (b & res' & h' & Hrun & Hp & _).
  exists b, res', h'. split; [exact Hrun|].
  rewrite Hp. injection Hrun as _ <- _. reflexivity.
Defined.

(** C3 as stated fails when the stride is taken by the descriptor's format: a
    64 x 64 texture with three levels of the stencil-only format with 4-byte
    texels has a pitch width of 64 and gets pitch 64, one byte per texel,
    where the stride of that width by the descriptor's format is 256. *)
Lemma C3_counterexample :
  is_1d_target (target stencil_view_mipmapped) = false
  /\ exists res' h',
      swr_texture_layout (ext := offscreen)
                         (fresh_resource stencil_view_mipmapped) true
                         empty_heap
      = Returns (true, res', h')
      /\ pitch (swr res') = 64
      /\ util_format_get_stride (Externals := offscreen)
           (format stencil_view_mipmapped)
           (described_pitch_width (ext := offscreen) stencil_view_mipmapped
              (mul32 (halign (swr res'))
                     (util_format_get_blockwidth (Externals := offscreen)
                        (format stencil_view_mipmapped))))
         = 256.
Proof.
  split; [reflexivity|].
  do 2 eexists. split; [reflexivity|]. split; reflexivity.
Qed.

(** C8, as the code has it: for a 1D or 1D-array descriptor, pitch is the
    bytes per block of the layout format, which is the descriptor's format,
    or R8_UINT when that format has stencil and no depth, and qpitch is the
    block count, in that format, of the width accumulated from the aligned
    level-0 width by adding the aligned width of minify(width0, L) for every
    level L from 1 to mipLevelCount - 1. *)
Theorem C8_layout_of_1d :
  forall (ext : Externals) (res : swr_resource) (allocate : bool)
         (h : allocator),
    is_1d_target (target (base res)) = true ->
    has_swr_format (base res) = true ->
    exists b res' h',
      swr_texture_layout res allocate h = Returns (b, res', h')
      /\ let pt := base res in
         let fmt :=
           if util_format_has_stencil (format pt)
              && negb (util_format_has_depth (format pt))
           then PIPE_FORMAT_R8_UINT
           else format pt in
         let halign :=
           mul32 (halign (swr res')) (util_format_get_blockwidth fmt) in
         pitch (swr res') = util_format_get_blocksize fmt
         /\ qpitch (swr res')
            = util_format_get_nblocksx fmt (described_width_1d pt halign)
         /\ described_width_1d pt halign
            = fold_left
                (fun total L =>
                   add32 total
                         (align (u_minify (width0 pt) (Z.of_nat L)) halign))
                (seq 1 (mipLevelCount pt - 1))
                (align (width0 pt) halign).
Proof.
  intros ext res allocate h H1d Hf.
  destruct (swr_texture_layout_returns res allocate h Hf)
    as (b & res' & h' & Hrun & _ & Hp & Hq & _ & Hha & _).
  exists b, res', h'. split; [exact Hrun|]. cbv zeta.
  change (if util_format_has_stencil (format (base res))
               && negb (util_format_has_depth (format (base res)))
            then PIPE_FORMAT_R8_UINT
            else format (base res))
    with (layout_format (base res)).
  rewrite Hp, Hq, Hha. unfold layout_pitch, layout_qpitch. rewrite H1d.
  fold (local_halign (base res)). rewrite width_1d_described.
  repeat split; reflexivity.
Qed.

Lemma C8_witness :
  is_1d_target (target (base (fresh_resource strip))) = true
  /\ has_swr_format (ext := offscreen) (base (fresh_resource strip)) = true
  /\ exists b res' h',
      swr_texture_layout (ext := offscreen) (fresh_resource strip)
                         true empty_heap
      = Returns (b, res', h')
      /\ pitch (swr res') = 4
      /\ qpitch (swr res') = 16 + 8 + 4 + 2 + 1.
Proof.
  split; [reflexivity|]. split; [reflexivity|].
  destruct (C8_layout_of_1d offscreen (fresh_resource strip) true empty_heap
              eq_refl eq_refl)
    as (b & res' & h' & Hrun & Hp & Hq & _).
  exists b, res', h'. split; [exact Hrun|].
  rewrite Hp, Hq. injection Hrun as _ <- _. split; reflexivity.
Defined.

(** C8 as stated fails for the descriptor's format: a 1D texture of 64 texels
    of the stencil-only format with 4-byte texels gets pitch 1, where the
    format has 4 bytes per block. *)
Lemma C8_counterexample :
  is_1d_target (target stencil_strip) = true
  /\ util_format_get_blocksize (Externals := offscreen) (format stencil_strip)
     = 4
  /\ exists res' h',
      swr_texture_layout (ext := offscreen) (fresh_resource stencil_strip)
                         true empty_heap
      = Returns (true, res', h')
      /\ pitch (swr res') = 1.
Proof.
  split; [reflexivity|]. split; [reflexivity|].
  do 2 eexists. split; reflexivity.
Qed.

(** C9, as the code has it: for a descriptor that is not 1D and has one
    level, pitch is align(width0, halign * blockWidth) converted to a byte
    stride and qpitch is align(height0, valign * blockHeight) converted to
    blocks, the block and the conversions being those of the layout format,
    which is the descriptor's format, or R8_UINT when that format has stencil
    and no depth.  For width0 = 257, height0 = 130, one level and a 32 x 32
    alignment the pitch width is 288 and the aligned height 160, so a render
    target of 4-byte texels gets pitch 288 * 4 and qpitch 160, and one of
    1-byte texels pitch 288. *)
Theorem C9_single_level :
  (forall (ext : Externals) (res : swr_resource) (allocate : bool)
          (h : allocator),
      is_1d_target (target (base res)) = false ->
      mipLevelCount (base res) = 1%nat ->
      has_swr_format (base res) = true ->
      exists b res' h',
        swr_texture_layout res allocate h = Returns (b, res', h')
        /\ let pt := base res in
           let fmt :=
             if util_format_has_stencil (format pt)
                && negb (util_format_has_depth (format pt))
             then PIPE_FORMAT_R8_UINT
             else format pt in
           pitch (swr res')
           = util_format_get_stride fmt
               (align (width0 pt)
                      (mul32 (halign (swr res'))
                             (util_format_get_blockwidth fmt)))
           /\ qpitch (swr res')
              = util_format_get_nblocksy fmt
                  (align (height0 pt)
                         (mul32 (valign (swr res'))
                                (util_format_get_blockheight fmt))))
  /\ (forall offset create map (pt : pipe_resource),
        width0 pt = 257 -> height0 pt = 130 -> mipLevelCount pt = 1%nat ->
        width_2d (ext := externals offset create map) pt 32 = 288
        /\ height_2d (ext := externals offset create map) pt 32 = 160)
  /\ (forall offset create map allocate h,
        exists b res' h',
          swr_texture_layout (ext := externals offset create map)
                             (fresh_resource render_target) allocate h
          = Returns (b, res', h')
          /\ halign (swr res') = 32 /\ valign (swr res') = 32
          /\ pitch (swr res') = 288 * 4 /\ qpitch (swr res') = 160)
  /\ (forall offset create map allocate h,
        exists b res' h',
          swr_texture_layout (ext := externals offset create map)
                             (fresh_resource render_target_r8) allocate h
          = Returns (b, res', h')
          /\ pitch (swr res') = 288 /\ qpitch (swr res') = 160).
Proof.
  split; [|split; [|split]].
  - intros ext res allocate h H1d Hn Hf.
    destruct (swr_texture_layout_returns res allocate h Hf)
      as (b & res' & h' & Hrun & _ & Hp & Hq & _ & Hha & Hva & _).
    exists b, res', h'. split; [exact Hrun|]. cbv zeta.
    change (if util_format_has_stencil (format (base res))
                 && negb (util_format_has_depth (format (base res)))
              then PIPE_FORMAT_R8_UINT
              else format (base res))
      with (layout_format (base res)).
    rewrite Hp, Hq, Hha, Hva. unfold layout_pitch, layout_qpitch.
    rewrite H1d. unfold width_2d, height_2d, local_halign, local_valign.
    unfold mipLevelCount in Hn.
    replace (last_level (base res)) with 0%nat by lia.
    split; reflexivity.
  - intros offset create map pt Hw Hh Hn. unfold mipLevelCount in Hn.
    unfold width_2d, height_2d. rewrite Hw, Hh.
    replace (last_level pt) with 0%nat by lia. split; reflexivity.
  - intros offset create map allocate h.
    destruct (swr_texture_layout_returns (ext := externals offset create map)
                (fresh_resource render_target) allocate h eq_refl)
      as (b & res' & h' & Hrun & _ & Hp & Hq & _ & Hha & Hva & _).
    exists b, res', h'. rewrite Hp, Hq, Hha, Hva.
    repeat split; [exact Hrun|reflexivity..].
  - intros offset create map allocate h.
    destruct (swr_texture_layout_returns (ext := externals offset create map)
                (fresh_resource render_target_r8) allocate h eq_refl)
      as (b & res' & h' & Hrun & _ & Hp & Hq & _).
    exists b, res', h'. rewrite Hp, Hq.
    repeat split; [exact Hrun|reflexivity..].
Qed.

Lemma C9_witness :
  is_1d_target (target (base (fresh_resource render_target))) = false
  /\ mipLevelCount (base (fresh_resource render_target)) = 1%nat
  /\ has_swr_format (ext := offscreen) (base (fresh_resource render_target))
     = true
  /\ exists b res' h',
      swr_texture_layout (ext := offscreen) (fresh_resource render_target)
                         true empty_heap
      = Returns (b, res', h')
      /\ pitch (swr res') = 1152
      /\ qpitch (swr res') = 160.
Proof.
  split; [reflexivity|]. split; [reflexivity|]. split; [reflexivity|].
  destruct (proj1 C9_single_level offscreen (fresh_resource render_target)
              true empty_heap eq_refl eq_refl eq_refl)
    as (b & res' & h' & Hrun & Hp & Hq).
  exists b, res', h'. split; [exact Hrun|].
  rewrite Hp, Hq. injection Hrun as _ <- _. split; reflexivity.
Defined.

(** C9 as stated fails when the width is converted by the descriptor's format:
    a 64 x 64 single-level texture of the stencil-only format with 4-byte
    texels gets pitch 64, where align(64, 1) converted to bytes by that
    format is 256. *)
Lemma C9_counterexample :
  is_1d_target (target stencil_view) = false
  /\ mipLevelCount stencil_view = 1%nat
  /\ exists res' h',
      swr_texture_layout (ext := offscreen) (fresh_resource stencil_view)
                         true empty_heap
      = Returns (true, res', h')
      /\ pitch (swr res') = 64
      /\ util_format_get_stride (Externals := offscreen)
           (format stencil_view)
           (align (Externals := offscreen) (width0 stencil_view)
              (mul32 (halign (swr res'))
                     (util_format_get_blockwidth (Externals := offscreen)
                        (format stencil_view))))
         = 256.
Proof.
  split; [reflexivity|]. split; [reflexivity|].
  do 2 eexists. split; [reflexivity|]. split; reflexivity.
Qed.

(** ** Allocation *)

Lemma AlignedMalloc_events (size alignment : Z) (h h1 : allocator) (p : Z) :
  AlignedMalloc size alignment h = (p, h1) ->
  events h1 = EvAlignedMalloc size alignment p :: events h.
Proof.
  unfold AlignedMalloc. intros Hm.
  destruct (script h) as [|[|] rest]; injection Hm as <- <-; reflexivity.
Qed.

(** C4: when the layout accepts a descriptor, the size it compared with the
    limit and, with allocation, asked the allocator for is the 64-bit product
    depth * qpitch * pitch (the exact product whenever that fits 64 bits),
    where depth is depth0 for a 3D texture and array_size for every other
    target. *)
Theorem C4_total_is_depth_qpitch_pitch :
  forall (ext : Externals) (res : swr_resource) (allocate : bool)
         (h : allocator) (res' : swr_resource) (h' : allocator),
    swr_texture_layout res allocate h = Returns (true, res', h') ->
    let total := total_size (swr res') in
    let product := depth (swr res') * qpitch (swr res') * pitch (swr res') in
    total = wrap64 product
    /\ (0 <= product < 2 ^ 64 -> total = product)
    /\ total <= SWR_MAX_TEXTURE_SIZE
    /\ depth (swr res')
       = match target (base res) with
         | PIPE_TEXTURE_3D => depth0 (base res)
         | _ => array_size (base res)
         end
    /\ (allocate = true ->
        exists later,
          events h'
          = later ++ EvAlignedMalloc total 64 (pBaseAddress (swr res'))
                  :: events h)
    /\ (allocate = false -> h' = h).
Proof.
  intros ext res allocate h res' h' Hrun. cbv zeta.
  split; [apply total_size_product|].
  split; [apply total_size_exact|].
  unfold swr_texture_layout in Hrun.
  destruct (fixup_swr_format _ _) as [sfmt|]; [|discriminate].
  match type of Hrun with
  | context [SWR_MAX_TEXTURE_SIZE <? total_size ?s] =>
      destruct (Z.ltb_spec SWR_MAX_TEXTURE_SIZE (total_size s)) as [Hbig|Hok]
  end; [discriminate|].
  destruct allocate.
  - destruct (AlignedMalloc _ 64 h) as [p h1] eqn:Hm1.
    apply AlignedMalloc_events in Hm1.
    destruct (util_format_has_depth _ && util_format_has_stencil _).
    + destruct (AlignedMalloc _ 64 h1) as [q h2] eqn:Hm2.
      apply AlignedMalloc_events in Hm2.
      injection Hrun as <- <-. unfold total_size in *.
      cbn [swr depth qpitch pitch pBaseAddress with_base_address] in *.
      repeat split; try assumption; try discriminate.
      intros _. eexists [_]. rewrite Hm2, Hm1. reflexivity.
    + injection Hrun as <- <-. unfold total_size in *.
      cbn [swr depth qpitch pitch pBaseAddress with_base_address] in *.
      repeat split; try assumption; try discriminate.
      intros _. exists []. rewrite Hm1. reflexivity.
  - injection Hrun as <- <-.
    cbn [swr depth qpitch pitch pBaseAddress].
    repeat split; try assumption; try reflexivity. discriminate.
Qed.

Lemma C4_witness :
  exists res' h',
    swr_texture_layout (ext := offscreen) (fresh_resource volume) true
                       empty_heap
    = Returns (true, res', h')
    /\ total_size (swr res') = 4 * 12 * 32
    /\ depth (swr res') = depth0 volume
    /\ events h' = [EvAlignedMalloc 1536 64 64].
Proof.
  do 2 eexists. split; [reflexivity|].
  destruct (C4_total_is_depth_qpitch_pitch offscreen (fresh_resource volume)
              true empty_heap _ _ eq_refl)
    as (_ & Hexact & _ & Hdepth & Hev & _).
  split; [apply Hexact; vm_compute; split; congruence|].
  split; [exact Hdepth|]. reflexivity.
Defined.

(** C5: what the code does when an allocation fails.  With the first
    allocation failing the layout still returns true and leaves a NULL base
    address; with the primary allocation succeeding and the stencil one
    failing it returns true as well, keeps the primary block and never calls
    AlignedFree. *)
Theorem C5_failed_allocation_returns_true :
  forall offset create map,
    (exists res' h',
        swr_texture_layout (ext := externals offset create map)
                           (fresh_resource small_mipmapped) true first_fails
        = Returns (true, res', h')
        /\ pBaseAddress (swr res') = NULL
        /\ events h' = [EvAlignedMalloc 1536 64 NULL])
    /\ (exists res' h',
          swr_texture_layout (ext := externals offset create map)
                             (fresh_resource depth_stencil) true second_fails
          = Returns (true, res', h')
          /\ pBaseAddress (swr res') = 64
          /\ pBaseAddress (secondary res') = NULL
          /\ events h'
             = [EvAlignedMalloc 6144 64 NULL; EvAlignedMalloc 24576 64 64]).
Proof.
  intros offset create map. split.
  - do 2 eexists. split; [reflexivity|]. repeat split.
  - do 2 eexists. split; [reflexivity|]. repeat split.
Qed.

(** ** The stencil surface *)

(** In the format table of the reference instance, the pitch and qpitch the
    code derives for the stencil surface of a depth+stencil format are the
    ones the layout computes for the same template in R8_UINT: always the
    qpitch, and the pitch as long as the primary byte stride, block count
    times block size, fits 32 bits. *)
Lemma stencil_matches_r8_layout offset create map (pt : pipe_resource) :
  is_depth_stencil (ext := externals offset create map) pt = true ->
  layout_qpitch (ext := externals offset create map) pt
  = layout_qpitch (ext := externals offset create map)
                  (with_format PIPE_FORMAT_R8_UINT pt)
  /\ (is_1d_target (target pt) = true
      \/ util_format_get_nblocksx (Externals := externals offset create map)
           (format pt)
           (width_2d (ext := externals offset create map) pt
                     (local_halign (ext := externals offset create map) pt))
         * util_format_get_blocksize (Externals := externals offset create map)
             (format pt)
         < 2 ^ 32 ->
      div32 (layout_pitch (ext := externals offset create map) pt)
            (util_format_get_blocksize (Externals := externals offset create map)
                                       (format pt))
      = layout_pitch (ext := externals offset create map)
                     (with_format PIPE_FORMAT_R8_UINT pt)).
Proof.
  destruct pt as [t f w0 h0 d0 n last ns bd].
  unfold is_depth_stencil. cbn [format util_format_has_depth
                                util_format_has_stencil externals].
  intros Hzs.
  destruct f; try discriminate Hzs; (split; [reflexivity|]);
    unfold layout_pitch, with_format, local_halign, layout_format, bind_align;
    cbn [target format width0 last_level bind util_format_has_stencil
         util_format_has_depth util_format_get_blockwidth
         util_format_get_blocksize util_format_get_stride
         util_format_get_nblocksx externals
         table_has_stencil table_has_depth table_blockwidth
         table_is_compressed table_blocksize andb negb];
    (destruct (is_1d_target t); [reflexivity|]);
    (intros [Hc|Hw]; [discriminate|]);
    unfold stride, nblocksx, table_blockwidth, table_blocksize,
      table_is_compressed, div32, mul32, add32 in *;
    rewrite !Z.sub_diag, !Z.add_0_r, !Z.div_1_r, ?Z.mul_1_r in *;
    set (W := wrap32 _) in *;
    assert (HW : 0 <= W < 2 ^ 32)
      by (subst W; unfold wrap32; apply Z.mod_pos_bound; lia);
    unfold wrap32;
    rewrite (Z.mod_small W) by lia;
    rewrite Z.mod_small by lia;
    rewrite Z.div_mul by lia; reflexivity.
Qed.

(** C6, as the code has it: for a depth+stencil format, in the allocation
    step, once the size is accepted, a secondary stencil-only surface is
    derived as a copy of the primary surface state with the format set to
    R8_UINT and the pitch set to the primary pitch divided by the byte size of
    the primary format; its qpitch and depth are the primary's, its level
    offsets are recomputed by the same offset routine against that R8
    surface, and its own block is requested from the allocator.  In the
    reference format table these are the qpitch and the pitch the layout
    itself computes for the same template in R8_UINT: the qpitch always, the
    pitch as long as the primary byte stride fits 32 bits. *)
Theorem C6_stencil_surface_when_allocating :
  (forall (ext : Externals) (res : swr_resource) (h : allocator),
      is_depth_stencil (base res) = true ->
      has_swr_format (base res) = true ->
      exists b res' h',
        swr_texture_layout res true h = Returns (b, res', h')
        /\ (b = true ->
            let fmt := format (base res) in
            let sec := secondary res' in
            sec = with_base_address (pBaseAddress sec)
                                    (stencil_surface fmt (swr res'))
            /\ surf_format sec = R8_UINT
            /\ pitch sec
               = div32 (pitch (swr res')) (util_format_get_blocksize fmt)
            /\ qpitch sec = qpitch (swr res')
            /\ depth sec = depth (swr res')
            /\ (forall level,
                   (level <= last_level (base res))%nat ->
                   secondary_mip_offsets res' level
                   = ComputeSurfaceOffset 0 0 0 0 0 (Z.of_nat level)
                       (stencil_surface fmt (swr res')))
            /\ exists earlier,
                 events h'
                 = EvAlignedMalloc
                     (mul32 (mul32 (depth sec) (qpitch sec)) (pitch sec)) 64
                     (pBaseAddress sec)
                   :: earlier))
  /\ (forall offset create map (res : swr_resource) (h : allocator),
        let ext := externals offset create map in
        is_depth_stencil (base res) = true ->
        has_swr_format (base res) = true ->
        exists b res' h' b8 r8 h8,
          swr_texture_layout res true h = Returns (b, res', h')
          /\ swr_texture_layout
               (fresh_resource (with_format PIPE_FORMAT_R8_UINT (base res)))
               false h
             = Returns (b8, r8, h8)
          /\ (b = true ->
              let pt := base res in
              qpitch (secondary res') = qpitch (swr r8)
              /\ (is_1d_target (target pt) = true
                  \/ util_format_get_nblocksx (format pt)
                       (width_2d pt (local_halign pt))
                     * util_format_get_blocksize (format pt)
                     < 2 ^ 32 ->
                  pitch (secondary res') = pitch (swr r8)))).
Proof.
  assert (General :
    forall (ext : Externals) (res : swr_resource) (h : allocator),
      is_depth_stencil (base res) = true ->
      has_swr_format (base res) = true ->
      exists b res' h',
        swr_texture_layout res true h = Returns (b, res', h')
        /\ (b = true ->
            let fmt := format (base res) in
            let sec := secondary res' in
            sec = with_base_address (pBaseAddress sec)
                                    (stencil_surface fmt (swr res'))
            /\ surf_format sec = R8_UINT
            /\ pitch sec
               = div32 (pitch (swr res')) (util_format_get_blocksize fmt)
            /\ qpitch sec = qpitch (swr res')
            /\ depth sec = depth (swr res')
            /\ (forall level,
                   (level <= last_level (base res))%nat ->
                   secondary_mip_offsets res' level
                   = ComputeSurfaceOffset 0 0 0 0 0 (Z.of_nat level)
                       (stencil_surface fmt (swr res')))
            /\ exists earlier,
                 events h'
                 = EvAlignedMalloc
                     (mul32 (mul32 (depth sec) (qpitch sec)) (pitch sec)) 64
                     (pBaseAddress sec)
                   :: earlier)).
  { intros ext res h Hzs Hf. destruct (fixup_returns _ Hf) as [f Hfix].
    unfold is_depth_stencil in Hzs.
    assert (Hfmt : layout_format (base res) = format (base res)).
    { unfold layout_format. apply andb_true_iff in Hzs as [-> ->].
      reflexivity. }
    unfold swr_texture_layout. rewrite Hfix, Hzs, Hfmt.
    match goal with
    | |- context [SWR_MAX_TEXTURE_SIZE <? total_size ?s] =>
        destruct (SWR_MAX_TEXTURE_SIZE <? total_size s)
    end.
    - do 3 eexists. split; [reflexivity|]. discriminate.
    - destruct (AlignedMalloc _ 64 h) as [p h1].
      destruct (AlignedMalloc _ 64 h1) as [q h2] eqn:Hm2.
      apply AlignedMalloc_events in Hm2.
      do 3 eexists. split; [reflexivity|].
      intros _. cbv zeta. cbn [secondary swr base secondary_mip_offsets].
      repeat split.
      + intros level Hl. apply fill_mip_offsets_level. exact Hl.
      + eexists. exact Hm2. }
  split; [exact General|].
  intros offset create map res h ext Hzs Hf. subst ext.
  destruct (General _ res h Hzs Hf) as (b & res' & h' & Hrun & Htrue).
  destruct (swr_texture_layout_returns res true h Hf)
    as (b0 & r0 & h0 & Hrun0 & _ & Hp0 & Hq0 & _).
  rewrite Hrun in Hrun0. injection Hrun0 as <- <- <-.
  destruct (swr_texture_layout_returns (ext := externals offset create map)
              (fresh_resource (with_format PIPE_FORMAT_R8_UINT (base res)))
              false h eq_refl)
    as (b8 & r8 & h8 & Hrun8 & _ & Hp8 & Hq8 & _).
  exists b, res', h', b8, r8, h8.
  split; [exact Hrun|]. split; [exact Hrun8|].
  intros Hb. destruct (Htrue Hb) as (_ & _ & Hp & Hq & _). cbv zeta.
  rewrite Hq, Hq0, Hq8, Hp, Hp0, Hp8.
  exact (stencil_matches_r8_layout offset create map (base res) Hzs).
Qed.

Lemma C6_witness :
  is_depth_stencil (ext := offscreen) (base (fresh_resource depth_stencil))
  = true
  /\ has_swr_format (ext := offscreen) (base (fresh_resource depth_stencil))
     = true
  /\ exists b res' h',
      swr_texture_layout (ext := offscreen) (fresh_resource depth_stencil)
                         true empty_heap
      = Returns (b, res', h')
      /\ b = true
      /\ surf_format (secondary res') = R8_UINT
      /\ pitch (secondary res') = 256 / 4.
Proof.
  split; [reflexivity|]. split; [reflexivity|].
  destruct (proj1 C6_stencil_surface_when_allocating offscreen
              (fresh_resource depth_stencil) empty_heap eq_refl eq_refl)
    as (b & res' & h' & Hrun & Hsec).
  exists b, res', h'. split; [exact Hrun|].
  assert (Hb : b = true) by (injection Hrun as <- _ _; reflexivity).
  destruct (Hsec Hb) as (_ & Hfmt & Hp & _).
  split; [exact Hb|]. split; [exact Hfmt|].
  rewrite Hp. injection Hrun as _ <- _. reflexivity.
Defined.

(** C6 as stated fails in the allocation step itself.  A depth+stencil
    surface 2^30 texels wide has a byte stride of 2^32, which the unsigned
    stride leaves as 0: the size is accepted, and the stencil surface gets the
    primary pitch over the byte size, 0.  The same layout on the same
    template in R8_UINT accepts it with the pitch 2^30: the stencil pitch is
    derived from the primary one, not computed on its own. *)
Lemma C6_counterexample :
  is_depth_stencil (ext := offscreen) wide_depth_stencil = true
  /\ exists res' h' r8,
      swr_texture_layout (ext := offscreen)
                         (fresh_resource wide_depth_stencil) true empty_heap
      = Returns (true, res', h')
      /\ swr_texture_layout (ext := offscreen)
           (fresh_resource (with_format PIPE_FORMAT_R8_UINT
                                        wide_depth_stencil))
           false empty_heap
         = Returns (true, r8, empty_heap)
      /\ surf_format (secondary res') = R8_UINT
      /\ pitch (swr res') = 0
      /\ pitch (secondary res')
         = div32 (pitch (swr res'))
                 (util_format_get_blocksize (Externals := offscreen)
                                            (format wide_depth_stencil))
      /\ pitch (secondary res') = 0
      /\ pitch (swr r8) = 1073741824.
Proof.
  split; [reflexivity|].
  do 3 eexists. split; [reflexivity|]. split; [reflexivity|].
  repeat split.
Qed.

(** ** Format substitution *)

Lemma fixup_generic {ext : Externals} (fmt : pipe_format) (g : SWR_FORMAT) :
  described_generic_format (util_format_get_blocksize fmt)
                           (util_format_is_compressed fmt) = Some g ->
  fixup_swr_format fmt SWR_FORMAT_INVALID = Returns g.
Proof.
  unfold described_generic_format, fixup_swr_format. cbn [swr_format_is_invalid].
  destruct (Z.eqb_spec (util_format_get_blocksize fmt) 1) as [->|_];
    [intros [= <-]; reflexivity|].
  destruct (Z.eqb_spec (util_format_get_blocksize fmt) 2) as [->|_];
    [intros [= <-]; reflexivity|].
  destruct (Z.eqb_spec (util_format_get_blocksize fmt) 4) as [->|_];
    [intros [= <-]; reflexivity|].
  destruct (Z.eqb_spec (util_format_get_blocksize fmt) 8) as [->|_];
    [intros [= <-]; reflexivity|].
  destruct (Z.eqb_spec (util_format_get_blocksize fmt) 16) as [->|_];
    [intros [= <-]; reflexivity|].
  discriminate.
Qed.

Lemma fixup_no_generic {ext : Externals} (fmt : pipe_format) :
  described_generic_format (util_format_get_blocksize fmt)
                           (util_format_is_compressed fmt) = None ->
  fixup_swr_format fmt SWR_FORMAT_INVALID = Undefined.
Proof.
  unfold described_generic_format, fixup_swr_format. cbn [swr_format_is_invalid].
  destruct (Z.eqb_spec (util_format_get_blocksize fmt) 1); [discriminate|].
  destruct (Z.eqb_spec (util_format_get_blocksize fmt) 2); [discriminate|].
  destruct (Z.eqb_spec (util_format_get_blocksize fmt) 4); [discriminate|].
  destruct (Z.eqb_spec (util_format_get_blocksize fmt) 8); [discriminate|].
  destruct (Z.eqb_spec (util_format_get_blocksize fmt) 16); [discriminate|].
  intros _.
  destruct (util_format_get_blocksize fmt) as [|p|p]; try reflexivity.
  do 5 (destruct p as [p|p|]; try reflexivity; try congruence).
Qed.

Lemma has_swr_format_generic {ext : Externals} (pt : pipe_resource)
    (g : SWR_FORMAT) :
  described_generic_format
    (util_format_get_blocksize (layout_format pt))
    (util_format_is_compressed (layout_format pt)) = Some g ->
  has_swr_format pt = true.
Proof.
  unfold described_generic_format, has_swr_format. cbv zeta.
  destruct (negb (swr_format_is_invalid _));
    destruct (util_format_get_blocksize (layout_format pt) =? 1);
    destruct (util_format_get_blocksize (layout_format pt) =? 2);
    destruct (util_format_get_blocksize (layout_format pt) =? 4);
    destruct (util_format_get_blocksize (layout_format pt) =? 8);
    destruct (util_format_get_blocksize (layout_format pt) =? 16);
    intros Hg; try reflexivity; discriminate.
Qed.

(** C7, as the code has it: the format the fix-up looks at is the layout
    format, which is the logical format, or R8_UINT when the logical format
    has stencil and no depth.  When the table has no entry for it and its
    block is 1, 2, 4, 8 or 16 bytes wide, the surface gets the generic format
    of that size (R8, R16, R32, BC4 or R32G32, BC5 or R32G32B32A32, all UINT
    but the two block-compressed ones), and the resource's own format is left
    as it was.  A logical format with stencil and no depth always gets
    R8_UINT, and a block of any other width leaves the call without a
    result. *)
Theorem C7_generic_format_of_layout_format :
  forall (ext : Externals) (res : swr_resource) (allocate : bool)
         (h : allocator),
    let fmt := layout_format (base res) in
    let generic :=
      described_generic_format (util_format_get_blocksize fmt)
                               (util_format_is_compressed fmt) in
    (forall g,
        mesa_to_swr_format fmt = SWR_FORMAT_INVALID ->
        generic = Some g ->
        exists b res' h',
          swr_texture_layout res allocate h = Returns (b, res', h')
          /\ surf_format (swr res') = g
          /\ format (base res') = format (base res))
    /\ (util_format_has_stencil (format (base res)) = true ->
        util_format_has_depth (format (base res)) = false ->
        exists b res' h',
          swr_texture_layout res allocate h = Returns (b, res', h')
          /\ surf_format (swr res') = R8_UINT
          /\ format (base res') = format (base res))
    /\ (mesa_to_swr_format fmt = SWR_FORMAT_INVALID ->
        generic = None ->
        swr_texture_layout res allocate h = Undefined).
Proof.
  intros ext res allocate h fmt generic. subst fmt generic.
  split; [|split].
  - intros g Hinv Hgen.
    destruct (swr_texture_layout_returns res allocate h
                (has_swr_format_generic _ _ Hgen))
      as (b & res' & h' & Hrun & Hbase & _ & _ & _ & _ & _ & Hfix & _).
    exists b, res', h'. split; [exact Hrun|].
    rewrite Hinv, (fixup_generic _ _ Hgen) in Hfix.
    injection Hfix as <-. rewrite Hbase. split; reflexivity.
  - intros Hs Hd.
    assert (Hfmt : layout_format (base res) = PIPE_FORMAT_R8_UINT).
    { unfold layout_format. rewrite Hs, Hd. reflexivity. }
    assert (Hf : has_swr_format (base res) = true).
    { unfold has_swr_format. rewrite Hfmt. reflexivity. }
    destruct (swr_texture_layout_returns res allocate h Hf)
      as (b & res' & h' & Hrun & Hbase & _ & _ & _ & _ & _ & Hfix & _).
    exists b, res', h'. split; [exact Hrun|].
    rewrite Hfmt in Hfix. injection Hfix as <-. rewrite Hbase.
    split; reflexivity.
  - intros Hinv Hgen. unfold swr_texture_layout.
    rewrite Hinv, (fixup_no_generic _ Hgen). reflexivity.
Qed.

Lemma C7_witness :
  mesa_to_swr_format (layout_format (ext := offscreen)
                                    (base (fresh_resource compressed)))
  = SWR_FORMAT_INVALID
  /\ described_generic_format 8 true = Some BC4_UNORM
  /\ exists b res' h',
      swr_texture_layout (ext := offscreen) (fresh_resource compressed) true
                         empty_heap
      = Returns (b, res', h')
      /\ surf_format (swr res') = BC4_UNORM
      /\ format (base res') = PIPE_FORMAT_DXT1_RGBA.
Proof.
  split; [reflexivity|]. split; [reflexivity|].
  exact (proj1 (C7_generic_format_of_layout_format offscreen
                  (fresh_resource compressed) true empty_heap)
               BC4_UNORM eq_refl eq_refl).
Defined.

(** C7 as stated fails: the stencil-only format with 4-byte texels has no
    entry in the table, the generic format of 4 bytes is R32_UINT, and the
    layout gives the surface R8_UINT and a pitch of one byte per texel. *)
Lemma C7_counterexample :
  mesa_to_swr_format (format stencil_view) = SWR_FORMAT_INVALID
  /\ util_format_get_blocksize (Externals := offscreen) (format stencil_view)
     = 4
  /\ described_generic_format
       4 (util_format_is_compressed (Externals := offscreen)
                                    (format stencil_view))
     = Some R32_UINT
  /\ exists res' h',
      swr_texture_layout (ext := offscreen) (fresh_resource stencil_view)
                         true empty_heap
      = Returns (true, res', h')
      /\ surf_format (swr res') = R8_UINT
      /\ surf_format (swr res') <> R32_UINT
      /\ pitch (swr res') = width0 stencil_view.
Proof.
  split; [reflexivity|]. split; [reflexivity|]. split; [reflexivity|].
  do 2 eexists. split; [reflexivity|].
  repeat split. discriminate.
Qed.

(** ** Resource creation *)

Lemma fresh_address_positive (alignment : Z) (h : allocator) :
  0 < alignment -> 0 < fresh_address alignment h.
Proof.
  intros Ha. unfold fresh_address.
  assert (0 <= Z.max 0 (brk h) / alignment) by (apply Z.div_pos; lia).
  nia.
Qed.

Lemma CALLOC_STRUCT_succeeds (h : allocator) :
  hd true (script h) = true ->
  (fst (CALLOC_STRUCT h) =? NULL) = false.
Proof.
  intros Hs. unfold CALLOC_STRUCT, NULL.
  pose proof (fresh_address_positive 8 h ltac:(lia)) as Hp.
  destruct (script h) as [|[|] rest]; try discriminate; cbn [fst];
    apply Z.eqb_neq; lia.
Qed.

(** The extent and alignment the display-target layout reads back from a
    surface the texture layout has filled in. *)
Lemma swr_texture_layout_extent {ext : Externals}
    (res : swr_resource) (allocate : bool) (h : allocator)
    (b : bool) (res' : swr_resource) (h' : allocator) :
  swr_texture_layout res allocate h = Returns (b, res', h') ->
  base res' = base res
  /\ width (swr res') = width0 (base res)
  /\ height (swr res') = height0 (base res)
  /\ halign (swr res') = fst (bind_align (base res))
  /\ valign (swr res') = snd (bind_align (base res)).
Proof.
  unfold swr_texture_layout. intros Hrun.
  destruct (fixup_swr_format _ _) as [sfmt|]; [|discriminate].
  destruct (SWR_MAX_TEXTURE_SIZE <? total_size _).
  - injection Hrun as _ <- _. repeat split.
  - destruct allocate.
    + destruct (AlignedMalloc _ 64 h) as [p h1].
      destruct (util_format_has_depth _ && util_format_has_stencil _).
      * destruct (AlignedMalloc _ 64 h1) as [q h2].
        injection Hrun as _ <- _. repeat split.
      * injection Hrun as _ <- _. repeat split.
    + injection Hrun as _ <- _. repeat split.
Qed.

Lemma swr_displaytarget_layout_request {ext : Externals}
    (res res1 : swr_resource) (allocate : bool) (h h1 : allocator) (b : bool) :
  swr_texture_layout res allocate h = Returns (b, res1, h1) ->
  fst (swr_displaytarget_layout res1)
  = match display_request (base res) with None => false | Some _ => true end.
Proof.
  intros Hrun.
  destruct (swr_texture_layout_extent _ _ _ _ _ _ Hrun)
    as (Hb & Hw & Hh & Hha & Hva).
  unfold swr_displaytarget_layout, display_request.
  rewrite Hb, Hw, Hh, Hha, Hva.
  destruct (displaytarget_create _ _ _ _ 64) as [[dt stride]|]; reflexivity.
Qed.

(** C10: in swr_resource_create, once the struct is allocated, a texture
    bound as display target, scanout or shared is created exactly when the
    window system gives a display target: the result of the layout's size
    check is dropped.  A display target of 16 GiB, which
    swr_can_create_resource refuses, is created. *)
Theorem C10_display_path_drops_size_check :
  (forall (ext : Externals) (templat : pipe_resource) (h : allocator),
      hd true (script h) = true ->
      swr_resource_is_texture templat = true ->
      is_displayable templat = true ->
      has_swr_format templat = true ->
      exists r h',
        swr_resource_create templat h = Returns (r, h')
        /\ (r = None <-> display_request templat = None))
  /\ (forall offset h,
        let ext := externals offset any_display (fun _ => 4096) in
        hd true (script h) = true ->
        swr_can_create_resource huge_display h = Returns false
        /\ exists res h',
            swr_resource_create huge_display h = Returns (Some res, h')
            /\ SWR_MAX_TEXTURE_SIZE < total_size (swr res)
            /\ display_target res = Some 1).
Proof.
  split.
  - intros ext templat h Hs Htex Hdisp Hf.
    unfold swr_resource_create.
    pose proof (CALLOC_STRUCT_succeeds h Hs) as Hp.
    destruct (CALLOC_STRUCT h) as [p h0]. cbn [fst] in Hp. rewrite Hp.
    cbn [base fresh_resource]. rewrite Htex, Hdisp.
    destruct (swr_texture_layout_returns (fresh_resource templat) false h0 Hf)
      as (b & res1 & h1 & Hrun & _).
    rewrite Hrun.
    pose proof (swr_displaytarget_layout_request _ _ _ _ _ _ Hrun) as Hdt.
    cbn [base fresh_resource] in Hdt.
    destruct (swr_displaytarget_layout res1) as [[|] res2]; cbn [fst] in Hdt.
    + do 2 eexists. split; [reflexivity|].
      destruct (display_request templat); [|discriminate].
      split; discriminate.
    + do 2 eexists. split; [reflexivity|].
      destruct (display_request templat); [discriminate|].
      split; reflexivity.
  - intros offset h ext Hs. split.
    + reflexivity.
    + unfold swr_resource_create.
      pose proof (CALLOC_STRUCT_succeeds h Hs) as Hp.
      destruct (CALLOC_STRUCT h) as [p h0]. cbn [fst] in Hp. rewrite Hp.
      change (swr_resource_is_texture (base (fresh_resource huge_display)))
        with true.
      change (is_displayable (base (fresh_resource huge_display))) with true.
      cbv iota.
      destruct (scenario_factors offset any_display (fun _ => 4096)
                  huge_display 1 65536 262144 (fresh_resource huge_display)
                  false h0)
        as (b & res' & h' & Hrun & Hd & Hq & Hpitch & _); try reflexivity.
      subst ext. rewrite Hrun.
      destruct (swr_texture_layout_extent _ _ _ _ _ _ Hrun)
        as (Hb & Hw & Hh & Hha & Hva).
      unfold swr_displaytarget_layout.
      rewrite Hb, Hw, Hh, Hha, Hva.
      cbn [displaytarget_create externals any_display].
      do 2 eexists. split; [reflexivity|].
      unfold total_size.
      cbn [swr with_base_address depth qpitch pitch display_target].
      rewrite Hd, Hq, Hpitch. split; reflexivity.
Qed.

Lemma C10_witness :
  hd true (script empty_heap) = true
  /\ swr_resource_is_texture (Externals := onscreen) huge_display = true
  /\ is_displayable (ext := onscreen) huge_display = true
  /\ has_swr_format (ext := onscreen) huge_display = true
  /\ exists r h',
      swr_resource_create (ext := onscreen) huge_display empty_heap
      = Returns (r, h')
      /\ (r = None <-> display_request (ext := onscreen) huge_display = None).
Proof.
  repeat (split; [reflexivity|]).
  apply (proj1 C10_display_path_drops_size_check onscreen huge_display
               empty_heap); reflexivity.
Defined.

(** * More of the screen *)

(** ** Inverting a call of the layout *)

Lemma invalid_is_the_invalid_format (f : SWR_FORMAT) :
  swr_format_is_invalid f = true -> f = SWR_FORMAT_INVALID.
Proof. destruct f; simpl; intros Hf; try discriminate; reflexivity. Qed.

Lemma generic_format_is_valid (bytes : Z) (compressed : bool) (g : SWR_FORMAT) :
  described_generic_format bytes compressed = Some g ->
  swr_format_is_invalid g = false.
Proof.
  unfold described_generic_format.
  destruct (bytes =? 1); [intros [= <-]; reflexivity|].
  destruct (bytes =? 2); [intros [= <-]; reflexivity|].
  destruct (bytes =? 4); [intros [= <-]; reflexivity|].
  destruct (bytes =? 8); [intros [= <-]; destruct compressed; reflexivity|].
  destruct (bytes =? 16); [intros [= <-]; destruct compressed; reflexivity|].
  discriminate.
Qed.

(** What the fix-up gives when it returns: the table entry if there is one,
    the generic format of the block size otherwise. *)
Lemma fixup_inversion {ext : Externals} (fmt : pipe_format) (f : SWR_FORMAT) :
  fixup_swr_format fmt (mesa_to_swr_format fmt) = Returns f ->
  (swr_format_is_invalid (mesa_to_swr_format fmt) = false
   /\ f = mesa_to_swr_format fmt)
  \/ (mesa_to_swr_format fmt = SWR_FORMAT_INVALID
      /\ described_generic_format (util_format_get_blocksize fmt)
                                  (util_format_is_compressed fmt) = Some f).
Proof.
  intros Hfix.
  destruct (swr_format_is_invalid (mesa_to_swr_format fmt)) eqn:Hinv.
  - right. apply invalid_is_the_invalid_format in Hinv.
    split; [exact Hinv|]. rewrite Hinv in Hfix.
    destruct (described_generic_format (util_format_get_blocksize fmt)
                (util_format_is_compressed fmt)) as [g|] eqn:Hg.
    + rewrite (fixup_generic _ _ Hg) in Hfix. congruence.
    + rewrite (fixup_no_generic _ Hg) in Hfix. discriminate.
  - left. split; [reflexivity|].
    unfold fixup_swr_format in Hfix. rewrite Hinv in Hfix. congruence.
Qed.

Lemma returns_has_swr_format {ext : Externals}
    (res : swr_resource) (allocate : bool) (h : allocator)
    (b : bool) (res' : swr_resource) (h' : allocator) :
  swr_texture_layout res allocate h = Returns (b, res', h') ->
  has_swr_format (base res) = true.
Proof.
  intros Hrun. unfold swr_texture_layout in Hrun.
  destruct (fixup_swr_format _ _) as [f|] eqn:Hfix; [|discriminate].
  destruct (fixup_inversion _ _ Hfix) as [[Hinv _]|[_ Hg]].
  - unfold has_swr_format. cbv zeta. rewrite Hinv. reflexivity.
  - exact (has_swr_format_generic _ _ Hg).
Qed.

(** The fields of a surface the layout returned, read off the call. *)
Lemma swr_texture_layout_fields {ext : Externals}
    (res : swr_resource) (allocate : bool) (h : allocator)
    (b : bool) (res' : swr_resource) (h' : allocator) :
  swr_texture_layout res allocate h = Returns (b, res', h') ->
  base res' = base res
  /\ pitch (swr res') = layout_pitch (base res)
  /\ qpitch (swr res') = layout_qpitch (base res)
  /\ depth (swr res') = layout_depth (base res)
  /\ fixup_swr_format (layout_format (base res))
                      (mesa_to_swr_format (layout_format (base res)))
     = Returns (surf_format (swr res'))
  /\ b = negb (SWR_MAX_TEXTURE_SIZE <? total_size (swr res')).
Proof.
  intros Hrun.
  destruct (swr_texture_layout_returns res allocate h
              (returns_has_swr_format _ _ _ _ _ _ Hrun))
    as (b0 & res0 & h0 & Hrun0 & Hb & Hp & Hq & Hd & _ & _ & Hfix & Hret & _).
  rewrite Hrun in Hrun0. injection Hrun0 as <- <- <-.
  repeat split; assumption.
Qed.

(** ** The surface format after the layout *)

(** X1: a surface the layout returns never carries the invalid format, and a
    format with an entry in the table keeps that entry. *)
Theorem layout_gives_valid_swr_format :
  forall (ext : Externals) (res : swr_resource) (allocate : bool)
         (h : allocator) (b : bool) (res' : swr_resource) (h' : allocator),
    swr_texture_layout res allocate h = Returns (b, res', h') ->
    swr_format_is_invalid (surf_format (swr res')) = false
    /\ (swr_format_is_invalid
          (mesa_to_swr_format (layout_format (base res))) = false ->
        surf_format (swr res')
        = mesa_to_swr_format (layout_format (base res))).
Proof.
  intros ext res allocate h b res' h' Hrun.
  destruct (swr_texture_layout_fields _ _ _ _ _ _ Hrun)
    as (_ & _ & _ & _ & Hfix & _).
  destruct (fixup_inversion _ _ Hfix) as [[Hinv Heq]|[Hinv Hg]].
  - split; [rewrite Heq; exact Hinv|]. intros _. exact Heq.
  - split; [exact (generic_format_is_valid _ _ _ Hg)|].
    rewrite Hinv. discriminate.
Qed.

Lemma layout_gives_valid_swr_format_witness :
  exists res' h',
    swr_texture_layout (ext := offscreen) (fresh_resource compressed) true
                       empty_heap
    = Returns (true, res', h')
    /\ swr_format_is_invalid (surf_format (swr res')) = false.
Proof.
  do 2 eexists. split; [reflexivity|].
  exact (proj1 (layout_gives_valid_swr_format offscreen
                  (fresh_resource compressed) true empty_heap _ _ _ eq_refl)).
Defined.

(** X2: the table maps nothing to a block-compressed format, so a surface is
    BC4_UNORM or BC5_UNORM only as the stand-in for a block-compressed format
    without entry, of 8 and of 16 bytes per block. *)
Theorem block_compressed_surface_is_a_stand_in :
  forall (ext : Externals) (res : swr_resource) (allocate : bool)
         (h : allocator) (b : bool) (res' : swr_resource) (h' : allocator),
    swr_texture_layout res allocate h = Returns (b, res', h') ->
    surf_format (swr res') = BC4_UNORM \/ surf_format (swr res') = BC5_UNORM ->
    let fmt := layout_format (base res) in
    mesa_to_swr_format fmt = SWR_FORMAT_INVALID
    /\ util_format_is_compressed fmt = true
    /\ util_format_get_blocksize fmt
       = match surf_format (swr res') with BC4_UNORM => 8 | _ => 16 end.
Proof.
  intros ext res allocate h b res' h' Hrun Hbc. cbv zeta.
  destruct (swr_texture_layout_fields _ _ _ _ _ _ Hrun)
    as (_ & _ & _ & _ & Hfix & _).
  destruct (fixup_inversion _ _ Hfix) as [[Hinv Heq]|[Hinv Hg]].
  - exfalso. rewrite Heq in Hbc.
    destruct (layout_format (base res)); cbn in Hbc;
      destruct Hbc; discriminate.
  - split; [exact Hinv|].
    unfold described_generic_format in Hg.
    destruct (Z.eqb_spec (util_format_get_blocksize (layout_format (base res))) 1);
      [destruct Hbc; congruence|].
    destruct (Z.eqb_spec (util_format_get_blocksize (layout_format (base res))) 2);
      [destruct Hbc; congruence|].
    destruct (Z.eqb_spec (util_format_get_blocksize (layout_format (base res))) 4);
      [destruct Hbc; congruence|].
    destruct (Z.eqb_spec (util_format_get_blocksize (layout_format (base res))) 8)
      as [E8|_].
    + destruct (util_format_is_compressed (layout_format (base res)));
        injection Hg as Hg; rewrite <- Hg in *;
        destruct Hbc; try discriminate. split; [reflexivity|exact E8].
    + destruct (Z.eqb_spec (util_format_get_blocksize (layout_format (base res))) 16)
        as [E16|_]; [|discriminate].
      destruct (util_format_is_compressed (layout_format (base res)));
        injection Hg as Hg; rewrite <- Hg in *;
        destruct Hbc; try discriminate. split; [reflexivity|exact E16].
Qed.

Lemma block_compressed_surface_is_a_stand_in_witness :
  exists res' h',
    swr_texture_layout (ext := offscreen) (fresh_resource compressed) true
                       empty_heap
    = Returns (true, res', h')
    /\ surf_format (swr res') = BC4_UNORM
    /\ util_format_is_compressed (Externals := offscreen)
                                 (format compressed) = true
    /\ util_format_get_blocksize (Externals := offscreen) (format compressed)
       = 8.
Proof.
  do 2 eexists. split; [reflexivity|]. split; [reflexivity|].
  destruct (block_compressed_surface_is_a_stand_in offscreen
              (fresh_resource compressed) true empty_heap _ _ _ eq_refl
              (or_introl eq_refl))
    as (_ & Hc & Hs).
  split; [exact Hc|exact Hs].
Defined.

(** ** What the layout asks of the allocator *)

Lemma fresh_address_above_brk (alignment : Z) (h : allocator) :
  0 < alignment -> brk h < fresh_address alignment h.
Proof.
  intros Ha. unfold fresh_address.
  pose proof (Z.mul_succ_div_gt (Z.max 0 (brk h)) alignment Ha) as Hgt.
  unfold Z.succ in Hgt. lia.
Qed.

Lemma AlignedMalloc_result (size alignment : Z) (h h1 : allocator) (p : Z) :
  0 < alignment ->
  AlignedMalloc size alignment h = (p, h1) ->
  events h1 = EvAlignedMalloc size alignment p :: events h
  /\ ((p = NULL /\ brk h1 = brk h) \/ (brk h < p /\ p <= brk h1 /\ 0 < p)).
Proof.
  intros Ha Hm. split; [exact (AlignedMalloc_events _ _ _ _ _ Hm)|].
  pose proof (fresh_address_above_brk alignment h Ha) as Habove.
  pose proof (fresh_address_positive alignment h Ha) as Hpos.
  unfold AlignedMalloc in Hm.
  destruct (script h) as [|[|] rest]; injection Hm as <- <-; cbn [brk];
    try (right; lia). left. split; reflexivity.
Qed.

(** The three ways a call that returns leaves the heap: untouched (the size
    check failed, or no allocation was asked for), one block, or two blocks
    for a depth+stencil format. *)
Lemma swr_texture_layout_heap {ext : Externals}
    (res : swr_resource) (allocate : bool) (h : allocator)
    (b : bool) (res' : swr_resource) (h' : allocator) :
  swr_texture_layout res allocate h = Returns (b, res', h') ->
  display_target res' = display_target res
  /\ ((b && allocate = false
       /\ h' = h /\ secondary res' = secondary res
       /\ pBaseAddress (swr res') = pBaseAddress (swr res))
      \/ (b && allocate = true /\ is_depth_stencil (base res) = false
          /\ AlignedMalloc (total_size (swr res')) 64 h
             = (pBaseAddress (swr res'), h')
          /\ secondary res' = secondary res)
      \/ (b && allocate = true /\ is_depth_stencil (base res) = true
          /\ exists h1,
              AlignedMalloc (total_size (swr res')) 64 h
              = (pBaseAddress (swr res'), h1)
              /\ AlignedMalloc
                   (mul32 (mul32 (depth (secondary res'))
                                 (qpitch (secondary res')))
                          (pitch (secondary res'))) 64 h1
                 = (pBaseAddress (secondary res'), h'))).
Proof.
  unfold swr_texture_layout, is_depth_stencil. intros Hrun.
  destruct (fixup_swr_format _ _) as [sfmt|]; [|discriminate].
  destruct (SWR_MAX_TEXTURE_SIZE <? total_size _).
  - injection Hrun as <- <- <-. split; [reflexivity|]. left.
    repeat split.
  - destruct allocate.
    + destruct (AlignedMalloc _ 64 h) as [p h1] eqn:Hm1.
      destruct (util_format_has_depth _ && util_format_has_stencil _).
      * destruct (AlignedMalloc _ 64 h1) as [q h2] eqn:Hm2.
        injection Hrun as <- <- <-. split; [reflexivity|].
        right. right. split; [reflexivity|]. split; [reflexivity|].
        exists h1. split; [exact Hm1|exact Hm2].
      * injection Hrun as <- <- <-. split; [reflexivity|].
        right. left. repeat split. exact Hm1.
    + injection Hrun as <- <- <-. split; [reflexivity|]. left.
      repeat split.
Qed.

(** X3: a call of the layout asks the allocator for nothing when it refuses
    the size or runs without allocation; otherwise for the total size, and
    after it, for a depth+stencil format only, for the stencil surface's
    32-bit product; every request is aligned to 64 bytes. *)
Theorem layout_allocation_requests :
  forall (ext : Externals) (res : swr_resource) (allocate : bool)
         (h : allocator) (b : bool) (res' : swr_resource) (h' : allocator),
    swr_texture_layout res allocate h = Returns (b, res', h') ->
    requests (events h')
    = (if b && allocate then
         (if is_depth_stencil (base res) then
            [(mul32 (mul32 (depth (secondary res')) (qpitch (secondary res')))
                    (pitch (secondary res')), 64)]
          else [])
         ++ [(total_size (swr res'), 64)]
       else [])
      ++ requests (events h).
Proof.
  intros ext res allocate h b res' h' Hrun.
  destruct (swr_texture_layout_heap _ _ _ _ _ _ Hrun)
    as (_ & [(Hba & -> & _)|[(Hba & Hzs & Hm & _)|(Hba & Hzs & h1 & Hm1 & Hm2)]]);
    rewrite Hba; try rewrite Hzs.
  - reflexivity.
  - apply AlignedMalloc_events in Hm. rewrite Hm. reflexivity.
  - apply AlignedMalloc_events in Hm1. apply AlignedMalloc_events in Hm2.
    rewrite Hm2, Hm1. reflexivity.
Qed.

Lemma layout_allocation_requests_witness :
  exists res' h',
    swr_texture_layout (ext := offscreen) (fresh_resource depth_stencil) true
                       empty_heap
    = Returns (true, res', h')
    /\ requests (events h') = [(6144, 64); (24576, 64)].
Proof.
  do 2 eexists. split; [reflexivity|].
  exact (layout_allocation_requests offscreen (fresh_resource depth_stencil)
           true empty_heap _ _ _ eq_refl).
Defined.

Lemma swr_texture_layout_stencil {ext : Externals}
    (res : swr_resource) (h : allocator)
    (res' : swr_resource) (h' : allocator) :
  swr_texture_layout res true h = Returns (true, res', h') ->
  is_depth_stencil (base res) = true ->
  secondary res'
  = with_base_address (pBaseAddress (secondary res'))
                      (stencil_surface (format (base res)) (swr res')).
Proof.
  unfold swr_texture_layout, is_depth_stencil. intros Hrun Hzs.
  assert (Hfmt : layout_format (base res) = format (base res)).
  { unfold layout_format. apply andb_true_iff in Hzs as [-> ->]. reflexivity. }
  rewrite Hzs, Hfmt in Hrun.
  destruct (fixup_swr_format _ _) as [sfmt|]; [|discriminate].
  destruct (SWR_MAX_TEXTURE_SIZE <? total_size _); [discriminate|].
  destruct (AlignedMalloc _ 64 h) as [p h1].
  destruct (AlignedMalloc _ 64 h1) as [q h2].
  injection Hrun as <- <-. reflexivity.
Qed.

(** X4: the size of the stencil block is computed in 32 bits, without the
    cast of the primary size.  For an accepted depth+stencil surface whose
    format has at least 2 bytes per texel and whose primary product fits 64
    bits, that 32-bit product does not wrap: it is the exact size of the
    stencil surface, at most half the primary size. *)
Theorem stencil_request_does_not_wrap :
  forall (ext : Externals) (res : swr_resource) (h : allocator)
         (res' : swr_resource) (h' : allocator),
    swr_texture_layout res true h = Returns (true, res', h') ->
    is_depth_stencil (base res) = true ->
    2 <= util_format_get_blocksize (format (base res)) ->
    0 <= depth (swr res') -> 0 <= qpitch (swr res') -> 0 <= pitch (swr res') ->
    depth (swr res') * qpitch (swr res') * pitch (swr res') < 2 ^ 64 ->
    let sec := secondary res' in
    mul32 (mul32 (depth sec) (qpitch sec)) (pitch sec)
    = depth sec * qpitch sec * pitch sec
    /\ 2 * (depth sec * qpitch sec * pitch sec) <= total_size (swr res').
Proof.
  intros ext res h res' h' Hrun Hzs Hbs Hd Hq Hp Hfit. cbv zeta.
  rewrite (swr_texture_layout_stencil _ _ _ _ Hrun Hzs).
  cbn [depth qpitch pitch with_base_address stencil_surface].
  destruct (swr_texture_layout_fields _ _ _ _ _ _ Hrun)
    as (_ & _ & _ & _ & _ & Hret).
  assert (Hdq : 0 <= depth (swr res') * qpitch (swr res')) by nia.
  assert (Hexact : total_size (swr res')
                   = depth (swr res') * qpitch (swr res') * pitch (swr res')).
  { apply total_size_exact. split; [nia|exact Hfit]. }
  assert (Hok : total_size (swr res') <= SWR_MAX_TEXTURE_SIZE).
  { destruct (Z.ltb_spec SWR_MAX_TEXTURE_SIZE (total_size (swr res')));
      [discriminate|assumption]. }
  set (bs := util_format_get_blocksize (format (base res))) in *.
  set (d := depth (swr res')) in *. set (q := qpitch (swr res')) in *.
  set (p := pitch (swr res')) in *. unfold div32.
  assert (Hhalf : 0 <= p / bs /\ 2 * (p / bs) <= p).
  { pose proof (Z.mul_div_le p bs ltac:(lia)) as Hle.
    assert (0 <= p / bs) by (apply Z.div_pos; lia). split; [lia|nia]. }
  assert (Hsmall : 2 * (d * q * (p / bs)) <= d * q * p) by nia.
  split; [|lia].
  unfold mul32, wrap32. rewrite Z.mul_mod_idemp_l by lia.
  apply Z.mod_small. unfold SWR_MAX_TEXTURE_SIZE in Hok. split; [nia|lia].
Qed.

Lemma stencil_request_does_not_wrap_witness :
  exists res' h',
    swr_texture_layout (ext := offscreen) (fresh_resource depth_stencil) true
                       empty_heap
    = Returns (true, res', h')
    /\ mul32 (mul32 (depth (secondary res')) (qpitch (secondary res')))
             (pitch (secondary res'))
       = 1 * 96 * 64.
Proof.
  do 2 eexists. split; [reflexivity|].
  refine (proj1 (stencil_request_does_not_wrap offscreen
                   (fresh_resource depth_stencil) empty_heap _ _ eq_refl
                   eq_refl _ _ _ _ _));
    vm_compute; congruence.
Defined.

(** ** Creation and destruction *)

Lemma CALLOC_STRUCT_result (h h0 : allocator) (p : Z) :
  CALLOC_STRUCT h = (p, h0) ->
  events h0 = EvCALLOC p :: events h
  /\ ((p = NULL /\ brk h0 = brk h) \/ (brk h < p /\ p <= brk h0 /\ 0 < p)).
Proof.
  intros Hc.
  pose proof (fresh_address_above_brk 8 h ltac:(lia)) as Habove.
  pose proof (fresh_address_positive 8 h ltac:(lia)) as Hpos.
  unfold CALLOC_STRUCT in Hc.
  set (a := fresh_address 8 h) in *. clearbody a.
  destruct (script h) as [|[|] rest]; injection Hc as Hp Hh; subst p h0;
    (split; [reflexivity|]); cbn [brk].
  - right. lia.
  - right. lia.
  - left. split; reflexivity.
Qed.

(** The paths of [swr_resource_create] that return: the struct is not
    allocated; the display path, where the layout's verdict is dropped; and
    the allocating path of textures and buffers. *)
Lemma swr_resource_create_paths {ext : Externals}
    (templat : pipe_resource) (h : allocator)
    (r : option swr_resource) (h' : allocator) :
  swr_resource_create templat h = Returns (r, h') ->
  let p := fst (CALLOC_STRUCT h) in
  let h0 := snd (CALLOC_STRUCT h) in
  (p = NULL /\ r = None /\ h' = h0)
  \/ (p <> NULL
      /\ swr_resource_is_texture templat = true
      /\ is_displayable templat = true
      /\ exists b res1,
          swr_texture_layout (fresh_resource templat) false h0
          = Returns (b, res1, h0)
          /\ ((fst (swr_displaytarget_layout res1) = false
               /\ r = None /\ h' = FREE p h0)
              \/ (fst (swr_displaytarget_layout res1) = true
                  /\ r = Some (snd (swr_displaytarget_layout res1))
                  /\ h' = h0)))
  \/ (p <> NULL
      /\ (swr_resource_is_texture templat = true
          -> is_displayable templat = false)
      /\ exists b res1 h1,
          swr_texture_layout (fresh_resource templat) true h0
          = Returns (b, res1, h1)
          /\ ((b = false /\ r = None /\ h' = FREE p h1)
              \/ (b = true /\ r = Some res1 /\ h' = h1))).
Proof.
  unfold swr_resource_create. intros Hc. cbv zeta.
  destruct (CALLOC_STRUCT h) as [p h0]. cbn [fst snd].
  destruct (Z.eqb_spec p NULL) as [Hp|Hp].
  - left. injection Hc as <- <-. repeat split. exact Hp.
  - right. cbn [base fresh_resource] in Hc.
    destruct (swr_resource_is_texture templat) eqn:Htex.
    + destruct (is_displayable templat) eqn:Hdisp.
      * left. split; [exact Hp|]. split; [reflexivity|]. split; [reflexivity|].
        destruct (swr_texture_layout (fresh_resource templat) false h0)
          as [[[b res1] h1]|] eqn:Hrun; [|discriminate].
        assert (Hh : h1 = h0).
        { destruct (swr_texture_layout_heap _ _ _ _ _ _ Hrun)
            as (_ & [(_ & Hh & _)|[(Hba & _)|(Hba & _)]]);
            [exact Hh| |]; rewrite andb_false_r in Hba; discriminate. }
        subst h1. exists b, res1. split; [reflexivity|].
        destruct (swr_displaytarget_layout res1) as [[|] res2];
          injection Hc as <- <-; [right|left]; repeat split.
      * right. split; [exact Hp|]. split; [reflexivity|].
        destruct (swr_texture_layout (fresh_resource templat) true h0)
          as [[[[|] res1] h1]|] eqn:Hrun; [| |discriminate];
          injection Hc as <- <-; do 3 eexists;
          (split; [reflexivity|]); [right|left]; repeat split.
    + right. split; [exact Hp|]. split; [discriminate|].
      destruct (buffer_asserts templat); [|discriminate].
      destruct (swr_texture_layout (fresh_resource templat) true h0)
        as [[[[|] res1] h1]|] eqn:Hrun; [| |discriminate];
        injection Hc as <- <-; do 3 eexists;
        (split; [reflexivity|]); [right|left]; repeat split.
Qed.

Lemma remove_first_head (p : Z) (l : list Z) : remove_first p (p :: l) = l.
Proof. simpl. rewrite Z.eqb_refl. reflexivity. Qed.

Lemma outstanding_cons (e : alloc_event) (evs : list alloc_event) :
  outstanding (e :: evs) = track e (outstanding evs).
Proof. reflexivity. Qed.

Lemma track_struct_round_trip (p : Z) (live : list Z) :
  track (EvFREE p) (track (EvCALLOC p) live) = live.
Proof.
  unfold track. destruct (Z.eqb_spec p NULL); [reflexivity|].
  apply remove_first_head.
Qed.

Lemma track_failed_free (live : list Z) :
  track (EvAlignedFree NULL) live = live.
Proof. reflexivity. Qed.

Lemma track_block_round_trip (size alignment p : Z) (live : list Z) :
  track (EvAlignedFree p) (track (EvAlignedMalloc size alignment p) live)
  = live.
Proof.
  unfold track. destruct (Z.eqb_spec p NULL); [reflexivity|].
  apply remove_first_head.
Qed.

(** X5: a creation that returns NULL leaves allocated exactly what was
    allocated before it, and has asked for no backing block. *)
Theorem failed_creation_leaks_nothing :
  forall (ext : Externals) (templat : pipe_resource) (h h' : allocator),
    swr_resource_create templat h = Returns (None, h') ->
    outstanding (events h') = outstanding (events h)
    /\ requests (events h') = requests (events h).
Proof.
  intros ext templat h h' Hc.
  pose proof (swr_resource_create_paths _ _ _ _ Hc) as Hpaths.
  cbv zeta in Hpaths.
  destruct (CALLOC_STRUCT h) as [p h0] eqn:Hcalloc. cbn [fst snd] in Hpaths.
  destruct (CALLOC_STRUCT_result _ _ _ Hcalloc) as (Hev0 & _).
  destruct Hpaths
    as [(Hp & _ & ->)
       |[(Hp & _ & _ & b & res1 & _ & [(_ & _ & ->)|(_ & Hr & _)])
        |(Hp & _ & b & res1 & h1 & Hrun & [(-> & _ & ->)|(_ & Hr & _)])]];
    try discriminate.
  - rewrite Hev0, Hp. split; reflexivity.
  - cbn [FREE events]. rewrite Hev0, !outstanding_cons, track_struct_round_trip.
    split; reflexivity.
  - destruct (swr_texture_layout_heap _ _ _ _ _ _ Hrun)
      as (_ & [(_ & -> & _)|[(Hba & _)|(Hba & _)]]); try discriminate.
    cbn [FREE events]. rewrite Hev0, !outstanding_cons, track_struct_round_trip.
    split; reflexivity.
Qed.

Lemma failed_creation_leaks_nothing_witness :
  exists h',
    swr_resource_create (ext := offscreen) one_byte_over empty_heap
    = Returns (None, h')
    /\ outstanding (events h') = []
    /\ requests (events h') = [].
Proof.
  eexists. split; [reflexivity|].
  exact (failed_creation_leaks_nothing offscreen one_byte_over empty_heap _
           eq_refl).
Defined.

Lemma swr_displaytarget_layout_success {ext : Externals}
    (res res1 : swr_resource) (allocate : bool) (h h1 : allocator) (b : bool) :
  swr_texture_layout res allocate h = Returns (b, res1, h1) ->
  fst (swr_displaytarget_layout res1) = true ->
  exists dt stride,
    display_request (base res) = Some (dt, stride)
    /\ display_target (snd (swr_displaytarget_layout res1)) = Some dt
    /\ pBaseAddress (swr (snd (swr_displaytarget_layout res1)))
       = displaytarget_map dt
    /\ secondary (snd (swr_displaytarget_layout res1)) = secondary res1.
Proof.
  intros Hrun.
  destruct (swr_texture_layout_extent _ _ _ _ _ _ Hrun)
    as (Hb & Hw & Hh & Hha & Hva).
  unfold swr_displaytarget_layout, display_request.
  rewrite Hb, Hw, Hh, Hha, Hva.
  destruct (displaytarget_create _ _ _ _ 64) as [[dt stride]|];
    [|discriminate].
  intros _. exists dt, stride. repeat split.
Qed.

Lemma track_two_blocks (s1 s2 a1 a2 p q : Z) (live : list Z) :
  q = NULL \/ p = NULL \/ p <> q ->
  track (EvAlignedFree q)
    (track (EvAlignedFree p)
       (track (EvAlignedMalloc s2 a2 q)
          (track (EvAlignedMalloc s1 a1 p) live)))
  = live.
Proof.
  intros Hpq. unfold track.
  destruct (Z.eqb_spec p NULL) as [Hp|Hp];
    destruct (Z.eqb_spec q NULL) as [Hq|Hq]; try reflexivity.
  - apply remove_first_head.
  - apply remove_first_head.
  - cbn [remove_first].
    destruct (Z.eqb_spec q p); [lia|]. rewrite Z.eqb_refl.
    apply remove_first_head.
Qed.

(** X6: destroying a resource that [swr_resource_create] returned frees the
    struct and every block the creation allocated, whether it is a display
    target, a plain texture or buffer, or a depth+stencil surface with its
    stencil block: what is allocated afterwards is what was allocated before
    the creation. *)
Theorem creation_then_destruction_frees_everything :
  forall (ext : Externals) (templat : pipe_resource) (h h1 : allocator)
         (res : swr_resource) (pipe fence_pending : bool) (status : Z),
    swr_resource_create templat h = Returns (Some res, h1) ->
    outstanding
      (events (snd (swr_resource_destroy pipe fence_pending
                      (fst (CALLOC_STRUCT h)) status res h1)))
    = outstanding (events h).
Proof.
  intros ext templat h h1 res pipe fence_pending status Hc.
  pose proof (swr_resource_create_paths _ _ _ _ Hc) as Hpaths.
  cbv zeta in Hpaths.
  destruct (CALLOC_STRUCT h) as [p h0] eqn:Hcalloc. cbn [fst snd] in *.
  destruct (CALLOC_STRUCT_result _ _ _ Hcalloc) as (Hev0 & _).
  destruct Hpaths
    as [(_ & Hr & _)
       |[(Hp & _ & _ & b & res1 & Hrun & [(_ & Hr & _)|(Hdt & Hr & ->)])
        |(Hp & _ & b & res1 & h2 & Hrun & [(_ & Hr & _)|(-> & Hr & ->)])]];
    try discriminate; injection Hr as ->.
  - destruct (swr_displaytarget_layout_success _ _ _ _ _ _ Hrun Hdt)
      as (dt & stride & _ & Htarget & _ & Hsec).
    destruct (swr_texture_layout_heap _ _ _ _ _ _ Hrun)
      as (_ & [(_ & _ & Hsec1 & _)|[(Hba & _)|(Hba & _)]]);
      try (rewrite andb_false_r in Hba; discriminate).
    unfold swr_resource_destroy. rewrite Htarget, Hsec, Hsec1.
    cbn [snd FREE AlignedFree events secondary fresh_resource pBaseAddress
         zero_surface].
    rewrite Hev0, !outstanding_cons, track_failed_free.
    apply track_struct_round_trip.
  - destruct (swr_texture_layout_heap _ _ _ _ _ _ Hrun)
      as (Htarget & [(Hba & _)|[(_ & _ & Hm & Hsec)|(_ & _ & h3 & Hm1 & Hm2)]]);
      try discriminate; unfold swr_resource_destroy; rewrite Htarget;
      cbn [snd FREE AlignedFree events display_target fresh_resource].
    + rewrite Hsec. cbn [secondary fresh_resource pBaseAddress zero_surface].
      apply AlignedMalloc_events in Hm.
      rewrite Hm, Hev0, !outstanding_cons, track_failed_free,
        track_block_round_trip.
      apply track_struct_round_trip.
    + destruct (AlignedMalloc_result _ 64 _ _ _ ltac:(lia) Hm1)
        as (Hev1 & Hp1).
      destruct (AlignedMalloc_result _ 64 _ _ _ ltac:(lia) Hm2)
        as (Hev2 & Hp2).
      rewrite Hev2, Hev1, Hev0, !outstanding_cons, track_two_blocks
        by (unfold NULL in *; lia).
      apply track_struct_round_trip.
Qed.

Lemma creation_then_destruction_frees_everything_witness :
  exists res h1,
    swr_resource_create (ext := offscreen) depth_stencil empty_heap
    = Returns (Some res, h1)
    /\ outstanding (events h1) = [24704; 64; 8]
    /\ outstanding
         (events (snd (swr_resource_destroy true false 8 1 res h1)))
       = [].
Proof.
  do 2 eexists. split; [reflexivity|]. split; [reflexivity|].
  exact (creation_then_destruction_frees_everything offscreen depth_stencil
           empty_heap _ _ true false 1 eq_refl).
Defined.

(** X7: a texture created as display target, scanout or shared surface takes
    its memory from the window system: the creation asks the allocator for no
    backing block, the base address is the mapped display target, and the
    destruction hands the target back with displaytarget_destroy and passes
    AlignedFree nothing but NULL. *)
Theorem display_target_memory_belongs_to_winsys :
  forall (ext : Externals) (templat : pipe_resource) (h h1 : allocator)
         (res : swr_resource) (pipe fence_pending : bool)
         (spr_ptr status : Z),
    swr_resource_create templat h = Returns (Some res, h1) ->
    swr_resource_is_texture templat = true ->
    is_displayable templat = true ->
    exists dt stride,
      display_request templat = Some (dt, stride)
      /\ display_target res = Some dt
      /\ pBaseAddress (swr res) = displaytarget_map dt
      /\ requests (events h1) = requests (events h)
      /\ let calls :=
           fst (swr_resource_destroy pipe fence_pending spr_ptr status res h1)
         in
         In (CallDisplaytargetDestroy dt) calls
         /\ forall q, In (CallAlignedFree q) calls -> q = NULL.
Proof.
  intros ext templat h h1 res pipe fence_pending spr_ptr status Hc Htex Hdisp.
  pose proof (swr_resource_create_paths _ _ _ _ Hc) as Hpaths.
  cbv zeta in Hpaths.
  destruct (CALLOC_STRUCT h) as [p h0] eqn:Hcalloc. cbn [fst snd] in *.
  destruct (CALLOC_STRUCT_result _ _ _ Hcalloc) as (Hev0 & _).
  destruct Hpaths
    as [(_ & Hr & _)
       |[(Hp & _ & _ & b & res1 & Hrun & [(_ & Hr & _)|(Hdt & Hr & ->)])
        |(Hp & Hnot & _)]];
    try discriminate; [|rewrite (Hnot Htex) in Hdisp; discriminate].
  injection Hr as ->.
  destruct (swr_displaytarget_layout_success _ _ _ _ _ _ Hrun Hdt)
    as (dt & stride & Hreq & Htarget & Hmap & Hsec).
  destruct (swr_texture_layout_heap _ _ _ _ _ _ Hrun)
    as (_ & [(_ & _ & Hsec1 & _)|[(Hba & _)|(Hba & _)]]);
    try (rewrite andb_false_r in Hba; discriminate).
  exists dt, stride. cbn [base fresh_resource] in Hreq.
  split; [exact Hreq|]. split; [exact Htarget|]. split; [exact Hmap|].
  split; [rewrite Hev0; reflexivity|].
  cbv zeta. unfold swr_resource_destroy. rewrite Htarget, Hsec, Hsec1.
  cbn [fst secondary fresh_resource pBaseAddress zero_surface].
  split.
  - apply in_or_app. right. left. reflexivity.
  - intros q Hq. apply in_app_or in Hq as [Hq|Hq].
    + destruct (pipe && negb (status =? 0)); [|contradiction].
      destruct fence_pending; cbn in Hq;
        repeat (destruct Hq as [Hq|Hq]; try discriminate); contradiction.
    + cbn in Hq.
      repeat (destruct Hq as [Hq|Hq]; try discriminate); try contradiction.
      injection Hq as <-. reflexivity.
Qed.

Lemma display_target_memory_belongs_to_winsys_witness :
  exists res h1,
    swr_resource_create (ext := onscreen) huge_display empty_heap
    = Returns (Some res, h1)
    /\ display_target res = Some 1
    /\ pBaseAddress (swr res) = 4096
    /\ requests (events h1) = [].
Proof.
  do 2 eexists. split; [reflexivity|].
  destruct (display_target_memory_belongs_to_winsys onscreen huge_display
              empty_heap _ _ true false 8 1 eq_refl eq_refl eq_refl)
    as (dt & stride & Hreq & Htarget & Hmap & Hrequests & _).
  injection Hreq as <- _.
  split; [exact Htarget|]. split; [exact Hmap|exact Hrequests].
Defined.

(** The verdict of a call is fixed by the template alone. *)
Lemma layout_verdict {ext : Externals}
    (res : swr_resource) (allocate : bool) (h : allocator)
    (b : bool) (res' : swr_resource) (h' : allocator) :
  swr_texture_layout res allocate h = Returns (b, res', h') ->
  b = negb (SWR_MAX_TEXTURE_SIZE
            <? mul64 (mul64 (layout_depth (base res))
                            (layout_qpitch (base res)))
                     (layout_pitch (base res))).
Proof.
  intros Hrun.
  destruct (swr_texture_layout_fields _ _ _ _ _ _ Hrun)
    as (_ & Hp & Hq & Hd & _ & Hret).
  unfold total_size in Hret. rewrite Hp, Hq, Hd in Hret. exact Hret.
Qed.

(** X8: the dry run predicts the creation.  For a template that is not
    displayable (and, for a buffer, passes the buffer assertions), once the
    struct is allocated, swr_resource_create returns a resource exactly when
    swr_can_create_resource answers true, whatever the heaps of the two calls
    are. *)
Theorem can_create_predicts_creation :
  forall (ext : Externals) (templat : pipe_resource) (h h0 : allocator)
         (ok : bool),
    swr_can_create_resource templat h0 = Returns ok ->
    hd true (script h) = true ->
    (swr_resource_is_texture templat = true ->
     is_displayable templat = false) ->
    (swr_resource_is_texture templat = false ->
     buffer_asserts templat = true) ->
    exists r h',
      swr_resource_create templat h = Returns (r, h')
      /\ (ok = true <-> r <> None).
Proof.
  intros ext templat h h0 ok Hcan Hs Htex Hbuf.
  unfold swr_can_create_resource in Hcan.
  destruct (swr_texture_layout (fresh_resource templat) false h0)
    as [[[b0 res0] h0']|] eqn:Hdry; [|discriminate].
  injection Hcan as ->.
  pose proof (layout_verdict _ _ _ _ _ _ Hdry) as Hok.
  pose proof (returns_has_swr_format _ _ _ _ _ _ Hdry) as Hf.
  unfold swr_resource_create.
  pose proof (CALLOC_STRUCT_succeeds h Hs) as Hp.
  destruct (CALLOC_STRUCT h) as [p h1]. cbn [fst] in Hp. rewrite Hp.
  destruct (swr_texture_layout_returns (fresh_resource templat) true h1 Hf)
    as (b & res1 & h2 & Hrun & _).
  pose proof (layout_verdict _ _ _ _ _ _ Hrun) as Hb.
  rewrite <- Hok in Hb. subst b.
  cbn [base fresh_resource].
  destruct (swr_resource_is_texture templat).
  - rewrite (Htex eq_refl), Hrun.
    destruct ok; do 2 eexists; (split; [reflexivity|]);
      split; congruence.
  - rewrite (Hbuf eq_refl), Hrun.
    destruct ok; do 2 eexists; (split; [reflexivity|]);
      split; congruence.
Qed.

Lemma can_create_predicts_creation_witness :
  swr_can_create_resource (ext := offscreen) one_byte_over empty_heap
  = Returns false
  /\ exists r h',
      swr_resource_create (ext := offscreen) one_byte_over second_fails
      = Returns (r, h')
      /\ (false = true <-> r <> None).
Proof.
  split; [reflexivity|].
  apply (can_create_predicts_creation offscreen one_byte_over second_fails
           empty_heap false eq_refl).
  - reflexivity.
  - reflexivity.
  - discriminate.
Defined.

(** ** Format support *)

Lemma supported_description {ext : Externals} {fq : FormatQueries}
    (format : pipe_format) (target : pipe_texture_target)
    (sample_count bind : Z) :
  swr_is_format_supported format target sample_count bind = true ->
  exists d,
    util_format_description format = Some d
    /\ sample_count <= 1
    /\ (bind_has bind PIPE_BIND_RENDER_TARGET = true ->
        is_colorspace_zs (desc_colorspace d) = false
        /\ swr_format_is_invalid (mesa_to_swr_format format) = false
        /\ desc_block_width d = 1 /\ desc_block_height d = 1)
    /\ (bind_has bind PIPE_BIND_DEPTH_STENCIL = true ->
        is_colorspace_zs (desc_colorspace d) = true
        /\ swr_format_is_invalid (mesa_to_swr_format format) = false).
Proof.
  unfold swr_is_format_supported.
  destruct (util_format_description format) as [d|]; [|discriminate].
  destruct (Z.ltb_spec 1 sample_count); [discriminate|].
  destruct (bind_has bind (Z.lor (Z.lor _ _) _) && _); [discriminate|].
  destruct (bind_has bind PIPE_BIND_RENDER_TARGET) eqn:Hrt;
    destruct (bind_has bind PIPE_BIND_DEPTH_STENCIL) eqn:Hds;
    cbn [andb];
    destruct (is_colorspace_zs (desc_colorspace d)) eqn:Hzs;
    destruct (swr_format_is_invalid (mesa_to_swr_format format)) eqn:Hinv;
    cbn [orb negb]; try discriminate;
    destruct (Z.eqb_spec (desc_block_width d) 1);
    destruct (Z.eqb_spec (desc_block_height d) 1);
    cbn [orb negb]; try discriminate;
    intros _; exists d; repeat split; try assumption; try discriminate;
    try lia.
Qed.

(** X9: a format that swr_is_format_supported accepts is single-sampled; as
    a render target it has an entry in the table, 1x1 blocks and a colorspace
    other than ZS; as a depth/stencil surface it has an entry and the ZS
    colorspace; so no format is accepted for a bind that asks for both. *)
Theorem supported_render_and_depth_formats :
  forall (ext : Externals) (fq : FormatQueries) (format : pipe_format)
         (target : pipe_texture_target) (sample_count bind : Z),
    swr_is_format_supported format target sample_count bind = true ->
    sample_count <= 1
    /\ (bind_has bind PIPE_BIND_RENDER_TARGET = true ->
        swr_format_is_invalid (mesa_to_swr_format format) = false
        /\ exists d,
            util_format_description format = Some d
            /\ desc_block_width d = 1 /\ desc_block_height d = 1
            /\ desc_colorspace d <> UTIL_FORMAT_COLORSPACE_ZS)
    /\ (bind_has bind PIPE_BIND_DEPTH_STENCIL = true ->
        swr_format_is_invalid (mesa_to_swr_format format) = false
        /\ exists d,
            util_format_description format = Some d
            /\ desc_colorspace d = UTIL_FORMAT_COLORSPACE_ZS)
    /\ (bind_has bind PIPE_BIND_RENDER_TARGET = true ->
        bind_has bind PIPE_BIND_DEPTH_STENCIL = false).
Proof.
  intros ext fq format target sample_count bind Hs.
  destruct (supported_description _ _ _ _ Hs) as (d & Hd & Hsc & Hrt & Hds).
  split; [exact Hsc|]. split; [|split].
  - intros Hb. destruct (Hrt Hb) as (Hzs & Hinv & Hw & Hh).
    split; [exact Hinv|]. exists d. repeat split; try assumption.
    intros Hc. rewrite Hc in Hzs. discriminate.
  - intros Hb. destruct (Hds Hb) as (Hzs & Hinv).
    split; [exact Hinv|]. exists d. split; [exact Hd|].
    destruct (desc_colorspace d); try discriminate. reflexivity.
  - intros Hb. destruct (Hrt Hb) as (Hzs & _).
    destruct (bind_has bind PIPE_BIND_DEPTH_STENCIL) eqn:Hb2; [|reflexivity].
    destruct (Hds eq_refl) as (Hzs2 & _). congruence.
Qed.

Lemma supported_render_and_depth_formats_witness :
  swr_is_format_supported (ext := offscreen)
    (fq := ReferenceQueries.format_queries 0)
    PIPE_FORMAT_B8G8R8A8_UNORM PIPE_TEXTURE_2D 1 2 = true
  /\ swr_format_is_invalid (mesa_to_swr_format PIPE_FORMAT_B8G8R8A8_UNORM)
     = false.
Proof.
  split; [reflexivity|].
  exact (proj1 (proj1 (proj2 (supported_render_and_depth_formats offscreen
                  (ReferenceQueries.format_queries 0)
                  PIPE_FORMAT_B8G8R8A8_UNORM PIPE_TEXTURE_2D 1 2 eq_refl))
               eq_refl)).
Defined.

(** X10: a resource whose format swr_is_format_supported accepts for a
    render-target or depth/stencil bind always has a layout: the fix-up
    switch is not reached, the call returns, and the surface carries the
    table entry of the layout format. *)
Theorem supported_formats_need_no_fixup :
  forall (ext : Externals) (fq : FormatQueries)
         (target : pipe_texture_target) (sample_count bind : Z)
         (res : swr_resource) (allocate : bool) (h : allocator),
    swr_is_format_supported (format (base res)) target sample_count bind
    = true ->
    bind_has bind PIPE_BIND_RENDER_TARGET
    || bind_has bind PIPE_BIND_DEPTH_STENCIL = true ->
    exists b res' h',
      swr_texture_layout res allocate h = Returns (b, res', h')
      /\ surf_format (swr res')
         = mesa_to_swr_format (layout_format (base res))
      /\ swr_format_is_invalid (surf_format (swr res')) = false.
Proof.
  intros ext fq target sample_count bind res allocate h Hs Hb.
  destruct (supported_description _ _ _ _ Hs) as (d & _ & _ & Hrt & Hds).
  assert (Hentry : swr_format_is_invalid (mesa_to_swr_format (format (base res)))
                   = false).
  { apply orb_true_iff in Hb as [Hb|Hb];
      [destruct (Hrt Hb) as (_ & Hi & _)|destruct (Hds Hb) as (_ & Hi)];
      exact Hi. }
  assert (Hlayout : swr_format_is_invalid
                      (mesa_to_swr_format (layout_format (base res))) = false).
  { unfold layout_format.
    destruct (util_format_has_stencil _ && negb _); [reflexivity|exact Hentry]. }
  assert (Hf : has_swr_format (base res) = true).
  { unfold has_swr_format. cbv zeta. rewrite Hlayout. reflexivity. }
  destruct (swr_texture_layout_returns res allocate h Hf)
    as (b & res' & h' & Hrun & _ & _ & _ & _ & _ & _ & Hfix & _).
  exists b, res', h'. split; [exact Hrun|].
  destruct (fixup_inversion _ _ Hfix) as [[_ Heq]|[Hinv _]].
  - rewrite Heq. split; [reflexivity|exact Hlayout].
  - rewrite Hinv in Hlayout. discriminate.
Qed.

Lemma supported_formats_need_no_fixup_witness :
  swr_is_format_supported (ext := offscreen)
    (fq := ReferenceQueries.format_queries 0)
    (format (base (fresh_resource depth_stencil))) PIPE_TEXTURE_2D 1 1 = true
  /\ exists b res' h',
      swr_texture_layout (ext := offscreen) (fresh_resource depth_stencil)
                         true empty_heap
      = Returns (b, res', h')
      /\ surf_format (swr res') = R24_UNORM_X8_TYPELESS.
Proof.
  split; [reflexivity|].
  destruct (supported_formats_need_no_fixup offscreen
              (ReferenceQueries.format_queries 0) PIPE_TEXTURE_2D 1 1
              (fresh_resource depth_stencil) true empty_heap eq_refl eq_refl)
    as (b & res' & h' & Hrun & Hfmt & _).
  exists b, res', h'. split; [exact Hrun|exact Hfmt].
Defined.

(** ** Level offsets *)

Lemma fill_mip_offsets_beyond {ext : Externals} (last : nat)
    (s : SWR_SURFACE_STATE) (a : level_array) (level : nat) :
  (last < level)%nat -> fill_mip_offsets last s a level = a level.
Proof.
  intros Hl. unfold fill_mip_offsets, for_levels.
  assert (Hgen : forall count first arr,
             (first + count <= level)%nat ->
             for_levels_from count first
               (fun l arr =>
                  array_set arr l
                    (ComputeSurfaceOffset 0 0 0 0 0 (Z.of_nat l) s))
               arr level
             = arr level).
  { induction count as [|n IH]; intros first arr Hc; simpl.
    - reflexivity.
    - rewrite IH by lia. unfold array_set.
      destruct (Nat.eqb_spec level first); [lia|reflexivity]. }
  apply Hgen. lia.
Qed.

Lemma swr_texture_layout_offsets {ext : Externals}
    (res : swr_resource) (allocate : bool) (h : allocator)
    (b : bool) (res' : swr_resource) (h' : allocator) :
  swr_texture_layout res allocate h = Returns (b, res', h') ->
  mip_offsets res'
  = fill_mip_offsets (last_level (base res))
      (with_base_address (pBaseAddress (swr res)) (swr res'))
      (mip_offsets res)
  /\ (secondary_mip_offsets res' = secondary_mip_offsets res
      \/ exists s,
          secondary_mip_offsets res'
          = fill_mip_offsets (last_level (base res)) s
                             (secondary_mip_offsets res)).
Proof.
  unfold swr_texture_layout. intros Hrun.
  destruct (fixup_swr_format _ _) as [sfmt|]; [|discriminate].
  destruct (SWR_MAX_TEXTURE_SIZE <? total_size _).
  - injection Hrun as _ <- _. split; [reflexivity|left; reflexivity].
  - destruct allocate.
    + destruct (AlignedMalloc _ 64 h) as [p h1].
      destruct (util_format_has_depth _ && util_format_has_stencil _).
      * destruct (AlignedMalloc _ 64 h1) as [q h2].
        injection Hrun as _ <- _. split; [reflexivity|right].
        eexists. reflexivity.
      * injection Hrun as _ <- _. split; [reflexivity|left; reflexivity].
    + injection Hrun as _ <- _. split; [reflexivity|left; reflexivity].
Qed.

(** X11: the layout writes the offsets of the levels 0 to last_level and no
    other entry: each of those levels holds what the offset routine gives for
    it on the laid-out surface (taken before the base address is assigned),
    and the entries beyond last_level of both offset arrays are as they were
    before the call. *)
Theorem layout_writes_offsets_of_its_levels_only :
  forall (ext : Externals) (res : swr_resource) (allocate : bool)
         (h : allocator) (b : bool) (res' : swr_resource) (h' : allocator)
         (level : nat),
    swr_texture_layout res allocate h = Returns (b, res', h') ->
    ((level <= last_level (base res))%nat ->
     mip_offsets res' level
     = ComputeSurfaceOffset 0 0 0 0 0 (Z.of_nat level)
         (with_base_address (pBaseAddress (swr res)) (swr res')))
    /\ ((last_level (base res) < level)%nat ->
        mip_offsets res' level = mip_offsets res level
        /\ secondary_mip_offsets res' level
           = secondary_mip_offsets res level).
Proof.
  intros ext res allocate h b res' h' level Hrun.
  destruct (swr_texture_layout_offsets _ _ _ _ _ _ Hrun) as (Hoffs & Hsec).
  split.
  - intros Hl. rewrite Hoffs. apply fill_mip_offsets_level. exact Hl.
  - intros Hl. split.
    + rewrite Hoffs. apply fill_mip_offsets_beyond. exact Hl.
    + destruct Hsec as [->|[s ->]]; [reflexivity|].
      apply fill_mip_offsets_beyond. exact Hl.
Qed.

Lemma layout_writes_offsets_of_its_levels_only_witness :
  exists res' h',
    swr_texture_layout (ext := offscreen) (fresh_resource small_mipmapped)
                       true empty_heap
    = Returns (true, res', h')
    /\ (mip_offsets res' 7%nat = 0 /\ secondary_mip_offsets res' 7%nat = 0).
Proof.
  do 2 eexists. split; [reflexivity|].
  refine (proj2 (layout_writes_offsets_of_its_levels_only offscreen
                   (fresh_resource small_mipmapped) true empty_heap _ _ _
                   7%nat eq_refl) _).
  vm_compute. lia.
Defined.

(** ** Sizes within the advertised limits *)

Lemma wrap32_bounds (x : Z) : 0 <= x -> 0 <= wrap32 x <= x.
Proof.
  intros Hx. unfold wrap32. split.
  - apply Z.mod_pos_bound. lia.
  - apply Z.mod_le; lia.
Qed.

Lemma sum_bounds (f : nat -> Z) (B : Z) (l : list nat) :
  (forall L, 0 <= f L <= B) ->
  0 <= fold_right Z.add 0 (map f l) <= Z.of_nat (length l) * B.
Proof.
  intros Hf. induction l as [|x l IH]; cbn [map fold_right length].
  - lia.
  - specialize (Hf x). lia.
Qed.

Lemma sum_levels_bounds (f : nat -> Z) (B : Z) (first last : nat) :
  (forall L, 0 <= f L <= B) ->
  0 <= sum_levels f first last <= Z.of_nat (S last - first) * B.
Proof.
  intros Hf. unfold sum_levels.
  pose proof (sum_bounds f B (seq first (S last - first)) Hf) as Hs.
  rewrite length_seq in Hs. exact Hs.
Qed.

Lemma within_limits_numbers (pt : pipe_resource) :
  within_limits pt ->
  (last_level pt <= 13)%nat
  /\ 0 <= width0 pt <= 8192 /\ 0 <= height0 pt <= 8192
  /\ 0 <= depth0 pt <= 2048 /\ 0 <= array_size pt <= 3072.
Proof.
  unfold within_limits, SWR_MAX_TEXTURE_2D_LEVELS, SWR_MAX_TEXTURE_3D_LEVELS,
    SWR_MAX_TEXTURE_ARRAY_LAYERS.
  change (2 ^ Z.of_nat (14 - 1)) with 8192.
  change (2 ^ Z.of_nat (12 - 1)) with 2048.
  intros (Hl & Hw & Hh & Hd & Ha). repeat split; lia.
Qed.

Lemma wrap32_small (x : Z) : 0 <= x <= 14 * 8703 -> wrap32 x = x.
Proof.
  intros Hx. unfold wrap32. apply Z.mod_small.
  change (2 ^ 32) with 4294967296. lia.
Qed.

(** With an alignment of at most 32 * 16 texels, an aligned extent is at
    most 8192 + 511 = 8703. *)
Section Bounded.

Context {ext : Externals}.
Variable pt : pipe_resource.
Hypothesis helpers : helpers_bounded ext (layout_format pt).
Hypothesis limits : within_limits pt.

Lemma bind_align_bounds :
  1 <= fst (bind_align pt) <= 32 /\ 1 <= snd (bind_align pt) <= 32.
Proof.
  unfold bind_align.
  pose proof (macrotile_x_bounds ext _ helpers).
  pose proof (macrotile_y_bounds ext _ helpers).
  destruct (Z.land _ _ =? 0); cbn [fst snd]; lia.
Qed.

Lemma local_halign_bounds : 1 <= local_halign pt <= 512.
Proof.
  unfold local_halign, mul32, wrap32.
  pose proof bind_align_bounds as [Hx _].
  pose proof (blockwidth_bounds ext _ helpers) as Hw.
  rewrite Z.mod_small; nia.
Qed.

Lemma local_valign_bounds : 1 <= local_valign pt <= 512.
Proof.
  unfold local_valign, mul32, wrap32.
  pose proof bind_align_bounds as [_ Hy].
  pose proof (blockheight_bounds ext _ helpers) as Hh.
  rewrite Z.mod_small; nia.
Qed.

Lemma align_extent_bounds (e a : Z) :
  0 <= e <= 8192 -> 1 <= a <= 512 -> 0 <= align e a <= 8703.
Proof.
  intros He Ha.
  pose proof (align_bounds ext _ helpers e a) as Hb.
  premise Hb. premise Hb. lia.
Qed.

Lemma aligned_level_bounds (e a : Z) (L : nat) :
  0 <= e <= 8192 -> 1 <= a <= 512 -> 0 <= aligned_level e a L <= 8703.
Proof.
  intros He Ha. unfold aligned_level.
  pose proof (minify_bounds ext _ helpers e (Z.of_nat L)) as Hb.
  premise Hb. premise Hb. apply align_extent_bounds; lia.
Qed.

Lemma width_2d_exact (a : Z) :
  1 <= a <= 512 ->
  width_2d pt a
  = if (1 <? last_level pt)%nat
    then Z.max (align (width0 pt) a)
               (aligned_level (width0 pt) a 1 + aligned_level (width0 pt) a 2)
    else align (width0 pt) a.
Proof.
  intros Ha. destruct (within_limits_numbers pt limits) as (_ & Hw & _).
  pose proof (aligned_level_bounds (width0 pt) a 1 Hw Ha) as H1.
  pose proof (aligned_level_bounds (width0 pt) a 2 Hw Ha) as H2.
  unfold width_2d.
  change (align (u_minify (width0 pt) 1) a)
    with (aligned_level (width0 pt) a 1).
  change (align (u_minify (width0 pt) 2) a)
    with (aligned_level (width0 pt) a 2).
  unfold add32. rewrite wrap32_small by lia. reflexivity.
Qed.

Lemma height_2d_exact (a : Z) :
  1 <= a <= 512 ->
  height_2d pt a
  = align (height0 pt) a
    + (if (last_level pt =? 0)%nat then 0
       else Z.max (aligned_level (height0 pt) a 1)
                  (sum_levels (aligned_level (height0 pt) a) 2
                              (last_level pt))).
Proof.
  intros Ha. destruct (within_limits_numbers pt limits) as (Hl & _ & Hh & _).
  pose proof (align_extent_bounds (height0 pt) a Hh Ha) as H0.
  pose proof (aligned_level_bounds (height0 pt) a 1 Hh Ha) as H1.
  pose proof (sum_levels_bounds (aligned_level (height0 pt) a) 8703 2
                (last_level pt)
                (fun L => aligned_level_bounds (height0 pt) a L Hh Ha))
    as Hsum.
  assert (Hcount : Z.of_nat (S (last_level pt) - 2) <= 12) by lia.
  rewrite height_2d_described. unfold described_height, mipLevelCount, add32.
  destruct (last_level pt) as [|[|n]] eqn:Hlast.
  - cbn [Nat.eqb]. lia.
  - cbn [Nat.eqb]. unfold sum_levels in *. cbn [Nat.sub seq map fold_right].
    rewrite wrap32_small by lia. lia.
  - cbn [Nat.eqb].
    rewrite (wrap32_small (sum_levels _ _ _)) by nia.
    rewrite wrap32_small by nia. reflexivity.
Qed.

Lemma width_1d_exact (a : Z) :
  1 <= a <= 512 ->
  width_1d pt a
  = align (width0 pt) a
    + sum_levels (aligned_level (width0 pt) a) 1 (last_level pt).
Proof.
  intros Ha. destruct (within_limits_numbers pt limits) as (Hl & Hw & _).
  pose proof (align_extent_bounds (width0 pt) a Hw Ha) as H0.
  pose proof (sum_levels_bounds (aligned_level (width0 pt) a) 8703 1
                (last_level pt)
                (fun L => aligned_level_bounds (width0 pt) a L Hw Ha))
    as Hsum.
  assert (Hcount : Z.of_nat (S (last_level pt) - 1) <= 13) by lia.
  rewrite width_1d_described.
  destruct (last_level pt) as [|n] eqn:Hlast.
  - unfold described_width_1d, mipLevelCount, sum_levels. rewrite Hlast.
    cbn. lia.
  - rewrite described_width_1d_sum by lia. rewrite Hlast.
    apply wrap32_small. nia.
Qed.

Lemma width_2d_bounds (a : Z) :
  1 <= a <= 512 -> 0 <= width_2d pt a <= 2 * 8703.
Proof.
  intros Ha. destruct (within_limits_numbers pt limits) as (_ & Hw & _).
  rewrite (width_2d_exact a Ha).
  pose proof (align_extent_bounds (width0 pt) a Hw Ha).
  pose proof (aligned_level_bounds (width0 pt) a 1 Hw Ha).
  pose proof (aligned_level_bounds (width0 pt) a 2 Hw Ha).
  destruct (1 <? last_level pt)%nat; lia.
Qed.

Lemma height_2d_bounds (a : Z) :
  1 <= a <= 512 -> 0 <= height_2d pt a <= 14 * 8703.
Proof.
  intros Ha. destruct (within_limits_numbers pt limits) as (Hl & _ & Hh & _).
  rewrite (height_2d_exact a Ha).
  pose proof (align_extent_bounds (height0 pt) a Hh Ha) as H0.
  pose proof (aligned_level_bounds (height0 pt) a 1 Hh Ha) as H1.
  pose proof (sum_levels_bounds (aligned_level (height0 pt) a) 8703 2
                (last_level pt)
                (fun L => aligned_level_bounds (height0 pt) a L Hh Ha))
    as Hsum.
  assert (Hcount : Z.of_nat (S (last_level pt) - 2) <= 12) by lia.
  destruct (last_level pt =? 0)%nat; nia.
Qed.

Lemma width_1d_bounds (a : Z) :
  1 <= a <= 512 -> 0 <= width_1d pt a <= 14 * 8703.
Proof.
  intros Ha. destruct (within_limits_numbers pt limits) as (Hl & Hw & _).
  rewrite (width_1d_exact a Ha).
  pose proof (align_extent_bounds (width0 pt) a Hw Ha) as H0.
  pose proof (sum_levels_bounds (aligned_level (width0 pt) a) 8703 1
                (last_level pt)
                (fun L => aligned_level_bounds (width0 pt) a L Hw Ha))
    as Hsum.
  assert (Hcount : Z.of_nat (S (last_level pt) - 1) <= 13) by lia.
  nia.
Qed.

Lemma layout_pitch_bounds : 0 <= layout_pitch pt <= 128 * 8703.
Proof.
  unfold layout_pitch.
  pose proof (blocksize_bounds ext _ helpers) as Hbs.
  destruct (is_1d_target (target pt)); [lia|].
  pose proof (width_2d_bounds _ local_halign_bounds) as Hw.
  pose proof (stride_bounds ext _ helpers _ (proj1 Hw)).
  nia.
Qed.

Lemma layout_qpitch_bounds : 0 <= layout_qpitch pt <= 14 * 8703.
Proof.
  unfold layout_qpitch.
  destruct (is_1d_target (target pt)).
  - pose proof (width_1d_bounds _ local_halign_bounds) as Hw.
    pose proof (nblocksx_bounds ext _ helpers _ (proj1 Hw)).
    lia.
  - pose proof (height_2d_bounds _ local_valign_bounds) as Hh.
    pose proof (nblocksy_bounds ext _ helpers _ (proj1 Hh)).
    lia.
Qed.

Lemma layout_depth_bounds : 0 <= layout_depth pt <= 3072.
Proof.
  destruct (within_limits_numbers pt limits) as (_ & _ & _ & Hd & Ha).
  unfold layout_depth. destruct (target pt); lia.
Qed.

Lemma layout_product_bounds :
  0 <= layout_depth pt * layout_qpitch pt * layout_pitch pt < 2 ^ 49.
Proof.
  pose proof layout_pitch_bounds as Hp.
  pose proof layout_qpitch_bounds as Hq.
  pose proof layout_depth_bounds as Hd.
  assert (Hdq : 0 <= layout_depth pt * layout_qpitch pt <= 3072 * (14 * 8703))
    by nia.
  assert (Hdqp : layout_depth pt * layout_qpitch pt * layout_pitch pt
                 <= 3072 * (14 * 8703) * (128 * 8703)) by nia.
  split; [nia|]. change (2 ^ 49) with 562949953421312. lia.
Qed.

End Bounded.

(** X12: take a template within the limits the screen advertises (14 levels
    of at most 8192 texels, a depth of at most 2048, at most 512 layers of
    six faces) whose layout format has a block of 1 to 64 bytes and of at
    most 16 x 16 texels, helpers that round as their names say on that
    format, and a macrotile of at most 32 texels.  Then none of the unsigned
    products of the size wraps: the checked size is the exact product
    depth * qpitch * pitch, below 2^49, and the layout refuses the template
    exactly when that product is above 4 GiB. *)
Theorem size_does_not_wrap_within_limits :
  forall (ext : Externals) (res : swr_resource) (allocate : bool)
         (h : allocator),
    helpers_bounded ext (layout_format (base res)) ->
    within_limits (base res) ->
    has_swr_format (base res) = true ->
    exists b res' h',
      swr_texture_layout res allocate h = Returns (b, res', h')
      /\ let product :=
           depth (swr res') * qpitch (swr res') * pitch (swr res') in
         0 <= product < 2 ^ 49
         /\ total_size (swr res') = product
         /\ (b = false <-> SWR_MAX_TEXTURE_SIZE < product).
Proof.
  intros ext res allocate h Hh Hl Hf.
  destruct (swr_texture_layout_returns res allocate h Hf)
    as (b & res' & h' & Hrun & _ & Hp & Hq & Hd & _ & _ & _ & Hret & _).
  exists b, res', h'. split; [exact Hrun|]. cbv zeta.
  pose proof (layout_product_bounds (base res) Hh Hl) as Hprod.
  rewrite <- Hp, <- Hq, <- Hd in Hprod.
  assert (Hexact : total_size (swr res')
                   = depth (swr res') * qpitch (swr res') * pitch (swr res')).
  { apply total_size_exact. change (2 ^ 49) with 562949953421312 in Hprod.
    change (2 ^ 64) with 18446744073709551616. lia. }
  split; [exact Hprod|]. split; [exact Hexact|].
  rewrite <- Hexact, Hret.
  destruct (Z.ltb_spec SWR_MAX_TEXTURE_SIZE (total_size (swr res')));
    cbn [negb]; split; intros; try lia; try discriminate; reflexivity.
Qed.

(** The helpers of the reference instance round as their names say, on every
    format of its table. *)
Lemma align_up_bounds (v a : Z) :
  0 <= v -> 0 < a -> 0 <= align_up v a <= v + a - 1.
Proof.
  intros Hv Ha. unfold align_up.
  pose proof (Z.mul_div_le (v + a - 1) a Ha) as Hle.
  assert (0 <= (v + a - 1) / a) by (apply Z.div_pos; lia).
  pose proof (wrap32_bounds (a * ((v + a - 1) / a))) as Hw.
  premise Hw. lia.
Qed.

Lemma minify_reference_bounds (v L : Z) :
  0 <= v -> 0 <= L -> 1 <= minify v L <= Z.max 1 v.
Proof.
  intros Hv HL. unfold minify. rewrite Z.shiftr_div_pow2 by exact HL.
  assert (0 < 2 ^ L) by (apply Z.pow_pos_nonneg; lia).
  assert (v / 2 ^ L <= v) by (apply Z.div_le_upper_bound; nia).
  lia.
Qed.

Lemma block_count_bounds (x bw : Z) :
  0 <= x -> 1 <= bw -> 0 <= div32 (add32 x (bw - 1)) bw <= x.
Proof.
  intros Hx Hbw. unfold div32, add32.
  pose proof (wrap32_bounds (x + (bw - 1))) as Hw. premise Hw.
  split; [apply Z.div_pos; lia|].
  assert (wrap32 (x + (bw - 1)) / bw < x + 1)
    by (apply Z.div_lt_upper_bound; nia).
  lia.
Qed.

Lemma table_blockwidth_bounds (f : pipe_format) : 1 <= table_blockwidth f <= 4.
Proof.
  unfold table_blockwidth.
  destruct f; try (destruct (table_is_compressed _); lia); lia.
Qed.

Lemma table_blockheight_bounds (f : pipe_format) :
  1 <= table_blockheight f <= 4.
Proof. unfold table_blockheight. destruct (table_is_compressed f); lia. Qed.

Lemma table_blocksize_bounds (f : pipe_format) : 1 <= table_blocksize f <= 16.
Proof. destruct f; cbn; lia. Qed.

Lemma reference_helpers_bounded offset create map (fmt : pipe_format) :
  helpers_bounded (externals offset create map) fmt.
Proof.
  pose proof (table_blocksize_bounds fmt) as Hbs.
  pose proof (table_blockwidth_bounds fmt) as Hbw.
  pose proof (table_blockheight_bounds fmt) as Hbh.
  constructor; cbn [align u_minify util_format_get_nblocksx
                    util_format_get_nblocksy util_format_get_stride
                    util_format_get_blocksize util_format_get_blockwidth
                    util_format_get_blockheight KNOB_MACROTILE_X_DIM
                    KNOB_MACROTILE_Y_DIM externals]; try lia.
  - apply align_up_bounds.
  - apply minify_reference_bounds.
  - intros x Hx. apply block_count_bounds; [exact Hx|lia].
  - intros y Hy. apply block_count_bounds; [exact Hy|lia].
  - intros w Hw. unfold stride, mul32.
    pose proof (block_count_bounds w (table_blockwidth fmt) Hw
                  (proj1 Hbw)) as Hn.
    fold (nblocksx fmt w) in Hn.
    pose proof (wrap32_bounds (nblocksx fmt w * table_blocksize fmt)) as Hwrap.
    assert (0 <= nblocksx fmt w * table_blocksize fmt) by nia.
    premise Hwrap. nia.
Qed.

Lemma size_does_not_wrap_within_limits_witness :
  helpers_bounded offscreen
    (layout_format (ext := offscreen) (base (fresh_resource small_mipmapped)))
  /\ within_limits (base (fresh_resource small_mipmapped))
  /\ has_swr_format (ext := offscreen) (base (fresh_resource small_mipmapped))
     = true
  /\ exists b res' h',
      swr_texture_layout (ext := offscreen) (fresh_resource small_mipmapped)
                         true empty_heap
      = Returns (b, res', h')
      /\ total_size (swr res')
         = depth (swr res') * qpitch (swr res') * pitch (swr res').
Proof.
  assert (Hl : within_limits (base (fresh_resource small_mipmapped))).
  { unfold within_limits, SWR_MAX_TEXTURE_2D_LEVELS. cbn.
    repeat split; try lia; discriminate. }
  split; [apply reference_helpers_bounded|]. split; [exact Hl|].
  split; [reflexivity|].
  destruct (size_does_not_wrap_within_limits offscreen
              (fresh_resource small_mipmapped) true empty_heap
              (reference_helpers_bounded _ _ _ _) Hl eq_refl)
    as (b & res' & h' & Hrun & _ & Hexact & _).
  exists b, res', h'. split; [exact Hrun|exact Hexact].
Defined.

(** X13: under the same conditions (a template within the advertised limits
    whose layout format has a block of 1 to 64 bytes and of at most 16 x 16
    texels, helpers that round as their names say on that format, a macrotile
    of at most 32 texels), the staircase is computed without any unsigned
    wrap.  The 1D width is the integer sum of the aligned widths of all
    levels; the 2D pitch width is the larger of level 0 and of levels 1 and 2
    side by side; the 2D height is level 0 plus, when there is more than one
    level, the larger of level 1 and of the integer sum of levels 2 to the
    last, which for two levels is level 1 itself: the two-level case of the
    source is the general case with an empty sum. *)
Theorem staircase_is_exact_within_limits :
  forall (ext : Externals) (res : swr_resource) (allocate : bool)
         (h : allocator),
    helpers_bounded ext (layout_format (base res)) ->
    within_limits (base res) ->
    has_swr_format (base res) = true ->
    exists b res' h',
      swr_texture_layout res allocate h = Returns (b, res', h')
      /\ let pt := base res in
         let fmt := layout_format pt in
         let wl := aligned_level (width0 pt) (local_halign pt) in
         let hl := aligned_level (height0 pt) (local_valign pt) in
         (is_1d_target (target pt) = true ->
          qpitch (swr res')
          = util_format_get_nblocksx fmt
              (align (width0 pt) (local_halign pt)
               + sum_levels wl 1 (last_level pt)))
         /\ (is_1d_target (target pt) = false ->
             pitch (swr res')
             = util_format_get_stride fmt
                 (if (1 <? last_level pt)%nat
                  then Z.max (align (width0 pt) (local_halign pt))
                             (wl 1%nat + wl 2%nat)
                  else align (width0 pt) (local_halign pt))
             /\ qpitch (swr res')
                = util_format_get_nblocksy fmt
                    (align (height0 pt) (local_valign pt)
                     + (if (last_level pt =? 0)%nat then 0
                        else Z.max (hl 1%nat)
                                   (sum_levels hl 2 (last_level pt))))).
Proof.
  intros ext res allocate h Hh Hl Hf.
  destruct (swr_texture_layout_returns res allocate h Hf)
    as (b & res' & h' & Hrun & _ & Hp & Hq & _).
  exists b, res', h'. split; [exact Hrun|]. cbv zeta.
  rewrite Hp, Hq. unfold layout_pitch, layout_qpitch.
  pose proof (local_halign_bounds (base res) Hh) as Hha.
  pose proof (local_valign_bounds (base res) Hh) as Hva.
  split.
  - intros ->. rewrite (width_1d_exact (base res) Hh Hl _ Hha). reflexivity.
  - intros ->.
    rewrite (width_2d_exact (base res) Hh Hl _ Hha),
      (height_2d_exact (base res) Hh Hl _ Hva).
    split; reflexivity.
Qed.

Lemma staircase_is_exact_within_limits_witness :
  helpers_bounded offscreen
    (layout_format (ext := offscreen) (base (fresh_resource small_mipmapped)))
  /\ within_limits (base (fresh_resource small_mipmapped))
  /\ has_swr_format (ext := offscreen) (base (fresh_resource small_mipmapped))
     = true
  /\ exists b res' h',
      swr_texture_layout (ext := offscreen) (fresh_resource small_mipmapped)
                         true empty_heap
      = Returns (b, res', h')
      /\ pitch (swr res') = 4 * Z.max 16 (8 + 4)
      /\ qpitch (swr res') = 16 + Z.max 8 (4 + 2 + 1).
Proof.
  assert (Hl : within_limits (base (fresh_resource small_mipmapped))).
  { unfold within_limits, SWR_MAX_TEXTURE_2D_LEVELS. cbn.
    repeat split; try lia; discriminate. }
  split; [apply reference_helpers_bounded|]. split; [exact Hl|].
  split; [reflexivity|].
  destruct (staircase_is_exact_within_limits offscreen
              (fresh_resource small_mipmapped) true empty_heap
              (reference_helpers_bounded _ _ _ _) Hl eq_refl)
    as (b & res' & h' & Hrun & _ & H2d).
  exists b, res', h'. split; [exact Hrun|].
  destruct (H2d eq_refl) as (Hp & Hq). rewrite Hp, Hq. split; reflexivity.
Defined.
